(** * prophESy: the cluster session manager of the Elasticsearch explorer

    A shallow embedding of [src/extension.ts]: the command handlers of
    [activate] and the [ESExplorerProvider] class (profile table, connection
    registry, health cache, active pointer, auto-refresh, auto-reconnect,
    import).  The provider's fields and the extension context it writes
    to (global state, secret storage, [process.env]) form one record that is
    threaded through every operation by a small state monad.  Whatever the
    outside world decides (prompt answers, the outcome of [ping] and
    [cluster.health], the clock, [Math.random]) is read from an [Env] of
    oracles indexed by a logical clock, so that successive calls may answer
    differently.

    Conventions of the embedding:
    - one operation runs at a time: an [await] hands control back only to
      the caller, and a call the source does not await ([refreshClusterHealth]
      in [startAutoRefresh], [loadClusters] in the constructor) takes effect
      where it is made;
    - [globalState.get]/[update] and [secrets.get]/[store]/[delete] always
      go through, [store] on strings only;
    - [new Client(options)] followed by [ping()] is one probe: a constructor
      that throws and a ping that rejects reach the same [catch];
    - progress reports and console output are left out of the log. *)

From stdpp Require Import gmap strings list fin_maps pretty.
From Stdlib Require Import ZArith.

#[local] Open Scope string_scope.

(** ** JavaScript values *)

(** Truthiness of a [string | undefined]: [undefined] and [''] are falsy. *)
Definition truthy (v : option string) : bool :=
  match v with
  | Some s => negb (String.eqb s EmptyString)
  | None => false
  end.

(** [v || d] on strings. *)
Definition or_string (v : option string) (d : string) : string :=
  match v with
  | Some s => if String.eqb s EmptyString then d else s
  | None => d
  end.

(** [v || 0] on numbers. *)
Definition or_zero (v : option Z) : Z := default 0%Z v.

(** [if (b)] on a [boolean | undefined]. *)
Definition truthy_bool (v : option bool) : bool := default false v.

(** ** [Map<string, V>]: keys in insertion order, one entry per key *)

Module JsMap.

Fixpoint get {V : Type} (k : string) (m : list (string * V)) : option V :=
  match m with
  | [] => None
  | (k', v) :: r => if String.eqb k k' then Some v else get k r
  end.

(** [set] on a present key overwrites in place, otherwise appends. *)
Fixpoint set {V : Type} (k : string) (v : V) (m : list (string * V))
  : list (string * V) :=
  match m with
  | [] => [(k, v)]
  | (k', v') :: r =>
      if String.eqb k k' then (k, v) :: r else (k', v') :: set k v r
  end.

Fixpoint delete {V : Type} (k : string) (m : list (string * V))
  : list (string * V) :=
  match m with
  | [] => []
  | (k', v') :: r =>
      if String.eqb k k' then delete k r else (k', v') :: delete k r
  end.

Definition keys {V : Type} (m : list (string * V)) : list string := m.*1.

Definition values {V : Type} (m : list (string * V)) : list V := m.*2.

Definition has {V : Type} (k : string) (m : list (string * V)) : bool :=
  match get k m with Some _ => true | None => false end.

End JsMap.

(** ** Data model *)

Module ClusterConfig.

Record t : Type := mk {
  id : string;
  name : string;
  deploymentType : string;
  nodeUrl : option string;
  cloudId : option string;
  authMethod : string;
  disableSSL : option bool
}.

End ClusterConfig.

(** An entry of an import document, as [JSON.parse] hands it over: any
    field may be missing.  [doc_id] stands for an [id] property that a
    document may carry although [ClusterExportData] does not declare it. *)
Module ClusterExportData.

Record t : Type := mk {
  doc_id : option string;
  name : option string;
  deploymentType : option string;
  nodeUrl : option string;
  cloudId : option string;
  authMethod : option string;
  disableSSL : option bool
}.

End ClusterExportData.

Inductive Auth : Type :=
| BasicAuth (username password : string)
| ApiKeyAuth (apiKey : string).

(** [clientOptions.cloud = { id }] or [clientOptions.node = url]. *)
Inductive Endpoint : Type :=
| Cloud (id : option string)
| Node (url : option string).

Record ClientOptions : Type := mkOptions {
  endpoint : Endpoint;
  auth : option Auth;
  ssl_rejectUnauthorized : option bool;
  tls_ca : option string
}.

(** A client handle is told apart by the options it was built from. *)
Definition Client : Type := ClientOptions.

(** The body of a [cluster.health()] answer. *)
Module HealthResponse.

Record t : Type := mk {
  status : option string;
  cluster_name : option string;
  number_of_nodes : option Z;
  number_of_data_nodes : option Z;
  active_primary_shards : option Z;
  active_shards : option Z
}.

End HealthResponse.

Record ClusterHealth : Type := mkHealth {
  status : string;
  clusterName : string;
  numberOfNodes : Z;
  numberOfDataNodes : Z;
  activePrimaryShards : Z;
  activeShards : Z;
  lastChecked : Z
}.

(** A promise that resolves, or rejects with [err.message]. *)
Inductive Outcome : Type :=
| Resolved
| Rejected (message : string).

Definition resolved (o : Outcome) : bool :=
  match o with Resolved => true | Rejected _ => false end.

(** What the extension does to the outside world, in order:
    [_onDidChangeTreeData.fire()], the three kinds of
    [vscode.window.show...Message], [showInputBox], [showQuickPick], a probe
    with the options of its client and its outcome, a [cluster.health()]
    call for an id and its outcome. *)
Inductive Event : Type :=
| Fire
| InformationMessage (msg : string)
| WarningMessage (msg : string)
| ErrorMessage (msg : string)
| InputBox (prompt : string)
| QuickPick (placeHolder : string)
| Ping (opts : ClientOptions) (ok : bool)
| HealthQuery (clusterId : string) (ok : bool).

#[global] Instance Auth_eq_dec : EqDecision Auth.
Proof. solve_decision. Defined.
#[global] Instance Endpoint_eq_dec : EqDecision Endpoint.
Proof. solve_decision. Defined.
#[global] Instance ClientOptions_eq_dec : EqDecision ClientOptions.
Proof. solve_decision. Defined.
#[global] Instance Event_eq_dec : EqDecision Event.
Proof. solve_decision. Defined.

(** What the import dialog and [JSON.parse] hand over: nothing selected, a
    file that cannot be read or parsed, or a document whose [clusters]
    property is an array ([None] when it is missing or not an array).  An
    element of the array is read through its properties, which a number, a
    string or a boolean lacks like the empty object does; the element
    [null] is written [None]: reading a property of [null] throws. *)
Inductive ImportFile : Type :=
| NoFileSelected
| Unreadable (message : string)
| Document (clusters : option (list (option ClusterExportData.t))).

(** What the outside world answers.  The first argument is the logical
    clock of the call.  [nullPropertyError] is the text that [`${error}`]
    prints for the [TypeError] thrown by reading a property of [null]. *)
Record Env : Type := mkEnv {
  showInputBox : nat → string → option string;
  showQuickPick : nat → string → option string;
  showWarningChoice : nat → string → option string;
  ping : nat → ClientOptions → Outcome;
  health : nat → ClientOptions → option HealthResponse.t;
  now : nat → Z;
  random : nat → string;
  openImportFile : nat → ImportFile;
  storeUndefinedMessage : string;
  nullPropertyError : string;
  JSON_stringify : ClusterConfig.t → string;
  JSON_parse : string → option ClusterConfig.t
}.

(** ** The state: provider fields, extension context, process environment

    [clusters], [clients], [clusterHealth], [activeClusterId],
    [autoRefreshEnabled] and [refreshTimer] (is an interval scheduled?) are
    the fields of [ESExplorerProvider].  The [gs_] fields are the
    [context.globalState] entries [esExt.clusterIds],
    [esExt.connectedClusters], [esExt.autoRefreshEnabled] and
    [esExt.caCertificate]; [secrets] is [context.secrets].
    [NODE_TLS_REJECT_UNAUTHORIZED] is the variable of [process.env].
    [clock] counts the questions asked to the outside world and [events] is
    the log. *)

Record World : Type := mkWorld {
  clusters : list (string * ClusterConfig.t);
  clients : list (string * Client);
  clusterHealth : gmap string ClusterHealth;
  activeClusterId : option string;
  autoRefreshEnabled : bool;
  refreshTimer : bool;
  gs_clusterIds : list string;
  gs_connectedClusters : list string;
  gs_autoRefreshEnabled : bool;
  gs_caCertificate : option string;
  secrets : gmap string string;
  NODE_TLS_REJECT_UNAUTHORIZED : option string;
  clock : nat;
  events : list Event
}.

(** Field updates. *)

Definition set_clusters (v : list (string * ClusterConfig.t)) (w : World) : World :=
  {| clusters := v; clients := clients w; clusterHealth := clusterHealth w;
     activeClusterId := activeClusterId w;
     autoRefreshEnabled := autoRefreshEnabled w;
     refreshTimer := refreshTimer w; gs_clusterIds := gs_clusterIds w;
     gs_connectedClusters := gs_connectedClusters w;
     gs_autoRefreshEnabled := gs_autoRefreshEnabled w;
     gs_caCertificate := gs_caCertificate w; secrets := secrets w;
     NODE_TLS_REJECT_UNAUTHORIZED := NODE_TLS_REJECT_UNAUTHORIZED w;
     clock := clock w; events := events w |}.

Definition set_clients (v : list (string * Client)) (w : World) : World :=
  {| clusters := clusters w; clients := v; clusterHealth := clusterHealth w;
     activeClusterId := activeClusterId w;
     autoRefreshEnabled := autoRefreshEnabled w;
     refreshTimer := refreshTimer w; gs_clusterIds := gs_clusterIds w;
     gs_connectedClusters := gs_connectedClusters w;
     gs_autoRefreshEnabled := gs_autoRefreshEnabled w;
     gs_caCertificate := gs_caCertificate w; secrets := secrets w;
     NODE_TLS_REJECT_UNAUTHORIZED := NODE_TLS_REJECT_UNAUTHORIZED w;
     clock := clock w; events := events w |}.

Definition set_clusterHealth (v : gmap string ClusterHealth) (w : World) : World :=
  {| clusters := clusters w; clients := clients w; clusterHealth := v;
     activeClusterId := activeClusterId w;
     autoRefreshEnabled := autoRefreshEnabled w;
     refreshTimer := refreshTimer w; gs_clusterIds := gs_clusterIds w;
     gs_connectedClusters := gs_connectedClusters w;
     gs_autoRefreshEnabled := gs_autoRefreshEnabled w;
     gs_caCertificate := gs_caCertificate w; secrets := secrets w;
     NODE_TLS_REJECT_UNAUTHORIZED := NODE_TLS_REJECT_UNAUTHORIZED w;
     clock := clock w; events := events w |}.

Definition set_activeClusterId (v : option string) (w : World) : World :=
  {| clusters := clusters w; clients := clients w;
     clusterHealth := clusterHealth w; activeClusterId := v;
     autoRefreshEnabled := autoRefreshEnabled w;
     refreshTimer := refreshTimer w; gs_clusterIds := gs_clusterIds w;
     gs_connectedClusters := gs_connectedClusters w;
     gs_autoRefreshEnabled := gs_autoRefreshEnabled w;
     gs_caCertificate := gs_caCertificate w; secrets := secrets w;
     NODE_TLS_REJECT_UNAUTHORIZED := NODE_TLS_REJECT_UNAUTHORIZED w;
     clock := clock w; events := events w |}.

Definition set_autoRefreshEnabled (v : bool) (w : World) : World :=
  {| clusters := clusters w; clients := clients w;
     clusterHealth := clusterHealth w; activeClusterId := activeClusterId w;
     autoRefreshEnabled := v; refreshTimer := refreshTimer w;
     gs_clusterIds := gs_clusterIds w;
     gs_connectedClusters := gs_connectedClusters w;
     gs_autoRefreshEnabled := gs_autoRefreshEnabled w;
     gs_caCertificate := gs_caCertificate w; secrets := secrets w;
     NODE_TLS_REJECT_UNAUTHORIZED := NODE_TLS_REJECT_UNAUTHORIZED w;
     clock := clock w; events := events w |}.

Definition set_refreshTimer (v : bool) (w : World) : World :=
  {| clusters := clusters w; clients := clients w;
     clusterHealth := clusterHealth w; activeClusterId := activeClusterId w;
     autoRefreshEnabled := autoRefreshEnabled w; refreshTimer := v;
     gs_clusterIds := gs_clusterIds w;
     gs_connectedClusters := gs_connectedClusters w;
     gs_autoRefreshEnabled := gs_autoRefreshEnabled w;
     gs_caCertificate := gs_caCertificate w; secrets := secrets w;
     NODE_TLS_REJECT_UNAUTHORIZED := NODE_TLS_REJECT_UNAUTHORIZED w;
     clock := clock w; events := events w |}.

Definition set_gs_clusterIds (v : list string) (w : World) : World :=
  {| clusters := clusters w; clients := clients w;
     clusterHealth := clusterHealth w; activeClusterId := activeClusterId w;
     autoRefreshEnabled := autoRefreshEnabled w;
     refreshTimer := refreshTimer w; gs_clusterIds := v;
     gs_connectedClusters := gs_connectedClusters w;
     gs_autoRefreshEnabled := gs_autoRefreshEnabled w;
     gs_caCertificate := gs_caCertificate w; secrets := secrets w;
     NODE_TLS_REJECT_UNAUTHORIZED := NODE_TLS_REJECT_UNAUTHORIZED w;
     clock := clock w; events := events w |}.

Definition set_gs_connectedClusters (v : list string) (w : World) : World :=
  {| clusters := clusters w; clients := clients w;
     clusterHealth := clusterHealth w; activeClusterId := activeClusterId w;
     autoRefreshEnabled := autoRefreshEnabled w;
     refreshTimer := refreshTimer w; gs_clusterIds := gs_clusterIds w;
     gs_connectedClusters := v;
     gs_autoRefreshEnabled := gs_autoRefreshEnabled w;
     gs_caCertificate := gs_caCertificate w; secrets := secrets w;
     NODE_TLS_REJECT_UNAUTHORIZED := NODE_TLS_REJECT_UNAUTHORIZED w;
     clock := clock w; events := events w |}.

Definition set_gs_autoRefreshEnabled (v : bool) (w : World) : World :=
  {| clusters := clusters w; clients := clients w;
     clusterHealth := clusterHealth w; activeClusterId := activeClusterId w;
     autoRefreshEnabled := autoRefreshEnabled w;
     refreshTimer := refreshTimer w; gs_clusterIds := gs_clusterIds w;
     gs_connectedClusters := gs_connectedClusters w;
     gs_autoRefreshEnabled := v; gs_caCertificate := gs_caCertificate w;
     secrets := secrets w;
     NODE_TLS_REJECT_UNAUTHORIZED := NODE_TLS_REJECT_UNAUTHORIZED w;
     clock := clock w; events := events w |}.

Definition set_gs_caCertificate (v : option string) (w : World) : World :=
  {| clusters := clusters w; clients := clients w;
     clusterHealth := clusterHealth w; activeClusterId := activeClusterId w;
     autoRefreshEnabled := autoRefreshEnabled w;
     refreshTimer := refreshTimer w; gs_clusterIds := gs_clusterIds w;
     gs_connectedClusters := gs_connectedClusters w;
     gs_autoRefreshEnabled := gs_autoRefreshEnabled w; gs_caCertificate := v;
     secrets := secrets w;
     NODE_TLS_REJECT_UNAUTHORIZED := NODE_TLS_REJECT_UNAUTHORIZED w;
     clock := clock w; events := events w |}.

Definition set_secrets (v : gmap string string) (w : World) : World :=
  {| clusters := clusters w; clients := clients w;
     clusterHealth := clusterHealth w; activeClusterId := activeClusterId w;
     autoRefreshEnabled := autoRefreshEnabled w;
     refreshTimer := refreshTimer w; gs_clusterIds := gs_clusterIds w;
     gs_connectedClusters := gs_connectedClusters w;
     gs_autoRefreshEnabled := gs_autoRefreshEnabled w;
     gs_caCertificate := gs_caCertificate w; secrets := v;
     NODE_TLS_REJECT_UNAUTHORIZED := NODE_TLS_REJECT_UNAUTHORIZED w;
     clock := clock w; events := events w |}.

Definition set_NODE_TLS_REJECT_UNAUTHORIZED (v : option string) (w : World) : World :=
  {| clusters := clusters w; clients := clients w;
     clusterHealth := clusterHealth w; activeClusterId := activeClusterId w;
     autoRefreshEnabled := autoRefreshEnabled w;
     refreshTimer := refreshTimer w; gs_clusterIds := gs_clusterIds w;
     gs_connectedClusters := gs_connectedClusters w;
     gs_autoRefreshEnabled := gs_autoRefreshEnabled w;
     gs_caCertificate := gs_caCertificate w; secrets := secrets w;
     NODE_TLS_REJECT_UNAUTHORIZED := v; clock := clock w; events := events w |}.

Definition set_clock (v : nat) (w : World) : World :=
  {| clusters := clusters w; clients := clients w;
     clusterHealth := clusterHealth w; activeClusterId := activeClusterId w;
     autoRefreshEnabled := autoRefreshEnabled w;
     refreshTimer := refreshTimer w; gs_clusterIds := gs_clusterIds w;
     gs_connectedClusters := gs_connectedClusters w;
     gs_autoRefreshEnabled := gs_autoRefreshEnabled w;
     gs_caCertificate := gs_caCertificate w; secrets := secrets w;
     NODE_TLS_REJECT_UNAUTHORIZED := NODE_TLS_REJECT_UNAUTHORIZED w;
     clock := v; events := events w |}.

Definition set_events (v : list Event) (w : World) : World :=
  {| clusters := clusters w; clients := clients w;
     clusterHealth := clusterHealth w; activeClusterId := activeClusterId w;
     autoRefreshEnabled := autoRefreshEnabled w;
     refreshTimer := refreshTimer w; gs_clusterIds := gs_clusterIds w;
     gs_connectedClusters := gs_connectedClusters w;
     gs_autoRefreshEnabled := gs_autoRefreshEnabled w;
     gs_caCertificate := gs_caCertificate w; secrets := secrets w;
     NODE_TLS_REJECT_UNAUTHORIZED := NODE_TLS_REJECT_UNAUTHORIZED w;
     clock := clock w; events := v |}.

(** ** State monad *)

Definition M (A : Type) : Type := World → A * World.

#[global] Instance M_ret : MRet M := λ A a w, (a, w).
#[global] Instance M_bind : MBind M := λ A B k m w, k (m w).1 (m w).2.

Definition gets {A : Type} (f : World → A) : M A := λ w, (f w, w).

Definition modify (f : World → World) : M unit := λ w, ((), f w).

Definition emit (e : Event) : M unit :=
  modify (λ w, set_events (events w ++ [e]) w).

(** Reads the logical clock and advances it: one call per question asked
    to the outside world. *)
Definition tick : M nat := λ w, (clock w, set_clock (S (clock w)) w).

(** The events a computation adds to the log. *)
Definition emitted {A : Type} (m : M A) (w : World) : list Event :=
  drop (length (events w)) (events (m w).2).

Definition count_fires (l : list Event) : nat :=
  length (filter (λ e, e = Fire) l).

(** ** The choices of the add flow that the code compares against *)

Definition BASIC : string := "Basic: Username/Password".
Definition API_KEY : string := "API Key".
Definition ELASTIC_CLOUD : string := "Elastic Cloud".

(** ** Secret storage and global state *)

(** The key [`esExt.cluster.${clusterId}.${field}`]. *)
Definition secretKey (clusterId field : string) : string :=
  "esExt.cluster." +:+ clusterId +:+ "." +:+ field.

Definition credentialFields : list string := ["username"; "password"; "apiKey"].

Definition secrets_get (key : string) : M (option string) :=
  gets (λ w, secrets w !! key).

Definition secrets_store (key value : string) : M unit :=
  modify (λ w, set_secrets (<[key := value]> (secrets w)) w).

Definition secrets_delete (key : string) : M unit :=
  modify (λ w, set_secrets (delete key (secrets w)) w).

(** [array.includes(x)] on strings. *)
Definition includes (x : string) (l : list string) : bool :=
  existsb (String.eqb x) l.

Definition showInformationMessage (msg : string) : M unit :=
  emit (InformationMessage msg).

Definition showWarningMessage (msg : string) : M unit :=
  emit (WarningMessage msg).

Definition showErrorMessage (msg : string) : M unit :=
  emit (ErrorMessage msg).

Section Provider.

Variable E : Env.

(** [vscode.window.showInputBox({ prompt })]. *)
Definition askInputBox (prompt : string) : M (option string) :=
  t ← tick;
  emit (InputBox prompt);;
  mret (showInputBox E t prompt).

(** [vscode.window.showQuickPick(items, { placeHolder })]. *)
Definition askQuickPick (placeHolder : string) : M (option string) :=
  t ← tick;
  emit (QuickPick placeHolder);;
  mret (showQuickPick E t placeHolder).

(** [vscode.window.showWarningMessage(msg, ...buttons)], answered by the
    label of the button pressed. *)
Definition askWarning (msg : string) : M (option string) :=
  t ← tick;
  emit (WarningMessage msg);;
  mret (showWarningChoice E t msg).

(** ** ESExplorerProvider *)

Definition refresh : M unit := emit Fire.

Definition getActiveClient : M (option Client) :=
  a ← gets activeClusterId;
  if truthy a
  then cs ← gets clients; mret (JsMap.get (default EmptyString a) cs)
  else mret None.

Definition getActiveCluster : M (option ClusterConfig.t) :=
  a ← gets activeClusterId;
  if truthy a
  then cs ← gets clusters; mret (JsMap.get (default EmptyString a) cs)
  else mret None.

Definition getCluster (clusterId : string) : M (option ClusterConfig.t) :=
  gets (λ w, JsMap.get clusterId (clusters w)).

Definition setActiveCluster (clusterId : string) : M unit :=
  modify (set_activeClusterId (Some clusterId));;
  refresh.

Definition saveClusterConfig (config : ClusterConfig.t) : M unit :=
  secrets_store (secretKey (ClusterConfig.id config) "config")
                (JSON_stringify E config);;
  clusterIds ← gets gs_clusterIds;
  if includes (ClusterConfig.id config) clusterIds then mret ()
  else modify (set_gs_clusterIds (clusterIds ++ [ClusterConfig.id config])).

Definition addCluster (config : ClusterConfig.t) : M unit :=
  modify (λ w, set_clusters
                 (JsMap.set (ClusterConfig.id config) config (clusters w)) w);;
  saveClusterConfig config;;
  a ← gets activeClusterId;
  (if truthy a then mret ()
   else modify (set_activeClusterId (Some (ClusterConfig.id config))));;
  refresh.

(** [credentials] of the add flow: [{}], [{ username, password }] or
    [{ apiKey }]. *)
Record Credentials : Type := mkCredentials {
  cred_username : option string;
  cred_password : option string;
  cred_apiKey : option string
}.

(** [secrets.store(key, value)] is typed on strings; storing an
    [undefined] property rejects.  The result tells whether every store
    went through. *)
Definition secrets_store_opt (key : string) (value : option string)
  : M bool :=
  match value with
  | Some v => secrets_store key v;; mret true
  | None => mret false
  end.

Definition storeClusterCredentials (clusterId authMethod : string)
    (credentials : Credentials) : M bool :=
  if String.eqb authMethod BASIC then
    ok ← secrets_store_opt (secretKey clusterId "username")
                           (cred_username credentials);
    if (ok : bool) then secrets_store_opt (secretKey clusterId "password")
                                 (cred_password credentials)
    else mret false
  else if String.eqb authMethod API_KEY then
    secrets_store_opt (secretKey clusterId "apiKey") (cred_apiKey credentials)
  else mret true.

Definition saveConnectedCluster (clusterId : string) : M unit :=
  connectedClusters ← gets gs_connectedClusters;
  if includes clusterId connectedClusters then mret ()
  else modify (set_gs_connectedClusters (connectedClusters ++ [clusterId])).

Definition removeConnectedCluster (clusterId : string) : M unit :=
  connectedClusters ← gets gs_connectedClusters;
  modify (set_gs_connectedClusters
            (filter (λ i, i ≠ clusterId) connectedClusters)).

Definition removeCluster (clusterId : string) : M unit :=
  modify (λ w, set_clusters (JsMap.delete clusterId (clusters w)) w);;
  modify (λ w, set_clients (JsMap.delete clusterId (clients w)) w);;
  removeConnectedCluster clusterId;;
  secrets_delete (secretKey clusterId "config");;
  secrets_delete (secretKey clusterId "username");;
  secrets_delete (secretKey clusterId "password");;
  secrets_delete (secretKey clusterId "apiKey");;
  a ← gets activeClusterId;
  (if bool_decide (a = Some clusterId) then
     cs ← gets clusters;
     modify (set_activeClusterId (head (JsMap.keys cs)))
   else mret ());;
  refresh.

Definition disconnectFromCluster (clusterId : string) : M unit :=
  modify (λ w, set_clients (JsMap.delete clusterId (clients w)) w);;
  removeConnectedCluster clusterId;;
  modify (λ w, set_clusterHealth (delete clusterId (clusterHealth w)) w);;
  a ← gets activeClusterId;
  (if bool_decide (a = Some clusterId) then modify (set_activeClusterId None)
   else mret ());;
  refresh;;
  cluster ← getCluster clusterId;
  showInformationMessage
    ("Disconnected from " +:+
     match cluster with Some c => ClusterConfig.name c | None => "Unknown" end).

(** ** Health *)

Definition unknownHealth (checked : Z) : ClusterHealth :=
  {| status := "unknown"; clusterName := "Unknown"; numberOfNodes := 0;
     numberOfDataNodes := 0; activePrimaryShards := 0; activeShards := 0;
     lastChecked := checked |}.

Definition healthOf (h : HealthResponse.t) (checked : Z) : ClusterHealth :=
  {| status := or_string (HealthResponse.status h) "unknown";
     clusterName := or_string (HealthResponse.cluster_name h) "Unknown";
     numberOfNodes := or_zero (HealthResponse.number_of_nodes h);
     numberOfDataNodes := or_zero (HealthResponse.number_of_data_nodes h);
     activePrimaryShards := or_zero (HealthResponse.active_primary_shards h);
     activeShards := or_zero (HealthResponse.active_shards h);
     lastChecked := checked |}.

(** The snapshot a health answer (or its failure) turns into. *)
Definition snapshotOf (r : option HealthResponse.t) (checked : Z)
  : ClusterHealth :=
  match r with
  | Some h => healthOf h checked
  | None => unknownHealth checked
  end.

(** The block [try { health = await client.cluster.health(); set(...) }
    catch { set(unknown) }], written out three times in the source. *)
Definition fetchHealth (clusterId : string) (client : Client) : M unit :=
  t ← tick;
  emit (HealthQuery clusterId (bool_decide (is_Some (health E t client))));;
  modify (λ w, set_clusterHealth
                 (<[clusterId := snapshotOf (health E t client) (now E t)]>
                    (clusterHealth w)) w).

Fixpoint refreshLoop (cs : list (string * Client)) : M unit :=
  match cs with
  | [] => mret ()
  | (clusterId, client) :: rest =>
      fetchHealth clusterId client;;
      refreshLoop rest
  end.

Definition refreshClusterHealth : M unit :=
  cs ← gets clients;
  refreshLoop cs;;
  refresh.

Definition stopAutoRefresh : M unit :=
  modify (set_refreshTimer false).

Definition startAutoRefresh : M unit :=
  stopAutoRefresh;;
  modify (set_refreshTimer true);;
  refreshClusterHealth.

Definition toggleAutoRefresh : M unit :=
  modify (λ w, set_autoRefreshEnabled (negb (autoRefreshEnabled w)) w);;
  modify (λ w, set_gs_autoRefreshEnabled (autoRefreshEnabled w) w);;
  enabled ← gets autoRefreshEnabled;
  if (enabled : bool) then
    showInformationMessage
      "Auto-refresh enabled: Health status will update every 60 seconds";;
    startAutoRefresh
  else
    showInformationMessage "Auto-refresh disabled";;
    stopAutoRefresh.


(** ** Connecting *)

(** The stored credentials of a profile, as both connect paths read them
    into [clientOptions.auth]: present only when every field is truthy. *)
Definition loadAuth (clusterId : string) (config : ClusterConfig.t)
  : M (option Auth) :=
  if String.eqb (ClusterConfig.authMethod config) BASIC then
    username ← secrets_get (secretKey clusterId "username");
    password ← secrets_get (secretKey clusterId "password");
    mret (if truthy username && truthy password
          then Some (BasicAuth (default EmptyString username)
                               (default EmptyString password))
          else None)
  else if String.eqb (ClusterConfig.authMethod config) API_KEY then
    apiKey ← secrets_get (secretKey clusterId "apiKey");
    mret (if truthy apiKey then Some (ApiKeyAuth (default EmptyString apiKey))
          else None)
  else mret None.

(** Building [clientOptions], the same statements in [connectToCluster]
    and [connectToClusterSilently]: endpoint, stored credentials, the
    [disableSSL] switch (which also assigns
    [process.env.NODE_TLS_REJECT_UNAUTHORIZED]), the custom CA. *)
Definition buildClientOptions (clusterId : string) (config : ClusterConfig.t)
  : M ClientOptions :=
  a ← loadAuth clusterId config;
  (if truthy_bool (ClusterConfig.disableSSL config)
   then modify (set_NODE_TLS_REJECT_UNAUTHORIZED (Some "0"))
   else mret ());;
  caCert ← gets gs_caCertificate;
  mret {| endpoint :=
            if String.eqb (ClusterConfig.deploymentType config) ELASTIC_CLOUD
            then Cloud (ClusterConfig.cloudId config)
            else Node (ClusterConfig.nodeUrl config);
          auth := a;
          ssl_rejectUnauthorized :=
            if truthy_bool (ClusterConfig.disableSSL config)
            then Some false else None;
          tls_ca := if truthy caCert then caCert else None |}.

(** [new Client(clientOptions)] followed by [await client.ping()]; the
    outcome is logged.  A constructor that throws counts as a rejected
    probe: both land in the same [catch]. *)
Definition probe (opts : ClientOptions) : M Outcome :=
  t ← tick;
  emit (Ping opts (resolved (ping E t opts)));;
  mret (ping E t opts).

(** The block "Prompt for credentials if missing" of [connectToCluster];
    [false] is its early [return false]. *)
Definition promptForCredentials (clusterId : string)
    (config : ClusterConfig.t) : M bool :=
  if String.eqb (ClusterConfig.authMethod config) BASIC then
    username ← secrets_get (secretKey clusterId "username");
    password ← secrets_get (secretKey clusterId "password");
    if truthy username && truthy password then mret true
    else
      username ← askInputBox ("Username for " +:+ ClusterConfig.name config);
      password ← (if truthy username then askInputBox "Password"
                  else mret None);
      if truthy username && truthy password then
        secrets_store (secretKey clusterId "username")
                      (default EmptyString username);;
        secrets_store (secretKey clusterId "password")
                      (default EmptyString password);;
        mret true
      else
        showWarningMessage "Username and password are required to connect.";;
        mret false
  else if String.eqb (ClusterConfig.authMethod config) API_KEY then
    apiKey ← secrets_get (secretKey clusterId "apiKey");
    if truthy apiKey then mret true
    else
      apiKey ← askInputBox ("API Key for " +:+ ClusterConfig.name config);
      if truthy apiKey then
        secrets_store (secretKey clusterId "apiKey")
                      (default EmptyString apiKey);;
        mret true
      else
        showWarningMessage "API Key is required to connect.";;
        mret false
  else mret true.

Definition connectToCluster (clusterId : string) : M bool :=
  cfg ← gets (λ w, JsMap.get clusterId (clusters w));
  match cfg with
  | None =>
      showErrorMessage ("Cluster " +:+ clusterId +:+ " not found");;
      mret false
  | Some config =>
      ready ← promptForCredentials clusterId config;
      if (ready : bool) then
        opts ← buildClientOptions clusterId config;
        r ← probe opts;
        match r with
        | Resolved =>
            modify (λ w, set_clients (JsMap.set clusterId opts (clients w)) w);;
            modify (set_activeClusterId (Some clusterId));;
            saveConnectedCluster clusterId;;
            fetchHealth clusterId opts;;
            mret true
        | Rejected message =>
            showErrorMessage ("Failed to connect to " +:+
                              ClusterConfig.name config +:+ ": " +:+ message);;
            mret false
        end
      else mret false
  end.

Definition connectToClusterSilently (clusterId : string) : M bool :=
  cfg ← gets (λ w, JsMap.get clusterId (clusters w));
  match cfg with
  | None => mret false
  | Some config =>
      opts ← buildClientOptions clusterId config;
      r ← probe opts;
      match r with
      | Resolved =>
          modify (λ w, set_clients (JsMap.set clusterId opts (clients w)) w);;
          a ← gets activeClusterId;
          (if truthy a then mret ()
           else modify (set_activeClusterId (Some clusterId)));;
          fetchHealth clusterId opts;;
          mret true
      | Rejected _ => mret false
      end
  end.

(** ** Startup *)

Fixpoint reconnectLoop (ids : list string) (reconnectedCount failedCount : nat)
  : M (nat * nat) :=
  match ids with
  | [] => mret (reconnectedCount, failedCount)
  | clusterId :: rest =>
      cfg ← gets (λ w, JsMap.get clusterId (clusters w));
      match cfg with
      | None =>
          removeConnectedCluster clusterId;;
          reconnectLoop rest reconnectedCount (S failedCount)
      | Some _ =>
          success ← connectToClusterSilently clusterId;
          if (success : bool) then
            reconnectLoop rest (S reconnectedCount) failedCount
          else
            removeConnectedCluster clusterId;;
            reconnectLoop rest reconnectedCount (S failedCount)
      end
  end.

(** The text of the summary shown after the loop. *)
Definition reconnectSummary (reconnectedCount failedCount : nat) : string :=
  let message :=
    if (0 <? reconnectedCount)%nat
    then "Auto-reconnected " +:+ pretty reconnectedCount +:+ " cluster(s)."
    else EmptyString in
  if (0 <? failedCount)%nat
  then (if String.eqb message EmptyString then message else message +:+ " ")
       +:+ pretty failedCount +:+ " cluster(s) failed to reconnect."
  else message.

Definition autoReconnectClusters : M unit :=
  connectedClusters ← gets gs_connectedClusters;
  if (length connectedClusters =? 0)%nat then mret ()
  else
    counts ← reconnectLoop connectedClusters 0 0;
    if (0 <? counts.1)%nat || (0 <? counts.2)%nat then
      if (0 <? counts.2)%nat
      then showWarningMessage (reconnectSummary counts.1 counts.2)
      else showInformationMessage (reconnectSummary counts.1 counts.2)
    else mret ().

Fixpoint loadLoop (ids : list string) : M unit :=
  match ids with
  | [] => mret ()
  | i :: rest =>
      configJson ← secrets_get (secretKey i "config");
      (if truthy configJson then
         match JSON_parse E (default EmptyString configJson) with
         | Some config =>
             modify (λ w, set_clusters (JsMap.set i config (clusters w)) w)
         | None => mret ()
         end
       else mret ());;
      loadLoop rest
  end.

Definition loadClusters : M unit :=
  clusterIds ← gets gs_clusterIds;
  loadLoop clusterIds;;
  cs ← gets clusters;
  a ← gets activeClusterId;
  if (0 <? length cs)%nat && negb (truthy a)
  then modify (set_activeClusterId (head (JsMap.keys cs)))
  else mret ().

Definition loadClustersOnStartup : M unit :=
  loadClusters;;
  autoReconnectClusters;;
  refresh.

(** ** Import *)

Definition dquote : string := String (Ascii.ascii_of_nat 34) EmptyString.
Definition newline : string := String (Ascii.ascii_of_nat 10) EmptyString.

(** [`cluster_${Date.now()}_${Math.random().toString(36).substr(2, 9)}`]
    at clock [t]. *)
Definition generatedId (t : nat) : string :=
  "cluster_" +:+ pretty (now E t) +:+ "_" +:+ random E t.

Definition generateClusterId : M string :=
  t ← tick;
  mret (generatedId t).

Definition newClusterConfig (newId : string) (clusterData : ClusterExportData.t)
  : ClusterConfig.t :=
  {| ClusterConfig.id := newId;
     ClusterConfig.name := default EmptyString (ClusterExportData.name clusterData);
     ClusterConfig.deploymentType :=
       default EmptyString (ClusterExportData.deploymentType clusterData);
     ClusterConfig.nodeUrl := ClusterExportData.nodeUrl clusterData;
     ClusterConfig.cloudId := ClusterExportData.cloudId clusterData;
     ClusterConfig.authMethod :=
       default EmptyString (ClusterExportData.authMethod clusterData);
     ClusterConfig.disableSSL := ClusterExportData.disableSSL clusterData |}.

(** "Validate required fields". *)
Definition missingRequired (clusterData : ClusterExportData.t) : bool :=
  negb (truthy (ClusterExportData.name clusterData))
  || negb (truthy (ClusterExportData.deploymentType clusterData))
  || negb (truthy (ClusterExportData.authMethod clusterData)).

(** [Array.from(this.clusters.values()).find(c => c.name === name)]. *)
Definition findByName (n : option string)
    (cs : list (string * ClusterConfig.t)) : option ClusterConfig.t :=
  find (λ c, bool_decide (Some (ClusterConfig.name c) = n)) (JsMap.values cs).

(** The question asked on a name collision. *)
Definition collisionWarning (clusterData : ClusterExportData.t) : string :=
  "Cluster " +:+ dquote +:+
  default EmptyString (ClusterExportData.name clusterData) +:+
  dquote +:+ " already exists. Do you want to overwrite it?".

(** "Create new cluster config" and "Add the cluster". *)
Definition importEntry (clusterData : ClusterExportData.t) : M unit :=
  newId ← generateClusterId;
  addCluster (newClusterConfig newId clusterData).

(** How the [for] loop of the import ends: it ran through the entries or
    to its [break], or reading [clusterData.name] of a [null] entry threw.
    Either way the two counters are what they were at that moment. *)
Inductive LoopEnd : Type :=
| Completed (importedCount skippedCount : nat)
| Thrown (importedCount skippedCount : nat).

Definition loopCounts (r : LoopEnd) : nat * nat :=
  match r with
  | Completed importedCount skippedCount
  | Thrown importedCount skippedCount => (importedCount, skippedCount)
  end.

Fixpoint importLoop (entries : list (option ClusterExportData.t))
    (importedCount skippedCount : nat) : M LoopEnd :=
  match entries with
  | [] => mret (Completed importedCount skippedCount)
  | None :: _ => mret (Thrown importedCount skippedCount)
  | Some clusterData :: rest =>
      if missingRequired clusterData then
        importLoop rest importedCount (S skippedCount)
      else
        cs ← gets clusters;
        match findByName (ClusterExportData.name clusterData) cs with
        | Some existingCluster =>
            overwrite ← askWarning (collisionWarning clusterData);
            if bool_decide (overwrite = Some "Cancel") then
              mret (Completed importedCount skippedCount)
            else if bool_decide (overwrite = Some "No") then
              importLoop rest importedCount (S skippedCount)
            else
              removeCluster (ClusterConfig.id existingCluster);;
              importEntry clusterData;;
              importLoop rest (S importedCount) skippedCount
        | None =>
            importEntry clusterData;;
            importLoop rest (S importedCount) skippedCount
        end
  end.

Definition importSummary (importedCount skippedCount : nat) : string :=
  ("Successfully imported " +:+ pretty importedCount +:+ " cluster(s).")
  +:+ (if (0 <? skippedCount)%nat
       then " " +:+ pretty skippedCount +:+ " cluster(s) were skipped."
       else EmptyString)
  +:+ (if (0 <? importedCount)%nat
       then newline +:+ newline +:+
            "Note: You will need to configure authentication credentials for the imported clusters."
       else EmptyString).

Definition importClusters : M unit :=
  t ← tick;
  match openImportFile E t with
  | NoFileSelected => mret ()
  | Unreadable message =>
      showErrorMessage ("Failed to import clusters: " +:+ message)
  | Document None =>
      showErrorMessage "Invalid cluster configuration file format."
  | Document (Some entries) =>
      r ← importLoop entries 0 0;
      match r with
      | Completed importedCount skippedCount =>
          showInformationMessage (importSummary importedCount skippedCount)
      | Thrown _ _ =>
          showErrorMessage
            ("Failed to import clusters: " +:+ nullPropertyError E)
      end
  end.

(** ** Commands registered by [activate] *)

Definition noCredentials : Credentials :=
  {| cred_username := None; cred_password := None; cred_apiKey := None |}.

(** The "Authentication" prompts of the add flow. *)
Definition gatherCredentials (authMethod : string) : M Credentials :=
  if String.eqb authMethod BASIC then
    username ← askInputBox "Username";
    password ← (if truthy username then askInputBox "Password"
                else mret None);
    mret (if truthy username && truthy password
          then {| cred_username := username; cred_password := password;
                  cred_apiKey := None |}
          else noCredentials)
  else if String.eqb authMethod API_KEY then
    apiKey ← askInputBox "API Key";
    mret (if truthy apiKey
          then {| cred_username := None; cred_password := None;
                  cred_apiKey := apiKey |}
          else noCredentials)
  else mret noCredentials.

(** [clientOptions.auth] as the add flow sets it next to [credentials]. *)
Definition authOfCredentials (c : Credentials) : option Auth :=
  match cred_username c, cred_password c, cred_apiKey c with
  | Some u, Some p, _ => Some (BasicAuth u p)
  | _, _, Some k => Some (ApiKeyAuth k)
  | _, _, _ => None
  end.

(** [clientOptions] of the add flow: it carries the credentials just typed
    in and no custom CA. *)
Definition tempClientOptions (deploymentType : string)
    (target : option string) (credentials : Credentials) (insecure : bool)
  : ClientOptions :=
  {| endpoint := if String.eqb deploymentType ELASTIC_CLOUD
                 then Cloud target else Node target;
     auth := authOfCredentials credentials;
     ssl_rejectUnauthorized := if insecure then Some false else None;
     tls_ca := None |}.

(** [config] of the add flow. *)
Definition addedConfig (clusterId name deploymentType : string)
    (target : option string) (authMethod : string) (insecure : bool)
  : ClusterConfig.t :=
  {| ClusterConfig.id := clusterId;
     ClusterConfig.name := name;
     ClusterConfig.deploymentType := deploymentType;
     ClusterConfig.nodeUrl :=
       if String.eqb deploymentType ELASTIC_CLOUD then None else target;
     ClusterConfig.cloudId :=
       if String.eqb deploymentType ELASTIC_CLOUD then target else None;
     ClusterConfig.authMethod := authMethod;
     ClusterConfig.disableSSL := Some insecure |}.

(** The [try] block of the add flow, from "Test connection" on: probe with
    a throw-away client, and only then save, store the credentials and
    connect. *)
Definition testConnectionAndSave (clusterId name deploymentType : string)
    (target : option string) (authMethod : string)
    (credentials : Credentials) (insecure : bool) : M unit :=
  r ← probe (tempClientOptions deploymentType target credentials insecure);
  match r with
  | Rejected message =>
      showErrorMessage ("Failed to connect to cluster: " +:+ message)
  | Resolved =>
      addCluster (addedConfig clusterId name deploymentType target
                              authMethod insecure);;
      stored ← storeClusterCredentials clusterId authMethod credentials;
      if (stored : bool) then
        connectToCluster clusterId;;
        showInformationMessage
          ("Successfully added and connected to cluster: " +:+ name);;
        refresh
      else
        showErrorMessage
          ("Failed to connect to cluster: " +:+ storeUndefinedMessage E)
  end.

Definition esExt_addCluster : M unit :=
  t ← tick;
  let clusterId := "cluster-" +:+ pretty (now E t) in
  name ← askInputBox "Cluster Name";
  if negb (truthy name) then mret () else
  deploymentType ← askQuickPick "Select Elasticsearch deployment type";
  if negb (truthy deploymentType) then mret () else
  target ← askInputBox
    (if bool_decide (deploymentType = Some ELASTIC_CLOUD)
     then "Elastic Cloud ID"
     else "Full Elasticsearch URL (include protocol and port)");
  if negb (truthy target) then mret () else
  authMethod ← askQuickPick "Select auth method";
  if negb (truthy authMethod) then mret () else
  credentials ← gatherCredentials (default EmptyString authMethod);
  disableSSL ← askQuickPick "Disable SSL certificate verification? (insecure)";
  (if bool_decide (disableSSL = Some "Yes")
   then modify (set_NODE_TLS_REJECT_UNAUTHORIZED (Some "0"))
   else mret ());;
  testConnectionAndSave clusterId (default EmptyString name)
    (default EmptyString deploymentType) target
    (default EmptyString authMethod) credentials
    (bool_decide (disableSSL = Some "Yes")).

(** [`Connected to ${cluster?.name}`]. *)
Definition connectedMessage (cluster : option ClusterConfig.t) : string :=
  "Connected to " +:+
  match cluster with Some c => ClusterConfig.name c | None => "undefined" end.

Definition esExt_selectCluster (clusterId : string) : M unit :=
  setActiveCluster clusterId;;
  success ← connectToCluster clusterId;
  if (success : bool) then
    cluster ← getActiveCluster;
    showInformationMessage (connectedMessage cluster)
  else showErrorMessage "Failed to connect to cluster".

Definition esExt_connectToCluster (clusterId : string) : M unit :=
  success ← connectToCluster clusterId;
  if (success : bool) then
    cluster ← getActiveCluster;
    showInformationMessage (connectedMessage cluster);;
    refresh
  else showErrorMessage "Failed to connect to cluster".

Definition esExt_removeCluster (clusterId : string) : M unit :=
  cluster ← getCluster clusterId;
  match cluster with
  | None => mret ()
  | Some c =>
      confirm ← askWarning ("Remove cluster " +:+ dquote +:+
                            ClusterConfig.name c +:+ dquote +:+ "?");
      if bool_decide (confirm = Some "Remove") then
        removeCluster clusterId;;
        showInformationMessage ("Removed cluster: " +:+ ClusterConfig.name c)
      else mret ()
  end.

Definition esExt_disconnectFromCluster (clusterId : string) : M unit :=
  cluster ← getCluster clusterId;
  match cluster with
  | None => mret ()
  | Some _ => disconnectFromCluster clusterId
  end.

(** The question [esExt.clearAllClusterData] asks first. *)
Definition CLEAR_ALL_WARNING : string :=
  "This will remove ALL saved clusters and credentials from VS Code. Are you sure?".

(** "Remove all cluster configs and credentials from secrets". *)
Fixpoint clearSecrets (clusterIds : list string) : M unit :=
  match clusterIds with
  | [] => mret ()
  | i :: rest =>
      secrets_delete (secretKey i "config");;
      secrets_delete (secretKey i "username");;
      secrets_delete (secretKey i "password");;
      secrets_delete (secretKey i "apiKey");;
      clearSecrets rest
  end.

Definition esExt_clearAllClusterData : M unit :=
  confirm ← askWarning CLEAR_ALL_WARNING;
  if bool_decide (confirm = Some "Yes, clear all") then
    clusterIds ← gets gs_clusterIds;
    modify (set_gs_clusterIds []);;
    modify (set_gs_connectedClusters []);;
    modify (set_gs_autoRefreshEnabled false);;
    clearSecrets clusterIds;;
    showInformationMessage
      "All cluster data and credentials have been cleared.";;
    refresh
  else mret ().

(** [new ESExplorerProvider(context)] on a fresh process: the fields are
    initialised empty, the profiles are loaded and auto-refresh resumes when
    its persisted flag says so. *)
Definition constructor : M unit :=
  modify (set_clusters []);;
  modify (set_clients []);;
  modify (set_clusterHealth ∅);;
  modify (set_activeClusterId None);;
  modify (set_refreshTimer false);;
  loadClusters;;
  modify (λ w, set_autoRefreshEnabled (gs_autoRefreshEnabled w) w);;
  enabled ← gets autoRefreshEnabled;
  if (enabled : bool) then startAutoRefresh else mret ().

(** The start of [activate]: construct the provider, then
    [loadClustersOnStartup]. *)
Definition activate : M unit :=
  constructor;;
  loadClustersOnStartup.

End Provider.

(** A process that has just started with nothing persisted. *)
Definition emptyWorld : World :=
  {| clusters := []; clients := []; clusterHealth := ∅;
     activeClusterId := None; autoRefreshEnabled := false;
     refreshTimer := false; gs_clusterIds := []; gs_connectedClusters := [];
     gs_autoRefreshEnabled := false; gs_caCertificate := None; secrets := ∅;
     NODE_TLS_REJECT_UNAUTHORIZED := None; clock := 0; events := [] |}.

(** The operations are unfolded by name in the proofs, never by [simpl]. *)
#[global] Arguments secrets_get : simpl never.
#[global] Arguments secrets_store : simpl never.
#[global] Arguments secrets_delete : simpl never.
#[global] Arguments askInputBox : simpl never.
#[global] Arguments askQuickPick : simpl never.
#[global] Arguments askWarning : simpl never.
#[global] Arguments refresh : simpl never.
#[global] Arguments saveClusterConfig : simpl never.
#[global] Arguments addCluster : simpl never.
#[global] Arguments storeClusterCredentials : simpl never.
#[global] Arguments saveConnectedCluster : simpl never.
#[global] Arguments removeConnectedCluster : simpl never.
#[global] Arguments removeCluster : simpl never.
#[global] Arguments disconnectFromCluster : simpl never.
#[global] Arguments fetchHealth : simpl never.
#[global] Arguments refreshClusterHealth : simpl never.
#[global] Arguments loadAuth : simpl never.
#[global] Arguments buildClientOptions : simpl never.
#[global] Arguments probe : simpl never.
#[global] Arguments promptForCredentials : simpl never.
#[global] Arguments connectToCluster : simpl never.
#[global] Arguments connectToClusterSilently : simpl never.
#[global] Arguments autoReconnectClusters : simpl never.
#[global] Arguments loadClusters : simpl never.
#[global] Arguments generateClusterId : simpl never.
#[global] Arguments importEntry : simpl never.
#[global] Arguments gatherCredentials : simpl never.
#[global] Arguments testConnectionAndSave : simpl never.
#[global] Arguments clearSecrets : simpl never.
#[global] Arguments includes : simpl never.
#[global] Arguments findByName : simpl never.
#[global] Arguments missingRequired : simpl never.
#[global] Arguments collisionWarning : simpl never.

(** ** Reading the log *)

Definition pings (l : list Event) : list (ClientOptions * bool) :=
  omap (λ e, match e with Ping o ok => Some (o, ok) | _ => None end) l.

Definition healthQueries (l : list Event) : list (string * bool) :=
  omap (λ e, match e with HealthQuery k ok => Some (k, ok) | _ => None end) l.

Definition prompts (l : list Event) : list string :=
  omap (λ e, match e with InputBox p | QuickPick p => Some p | _ => None end) l.

(** The log entry of the [i]-th health query of a tick started at clock
    [c0]. *)
Definition healthEvent (E : Env) (c0 : nat) (i : nat) (p : string * Client)
  : Event :=
  HealthQuery p.1 (bool_decide (is_Some (health E (c0 + i) p.2))).

(** Everything but the secrets, the clock and the log is the same. *)
Definition untouched (w w' : World) : Prop :=
  clusters w' = clusters w ∧ clients w' = clients w
  ∧ clusterHealth w' = clusterHealth w
  ∧ activeClusterId w' = activeClusterId w
  ∧ autoRefreshEnabled w' = autoRefreshEnabled w
  ∧ refreshTimer w' = refreshTimer w
  ∧ gs_clusterIds w' = gs_clusterIds w
  ∧ gs_connectedClusters w' = gs_connectedClusters w
  ∧ gs_autoRefreshEnabled w' = gs_autoRefreshEnabled w
  ∧ gs_caCertificate w' = gs_caCertificate w
  ∧ NODE_TLS_REJECT_UNAUTHORIZED w' = NODE_TLS_REJECT_UNAUTHORIZED w.

(** The log grew by [l], which holds only prompts and messages. *)
Definition talked (w w' : World) (l : list Event) : Prop :=
  events w' = (events w ++ l)%list
  ∧ pings l = [] ∧ healthQueries l = [] ∧ count_fires l = 0%nat.

(** The field names a secret key can end in. *)
Definition secretFields : list string :=
  ["config"; "username"; "password"; "apiKey"].

(** A profile whose method needs credentials that the secret storage does
    not hold (a missing or empty field). *)
Definition credentialsMissing (clusterId : string) (config : ClusterConfig.t)
    (w : World) : bool :=
  if String.eqb (ClusterConfig.authMethod config) BASIC then
    negb (truthy (secrets w !! secretKey clusterId "username")
          && truthy (secrets w !! secretKey clusterId "password"))
  else if String.eqb (ClusterConfig.authMethod config) API_KEY then
    negb (truthy (secrets w !! secretKey clusterId "apiKey"))
  else false.


(** The message that closes a reconnect run. *)
Definition summaryEvent (reconnectedCount failedCount : nat) : Event :=
  if (0 <? failedCount)%nat
  then WarningMessage (reconnectSummary reconnectedCount failedCount)
  else InformationMessage (reconnectSummary reconnectedCount failedCount).

(** The add flow hands over every credential its method needs. *)
Definition credentialsSupplied (authMethod : string) (c : Credentials) : bool :=
  if String.eqb authMethod BASIC
  then truthy (cred_username c) && truthy (cred_password c)
  else if String.eqb authMethod API_KEY then truthy (cred_apiKey c)
  else true.

(** [k] is the key of some field of one of [ids]. *)
Definition ownedKey (ids : list string) (k : string) : bool :=
  existsb (λ i, existsb (λ f, String.eqb k (secretKey i f)) secretFields) ids.

(** ** Concrete worlds *)

Module Demo.

Definition cfgA : ClusterConfig.t :=
  {| ClusterConfig.id := "A"; ClusterConfig.name := "Alpha";
     ClusterConfig.deploymentType := "Self-managed Cluster";
     ClusterConfig.nodeUrl := Some "https://alpha:9200";
     ClusterConfig.cloudId := None;
     ClusterConfig.authMethod := BASIC;
     ClusterConfig.disableSSL := Some false |}.

Definition cfgB : ClusterConfig.t :=
  {| ClusterConfig.id := "B"; ClusterConfig.name := "Beta";
     ClusterConfig.deploymentType := "Self-managed Cluster";
     ClusterConfig.nodeUrl := Some "https://beta:9200";
     ClusterConfig.cloudId := None;
     ClusterConfig.authMethod := BASIC;
     ClusterConfig.disableSSL := Some true |}.

(** [JSON.stringify(config)] for profiles whose strings need no escaping:
    the properties in the order of the object literal, the [undefined] ones
    left out. *)
Definition json_string (s : string) : string := dquote +:+ s +:+ dquote.

Definition json_property (key value : string) : string :=
  json_string key +:+ ":" +:+ value.

Definition json_optional (key : string) (value : option string) : string :=
  match value with
  | Some v => "," +:+ json_property key v
  | None => EmptyString
  end.

Definition stringify (c : ClusterConfig.t) : string :=
  "{" +:+ json_property "id" (json_string (ClusterConfig.id c))
  +:+ "," +:+ json_property "name" (json_string (ClusterConfig.name c))
  +:+ "," +:+ json_property "deploymentType"
                 (json_string (ClusterConfig.deploymentType c))
  +:+ json_optional "nodeUrl" (json_string <$> ClusterConfig.nodeUrl c)
  +:+ json_optional "cloudId" (json_string <$> ClusterConfig.cloudId c)
  +:+ "," +:+ json_property "authMethod"
                 (json_string (ClusterConfig.authMethod c))
  +:+ json_optional "disableSSL"
        ((λ b : bool, if b then "true" else "false")
           <$> ClusterConfig.disableSSL c)
  +:+ "}".

(** [JSON.parse] on the payloads of the two profiles above; anything else
    is taken as unparseable. *)
Definition parse (s : string) : option ClusterConfig.t :=
  if String.eqb s (stringify cfgA) then Some cfgA
  else if String.eqb s (stringify cfgB) then Some cfgB
  else None.

Definition green : HealthResponse.t :=
  {| HealthResponse.status := Some "green";
     HealthResponse.cluster_name := Some "es";
     HealthResponse.number_of_nodes := Some 3%Z;
     HealthResponse.number_of_data_nodes := Some 2%Z;
     HealthResponse.active_primary_shards := Some 10%Z;
     HealthResponse.active_shards := Some 20%Z |}.

(** The answers of a user who adds an unsecured local cluster and, when
    asked, types the credentials of [Beta]. *)
Definition answers (prompt : string) : option string :=
  if String.eqb prompt "Cluster Name" then Some "Local"
  else if String.eqb prompt "Select Elasticsearch deployment type"
  then Some "Self-managed Cluster"
  else if String.eqb prompt
            "Full Elasticsearch URL (include protocol and port)"
  then Some "http://localhost:9200"
  else if String.eqb prompt "Select auth method" then Some "None"
  else if String.eqb prompt
            "Disable SSL certificate verification? (insecure)"
  then Some "No"
  else if String.eqb prompt "Username for Beta" then Some "elastic"
  else if String.eqb prompt "Password" then Some "changeme"
  else None.

(** Clusters that answer every probe, with or without credentials; the
    health query of the node [beta] fails; the user confirms every warning
    with [button]. *)
Definition envOpen (button : string) : Env :=
  {| showInputBox := λ _ p, answers p;
     showQuickPick := λ _ p, answers p;
     showWarningChoice := λ _ _, Some button;
     ping := λ _ _, Resolved;
     health := λ _ o, match endpoint o with
                      | Node (Some "https://beta:9200") => None
                      | _ => Some green
                      end;
     now := λ t, (1000 + Z.of_nat t)%Z;
     random := λ _, "k3x9q2m7w";
     openImportFile := λ _, NoFileSelected;
     storeUndefinedMessage := "value must be a string";
     nullPropertyError :=
       "TypeError: Cannot read properties of null (reading 'name')";
     JSON_stringify := stringify;
     JSON_parse := parse |}.

(** Secured clusters: a probe without credentials is rejected; nobody
    answers a prompt. *)
Definition envSecured : Env :=
  {| showInputBox := λ _ _, None;
     showQuickPick := λ _ _, None;
     showWarningChoice := λ _ _, None;
     ping := λ _ o, match auth o with
                    | Some _ => Resolved
                    | None => Rejected "security_exception"
                    end;
     health := λ _ _, Some green;
     now := λ t, (1000 + Z.of_nat t)%Z;
     random := λ _, "k3x9q2m7w";
     openImportFile := λ _, NoFileSelected;
     storeUndefinedMessage := "value must be a string";
     nullPropertyError :=
       "TypeError: Cannot read properties of null (reading 'name')";
     JSON_stringify := stringify;
     JSON_parse := parse |}.

(** Nothing reachable: every probe is rejected. *)
Definition envDown : Env :=
  {| showInputBox := λ _ p, answers p;
     showQuickPick := λ _ p, answers p;
     showWarningChoice := λ _ _, None;
     ping := λ _ _, Rejected "connect ECONNREFUSED";
     health := λ _ _, None;
     now := λ t, (1000 + Z.of_nat t)%Z;
     random := λ _, "k3x9q2m7w";
     openImportFile := λ _, NoFileSelected;
     storeUndefinedMessage := "value must be a string";
     nullPropertyError :=
       "TypeError: Cannot read properties of null (reading 'name')";
     JSON_stringify := stringify;
     JSON_parse := parse |}.

(** As [envDown], with a user who asks for TLS verification to be
    disabled. *)
Definition envDownInsecure : Env :=
  {| showInputBox := λ _ p, answers p;
     showQuickPick := λ _ p,
       if String.eqb p "Disable SSL certificate verification? (insecure)"
       then Some "Yes" else answers p;
     showWarningChoice := λ _ _, None;
     ping := λ _ _, Rejected "connect ECONNREFUSED";
     health := λ _ _, None;
     now := λ t, (1000 + Z.of_nat t)%Z;
     random := λ _, "k3x9q2m7w";
     openImportFile := λ _, NoFileSelected;
     storeUndefinedMessage := "value must be a string";
     nullPropertyError :=
       "TypeError: Cannot read properties of null (reading 'name')";
     JSON_stringify := stringify;
     JSON_parse := parse |}.

(** As [envOpen "Yes"], with a user who picks a file that parses to
    [file] at every import. *)
Definition envImporting (file : ImportFile) : Env :=
  {| showInputBox := λ _ p, answers p;
     showQuickPick := λ _ p, answers p;
     showWarningChoice := λ _ _, Some "Yes";
     ping := λ _ _, Resolved;
     health := λ _ o, match endpoint o with
                      | Node (Some "https://beta:9200") => None
                      | _ => Some green
                      end;
     now := λ t, (1000 + Z.of_nat t)%Z;
     random := λ _, "k3x9q2m7w";
     openImportFile := λ _, file;
     storeUndefinedMessage := "value must be a string";
     nullPropertyError :=
       "TypeError: Cannot read properties of null (reading 'name')";
     JSON_stringify := stringify;
     JSON_parse := parse |}.

(** Two entries of an import document, and the empty object [{}]. *)
Definition gamma : ClusterExportData.t :=
  {| ClusterExportData.doc_id := None;
     ClusterExportData.name := Some "Gamma";
     ClusterExportData.deploymentType := Some "Elastic Cloud";
     ClusterExportData.nodeUrl := None;
     ClusterExportData.cloudId := Some "gamma:dXM=";
     ClusterExportData.authMethod := Some "API Key";
     ClusterExportData.disableSSL := None |}.

Definition delta : ClusterExportData.t :=
  {| ClusterExportData.doc_id := None;
     ClusterExportData.name := Some "Delta";
     ClusterExportData.deploymentType := Some "Self-managed Cluster";
     ClusterExportData.nodeUrl := Some "https://delta:9200";
     ClusterExportData.cloudId := None;
     ClusterExportData.authMethod := Some "None";
     ClusterExportData.disableSSL := Some false |}.

Definition emptyObject : ClusterExportData.t :=
  {| ClusterExportData.doc_id := None;
     ClusterExportData.name := None;
     ClusterExportData.deploymentType := None;
     ClusterExportData.nodeUrl := None;
     ClusterExportData.cloudId := None;
     ClusterExportData.authMethod := None;
     ClusterExportData.disableSSL := None |}.

(** What a previous session left behind: profiles [A] and [B], both in the
    reconnect-set, the credentials of [A] stored and those of [B] gone. *)
Definition stored : World :=
  set_secrets
    (<[secretKey "A" "config" := stringify cfgA]>
       (<[secretKey "A" "username" := "elastic"]>
          (<[secretKey "A" "password" := "changeme"]>
             (<[secretKey "B" "config" := stringify cfgB]> ∅))))
    (set_gs_clusterIds ["A"; "B"]
       (set_gs_connectedClusters ["A"; "B"] emptyWorld)).

(** Both profiles loaded, [A] connected and active. *)
Definition loaded : World :=
  (connectToCluster (envOpen "Yes") "A"
     (addCluster (envOpen "Yes") cfgB
        (addCluster (envOpen "Yes") cfgA
           (storeClusterCredentials "A" BASIC
              {| cred_username := Some "elastic";
                 cred_password := Some "changeme";
                 cred_apiKey := None |} emptyWorld).2).2).2).2.

End Demo.

(** * The tree view, export, the CA certificate and the command table *)

(** ** More JavaScript strings *)

(** [`${v}`] on a [string | undefined]. *)
Definition template (v : option string) : string :=
  match v with Some s => s | None => "undefined" end.

(** [a || b] on two [string | undefined]. *)
Definition or_else (a b : option string) : option string :=
  if truthy a then a else b.

(** [s.split(sep)] for a one-character separator: the first segment and
    the segments after it. *)
Fixpoint segments (sep : Ascii.ascii) (s : string) : string * list string :=
  match s with
  | EmptyString => (EmptyString, [])
  | String a r =>
      let p := segments sep r in
      if Ascii.eqb a sep then (EmptyString, p.1 :: p.2)
      else (String a p.1, p.2)
  end.

Definition split (sep : Ascii.ascii) (s : string) : list string :=
  (segments sep s).1 :: (segments sep s).2.

(** [l.join(sep)]. *)
Fixpoint join (sep : string) (l : list string) : string :=
  match l with
  | [] => EmptyString
  | [x] => x
  | x :: r => x +:+ sep +:+ join sep r
  end.

(** [s.includes(c)] for a one-character [c]. *)
Fixpoint includesChar (c : Ascii.ascii) (s : string) : bool :=
  match s with
  | EmptyString => false
  | String a r => Ascii.eqb a c || includesChar c r
  end.

(** [s.includes(p)]. *)
Fixpoint includesString (p s : string) : bool :=
  String.prefix p s
  || match s with
     | EmptyString => false
     | String _ r => includesString p r
     end.

Definition colon : Ascii.ascii := Ascii.ascii_of_nat 58.
Definition letterT : Ascii.ascii := Ascii.ascii_of_nat 84.

(** ** Tree items *)

Module TreeItemCollapsibleState.

Inductive t : Type := None | Collapsed | Expanded.

End TreeItemCollapsibleState.

(** [new vscode.ThemeIcon(id, new vscode.ThemeColor(color))]. *)
Record ThemeIcon : Type := mkThemeIcon {
  icon : string;
  color : option string
}.

Module Command.

Record t : Type := mk {
  command : string;
  title : string;
  arguments : list string
}.

End Command.

Module ExplorerItem.

Record t : Type := mk {
  label : string;
  contextValue : option string;
  collapsibleState : TreeItemCollapsibleState.t;
  iconPath : option ThemeIcon;
  command : option Command.t;
  tooltip : option string
}.

(** [new ExplorerItem(label, contextValue, collapsibleState, iconPath)]. *)
Definition new (label : string) (contextValue : option string)
    (collapsibleState : TreeItemCollapsibleState.t)
    (iconPath : option ThemeIcon) : t :=
  {| label := label; contextValue := contextValue;
     collapsibleState := collapsibleState; iconPath := iconPath;
     command := Datatypes.None; tooltip := Datatypes.None |}.

Definition with_command (c : Command.t) (i : t) : t :=
  {| label := label i; contextValue := contextValue i;
     collapsibleState := collapsibleState i; iconPath := iconPath i;
     command := Some c; tooltip := tooltip i |}.

Definition with_iconPath (p : ThemeIcon) (i : t) : t :=
  {| label := label i; contextValue := contextValue i;
     collapsibleState := collapsibleState i; iconPath := Some p;
     command := command i; tooltip := tooltip i |}.

Definition with_tooltip (s : string) (i : t) : t :=
  {| label := label i; contextValue := contextValue i;
     collapsibleState := collapsibleState i; iconPath := iconPath i;
     command := command i; tooltip := Some s |}.

End ExplorerItem.

#[global] Instance TreeItemCollapsibleState_eq_dec :
  EqDecision TreeItemCollapsibleState.t.
Proof. solve_decision. Defined.
#[global] Instance ThemeIcon_eq_dec : EqDecision ThemeIcon.
Proof. solve_decision. Defined.
#[global] Instance Command_eq_dec : EqDecision Command.t.
Proof. solve_decision. Defined.
#[global] Instance ExplorerItem_eq_dec : EqDecision ExplorerItem.t.
Proof. solve_decision. Defined.

Definition plainIcon (id : string) : ThemeIcon :=
  {| icon := id; color := None |}.

Definition themedIcon (id color : string) : ThemeIcon :=
  {| icon := id; color := Some color |}.

(** What the tree view and the file commands ask of the platform: case
    conversion, [new URL(s)] (the text of [`${url.protocol}//${url.host}`],
    [None] when the constructor throws), the renderings of a [Date], the
    save dialog (answered by the path chosen), [fs.writeFile], the open
    dialog of [esExt.setCACertificate] (answered by the paths selected) and
    [fs.readFile] (the content, or the message of the error). *)
Record Platform : Type := mkPlatform {
  toUpperCase : string → string;
  toLowerCase : string → string;
  urlOrigin : string → option string;
  toLocaleTimeString : Z → string;
  toLocaleString : Z → string;
  toISOString : Z → string;
  showSaveDialog : nat → string → option string;
  writeFile : nat → string → Outcome;
  showOpenDialog : nat → option (list string);
  readFile : nat → string → string + string
}.

(** The tree items that are built from answers of the cluster. *)
Record Fetchers : Type := mkFetchers {
  fetchClusterInfo : Client → option string → M (list ExplorerItem.t);
  fetchClusterNodes : Client → M (list ExplorerItem.t);
  fetchDataStreams : Client → option string → M (list ExplorerItem.t);
  fetchDataStreamIndices :
    Client → string → option string → M (list ExplorerItem.t);
  fetchRoles : Client → M (list ExplorerItem.t);
  fetchRoleMappings : Client → M (list ExplorerItem.t);
  fetchIndexTemplates : Client → M (list ExplorerItem.t)
}.

(** [ClusterExportFile]. *)
Record ClusterExportFile : Type := mkExportFile {
  version : string;
  exportDate : string;
  export_clusters : list ClusterExportData.t
}.

(** A file handed to [fs.writeFile]. *)
Record WrittenFile : Type := mkWrittenFile {
  fsPath : string;
  written : ClusterExportFile
}.

Section Explorer.

Variable E : Env.
Variable X : Platform.
Variable F : Fetchers.

(** ** The provider, continued *)

Definition getClient (clusterId : option string) : M (option Client) :=
  if truthy clusterId
  then gets (λ w, JsMap.get (default EmptyString clusterId) (clients w))
  else getActiveClient.

Definition getAutoRefreshStatus : M bool := gets autoRefreshEnabled.

Definition dispose : M unit := stopAutoRefresh.

Definition getTreeItem (element : ExplorerItem.t) : ExplorerItem.t := element.

(** *** Root level *)

Definition addClusterCommand : Command.t :=
  {| Command.command := "esExt.addCluster"; Command.title := "Add Cluster";
     Command.arguments := [] |}.

(** The only item of an empty tree. *)
Definition addClusterItem : ExplorerItem.t :=
  ExplorerItem.with_iconPath (plainIcon "add")
    (ExplorerItem.with_command addClusterCommand
       (ExplorerItem.new "Add Elasticsearch Cluster" (Some "addCluster")
          TreeItemCollapsibleState.None None)).

(** The button that closes a non-empty tree. *)
Definition addItem : ExplorerItem.t :=
  ExplorerItem.with_tooltip "Add a new Elasticsearch cluster"
    (ExplorerItem.with_iconPath (plainIcon "add")
       (ExplorerItem.with_command addClusterCommand
          (ExplorerItem.new "Add Cluster" (Some "addCluster")
             TreeItemCollapsibleState.None None))).

Definition outlineIcon : ThemeIcon :=
  themedIcon "circle-outline" "disabledForeground".

(** The [switch (health.status)] of the root level: the text after the
    name and the icon. *)
Definition healthBadge (health : ClusterHealth) : string * ThemeIcon :=
  if String.eqb (status health) "green"
  then (" (Healthy)", themedIcon "circle-filled" "testing.iconPassed")
  else if String.eqb (status health) "yellow"
  then (" (Warning)", themedIcon "warning" "editorWarning.foreground")
  else if String.eqb (status health) "red"
  then (" (Critical)", themedIcon "error" "editorError.foreground")
  else if String.eqb (status health) "unknown"
  then (" (Unknown)", themedIcon "question" "disabledForeground")
  else (EmptyString, outlineIcon).

(** The top-level item of one profile. *)
Definition clusterItem (w : World) (id : string) (config : ClusterConfig.t)
  : ExplorerItem.t :=
  let isConnected := JsMap.has id (clients w) in
  let health := clusterHealth w !! id in
  let statusText := if isConnected then " (Connected)" else EmptyString in
  let badge :=
    match health with
    | Some h => if isConnected then healthBadge h else (EmptyString, outlineIcon)
    | None => (EmptyString, outlineIcon)
    end in
  let nodeInfoText :=
    match health with
    | Some h =>
        if isConnected
        then " [" +:+ pretty (numberOfNodes h) +:+ " nodes, " +:+
             pretty (numberOfDataNodes h) +:+ " data]"
        else EmptyString
    | None => EmptyString
    end in
  ExplorerItem.with_tooltip
    (ClusterConfig.deploymentType config +:+ " - " +:+
     template (or_else (ClusterConfig.nodeUrl config)
                       (ClusterConfig.cloudId config)) +:+
     match health with
     | Some h =>
         newline +:+ "Status: " +:+ status h +:+
         newline +:+ "Nodes: " +:+ pretty (numberOfNodes h) +:+
         newline +:+ "Last checked: " +:+ toLocaleTimeString X (lastChecked h)
     | None => EmptyString
     end)
    (ExplorerItem.with_iconPath badge.2
       (ExplorerItem.new
          (ClusterConfig.name config +:+ statusText +:+ badge.1 +:+ nodeInfoText)
          (Some ("cluster:" +:+ id))
          TreeItemCollapsibleState.Collapsed None)).

Definition rootItems (w : World) : list ExplorerItem.t :=
  if (length (clusters w) =? 0)%nat then [addClusterItem]
  else (map (λ p, clusterItem w p.1 p.2) (clusters w) ++ [addItem])%list.

(** *** A profile, expanded *)

Definition clusterCommand (command title clusterId : string) : Command.t :=
  {| Command.command := command; Command.title := title;
     Command.arguments := [clusterId] |}.

Definition removeItem (clusterId : string) : ExplorerItem.t :=
  ExplorerItem.with_iconPath (plainIcon "trash")
    (ExplorerItem.with_command
       (clusterCommand "esExt.removeCluster" "Remove" clusterId)
       (ExplorerItem.new "Remove Cluster" (Some "remove")
          TreeItemCollapsibleState.None None)).

Definition connectItem (config : option ClusterConfig.t) (clusterId : string)
  : ExplorerItem.t :=
  ExplorerItem.with_iconPath (plainIcon "plug")
    (ExplorerItem.with_command
       (clusterCommand "esExt.connectToCluster" "Connect" clusterId)
       (ExplorerItem.new
          ("Connect to " +:+ template (ClusterConfig.name <$> config))
          (Some "connect") TreeItemCollapsibleState.None None)).

(** The [switch (health.status)] of the expanded profile. *)
Definition healthIcon (health : ClusterHealth) : ThemeIcon :=
  if String.eqb (status health) "green"
  then themedIcon "pass" "testing.iconPassed"
  else if String.eqb (status health) "yellow"
  then themedIcon "warning" "editorWarning.foreground"
  else if String.eqb (status health) "red"
  then themedIcon "error" "editorError.foreground"
  else if String.eqb (status health) "unknown"
  then themedIcon "question" "disabledForeground"
  else plainIcon "pulse".

Definition healthTooltip (health : ClusterHealth) : string :=
  "Cluster: " +:+ clusterName health +:+
  newline +:+ "Status: " +:+ status health +:+
  newline +:+ "Nodes: " +:+ pretty (numberOfNodes health) +:+
  newline +:+ "Data Nodes: " +:+ pretty (numberOfDataNodes health) +:+
  newline +:+ "Active Primary Shards: " +:+
    pretty (activePrimaryShards health) +:+
  newline +:+ "Active Shards: " +:+ pretty (activeShards health) +:+
  newline +:+ "Last Checked: " +:+ toLocaleString X (lastChecked health).

Definition healthItems (clusterId : string) (health : ClusterHealth)
  : list ExplorerItem.t :=
  [ ExplorerItem.with_tooltip (healthTooltip health)
      (ExplorerItem.with_iconPath (healthIcon health)
         (ExplorerItem.new
            ("Health Status: " +:+ toUpperCase X (status health))
            (Some ("healthStatus:" +:+ clusterId))
            TreeItemCollapsibleState.None None));
    ExplorerItem.with_tooltip (healthTooltip health)
      (ExplorerItem.with_iconPath (plainIcon "info")
         (ExplorerItem.new
            (pretty (numberOfNodes health) +:+ " nodes, " +:+
             pretty (activeShards health) +:+ " shards")
            (Some ("healthDetails:" +:+ clusterId))
            TreeItemCollapsibleState.None None)) ].

(** The categories of a connected profile: label, category, icon. *)
Definition categories : list (string * string * string) :=
  [ ("Cluster Info", "clusterInfo", "info");
    ("Nodes", "nodes", "server-environment");
    ("Important Links", "links", "link-external");
    ("Data Streams", "dataStreams", "database");
    ("Roles", "roles", "person");
    ("Role Mappings", "roleMappings", "organization");
    ("Index Templates", "indexTemplates", "file-code") ].

Definition categoryItem (clusterId : string) (c : string * string * string)
  : ExplorerItem.t :=
  ExplorerItem.new c.1.1 (Some (c.1.2 +:+ ":" +:+ clusterId))
    TreeItemCollapsibleState.Collapsed (Some (plainIcon c.2)).

Definition divider : ExplorerItem.t :=
  ExplorerItem.with_iconPath (plainIcon "blank")
    (ExplorerItem.new "───────────" (Some "divider")
       TreeItemCollapsibleState.None None).

Definition selectItem (clusterId : string) : ExplorerItem.t :=
  ExplorerItem.with_iconPath (plainIcon "star")
    (ExplorerItem.with_command
       (clusterCommand "esExt.selectCluster" "Select" clusterId)
       (ExplorerItem.new "Set as Active" (Some "select")
          TreeItemCollapsibleState.None None)).

Definition disconnectItem (clusterId : string) : ExplorerItem.t :=
  ExplorerItem.with_iconPath (plainIcon "debug-disconnect")
    (ExplorerItem.with_command
       (clusterCommand "esExt.disconnectFromCluster" "Disconnect" clusterId)
       (ExplorerItem.new "Disconnect" (Some "disconnect")
          TreeItemCollapsibleState.None None)).

Definition clusterChildren (w : World) (clusterId : string)
  : list ExplorerItem.t :=
  let config := JsMap.get clusterId (clusters w) in
  if negb (JsMap.has clusterId (clients w))
  then [connectItem config clusterId; removeItem clusterId]
  else
    (match clusterHealth w !! clusterId with
     | Some health => healthItems clusterId health
     | None => []
     end
     ++ map (categoryItem clusterId) categories
     ++ [divider]
     ++ (if bool_decide (Some clusterId ≠ activeClusterId w)
         then [selectItem clusterId] else [])
     ++ [disconnectItem clusterId; removeItem clusterId])%list.

(** *** Links *)

Definition errorItem (label : string) : ExplorerItem.t :=
  ExplorerItem.new label None TreeItemCollapsibleState.None
    (Some (plainIcon "error")).

Definition linkItem (label icon title url tooltip : string)
  : ExplorerItem.t :=
  ExplorerItem.with_tooltip tooltip
    (ExplorerItem.with_command
       {| Command.command := "vscode.open"; Command.title := title;
          Command.arguments := [url] |}
       (ExplorerItem.new label None TreeItemCollapsibleState.None
          (Some (plainIcon icon)))).

(** The three sections; the domain and the base URL that the source
    computes here are not used. *)
Definition fetchImportantLinks (w : World) (clusterId : option string)
  : list ExplorerItem.t :=
  match clusterId ≫= λ i, JsMap.get i (clusters w) with
  | None => [errorItem "Cluster not found"]
  | Some _ =>
      [ ExplorerItem.new "Elasticsearch"
          (Some ("elasticsearch:" +:+ template clusterId))
          TreeItemCollapsibleState.Collapsed (Some (plainIcon "database"));
        ExplorerItem.new "Kibana" (Some ("kibana:" +:+ template clusterId))
          TreeItemCollapsibleState.Collapsed (Some (plainIcon "graph"));
        ExplorerItem.new "HAProxy" (Some ("haproxy:" +:+ template clusterId))
          TreeItemCollapsibleState.Collapsed
          (Some (plainIcon "server-process")) ]
  end.

(** "Extract base URL from nodeUrl if available". *)
Definition elasticUrl (config : ClusterConfig.t) : string :=
  if truthy (ClusterConfig.nodeUrl config) then
    let nodeUrl := default EmptyString (ClusterConfig.nodeUrl config) in
    default nodeUrl (urlOrigin X nodeUrl)
  else EmptyString.

Definition fetchElasticsearchLinks (w : World) (clusterId : option string)
  : list ExplorerItem.t :=
  match clusterId ≫= λ i, JsMap.get i (clusters w) with
  | None => [errorItem "Cluster not found"]
  | Some config =>
      [ linkItem "GET _cluster/health" "heart" "Open Cluster Health"
          (elasticUrl config +:+ "/_cluster/health")
          (elasticUrl config +:+ "/_cluster/health");
        linkItem "GET _cluster/settings" "settings-gear"
          "Open Cluster Settings"
          (elasticUrl config +:+ "/_cluster/settings")
          (elasticUrl config +:+ "/_cluster/settings") ]
  end.

(** "Determine domain based on cluster name". *)
Definition domain (config : ClusterConfig.t) : string :=
  if includesString "PROD" (toUpperCase X (ClusterConfig.name config))
  then "wtg.zone" else "sand.wtg.zone".

(** [`${service}.${clusterName}.${domain}`]. *)
Definition serviceHost (service : string) (config : ClusterConfig.t)
  : string :=
  service +:+ "." +:+ toLowerCase X (ClusterConfig.name config) +:+ "." +:+
  domain config.

Definition fetchKibanaLinks (w : World) (clusterId : option string)
  : list ExplorerItem.t :=
  match clusterId ≫= λ i, JsMap.get i (clusters w) with
  | None => [errorItem "Cluster not found"]
  | Some config =>
      let host := serviceHost "kibana" config in
      [ linkItem "GET /api/status" "pulse" "Open Kibana Status"
          ("https://" +:+ host +:+ "/api/status") (host +:+ "/api/status");
        linkItem "Dev Console" "terminal" "Open Dev Console"
          ("https://" +:+ host +:+ "/app/dev_tools#/console")
          (host +:+ "/app/dev_tools#/console");
        linkItem "Stack Monitoring" "graph-line" "Open Stack Monitoring"
          ("https://" +:+ host +:+ "/app/monitoring#/overview")
          (host +:+ "/app/monitoring#/overview") ]
  end.

Definition fetchHAProxyLinks (w : World) (clusterId : option string)
  : list ExplorerItem.t :=
  match clusterId ≫= λ i, JsMap.get i (clusters w) with
  | None => [errorItem "Cluster not found"]
  | Some config =>
      let host := serviceHost "haproxy" config in
      [ linkItem "Stats Page" "graph" "Open HAProxy Stats"
          ("https://" +:+ host) host ]
  end.

(** *** [getChildren] *)

(** The [switch (category)] of a context value [category:...:clusterId]. *)
Definition categoryChildren (category : string) (rest : list string)
    (clusterId : option string) (client : Client)
  : M (list ExplorerItem.t) :=
  if String.eqb category "clusterInfo" then fetchClusterInfo F client clusterId
  else if String.eqb category "nodes" then fetchClusterNodes F client
  else if String.eqb category "links"
  then gets (λ w, fetchImportantLinks w clusterId)
  else if String.eqb category "elasticsearch"
  then gets (λ w, fetchElasticsearchLinks w clusterId)
  else if String.eqb category "kibana"
  then gets (λ w, fetchKibanaLinks w clusterId)
  else if String.eqb category "haproxy"
  then gets (λ w, fetchHAProxyLinks w clusterId)
  else if String.eqb category "dataStreams"
  then fetchDataStreams F client clusterId
  else if String.eqb category "dataStream"
  then fetchDataStreamIndices F client (join ":" (removelast rest)) clusterId
  else if String.eqb category "roles" then fetchRoles F client
  else if String.eqb category "roleMappings" then fetchRoleMappings F client
  else if String.eqb category "indexTemplates"
  then fetchIndexTemplates F client
  else mret [].

(** "Legacy support for old context values". *)
Definition legacyChildren (contextValue : option string)
  : M (list ExplorerItem.t) :=
  client ← getActiveClient;
  match client with
  | None => mret []
  | Some client =>
      if bool_decide (contextValue = Some "dataStreams")
      then fetchDataStreams F client None
      else if bool_decide (contextValue = Some "roles")
      then fetchRoles F client
      else if bool_decide (contextValue = Some "roleMappings")
      then fetchRoleMappings F client
      else if bool_decide (contextValue = Some "indexTemplates")
      then fetchIndexTemplates F client
      else if bool_decide (contextValue = Some "cluster")
      then fetchClusterInfo F client None
      else mret []
  end.

Definition getChildren (element : option ExplorerItem.t)
  : M (list ExplorerItem.t) :=
  match element with
  | None => gets rootItems
  | Some element =>
      match ExplorerItem.contextValue element with
      | Some contextValue =>
          if String.prefix "cluster:" contextValue then
            (* [contextValue.split(':')[1]]: a value that starts with
               [cluster:] has a second segment *)
            match split colon contextValue !! 1%nat with
            | Some clusterId => gets (λ w, clusterChildren w clusterId)
            | None => mret []
            end
          else if includesChar colon contextValue then
            let rest := tail (split colon contextValue) in
            let clusterId := last rest in
            client ← gets (λ w, clusterId ≫= λ i, JsMap.get i (clients w));
            match client with
            | None => mret [errorItem "Not connected"]
            | Some client =>
                categoryChildren (default EmptyString
                                    (head (split colon contextValue)))
                  rest clusterId client
            end
          else legacyChildren (Some contextValue)
      | None => legacyChildren None
      end
  end.

(** ** Export *)

(** "Create export data without sensitive information". *)
Definition exportedCluster (cluster : ClusterConfig.t) : ClusterExportData.t :=
  {| ClusterExportData.doc_id := None;
     ClusterExportData.name := Some (ClusterConfig.name cluster);
     ClusterExportData.deploymentType :=
       Some (ClusterConfig.deploymentType cluster);
     ClusterExportData.nodeUrl := ClusterConfig.nodeUrl cluster;
     ClusterExportData.cloudId := ClusterConfig.cloudId cluster;
     ClusterExportData.authMethod := Some (ClusterConfig.authMethod cluster);
     ClusterExportData.disableSSL := ClusterConfig.disableSSL cluster |}.

(** [exportClusters]; the result is the file handed to [fs.writeFile],
    [None] when nothing was written. *)
Definition exportClusters : M (option WrittenFile) :=
  cs ← gets clusters;
  if (length cs =? 0)%nat then
    showInformationMessage "No clusters to export.";;
    mret None
  else
    t ← tick;
    let exportData :=
      {| version := "1.0.0"; exportDate := toISOString X (now E t);
         export_clusters := map exportedCluster (JsMap.values cs) |} in
    t' ← tick;
    match showSaveDialog X t'
            ("elasticsearch-clusters-" +:+
             (segments letterT (toISOString X (now E t'))).1 +:+ ".json") with
    | Some saveUri =>
        t'' ← tick;
        match writeFile X t'' saveUri with
        | Resolved =>
            showInformationMessage
              ("Successfully exported " +:+
               pretty (length (export_clusters exportData)) +:+
               " cluster configuration(s) to " +:+ saveUri);;
            mret (Some {| fsPath := saveUri; written := exportData |})
        | Rejected message =>
            showErrorMessage ("Failed to export clusters: " +:+ message);;
            mret None
        end
    | None => mret None
    end.

(** ** The CA certificate *)

Definition esExt_setCACertificate : M unit :=
  t ← tick;
  match showOpenDialog X t with
  | Some (fileUri :: _) =>
      t' ← tick;
      match readFile X t' fileUri with
      | inl fileContent =>
          modify (set_gs_caCertificate (Some fileContent));;
          showInformationMessage
            "CA certificate set. All new cluster connections will use this certificate."
      | inr message =>
          showErrorMessage ("Failed to read CA certificate: " +:+ message)
      end
  | _ => showInformationMessage "No CA certificate selected."
  end.

Definition esExt_clearCACertificate : M unit :=
  modify (set_gs_caCertificate None);;
  showInformationMessage
    "CA certificate cleared. New connections will not use a custom CA.".

(** ** The context menu *)

Definition esExt_clusterContextMenu (item : ExplorerItem.t) : M unit :=
  match ExplorerItem.contextValue item with
  | Some contextValue =>
      if String.prefix "clusterItem:" contextValue then
        match split colon contextValue !! 1%nat with
        | Some clusterId =>
            action ← askQuickPick E "Select action";
            if bool_decide (action = Some "Connect")
            then esExt_connectToCluster E clusterId
            else if bool_decide (action = Some "Remove")
            then esExt_removeCluster E clusterId
            else if bool_decide (action = Some "Edit")
            then showInformationMessage
                   "Edit cluster functionality coming soon!"
            else mret ()
        | None => mret ()
        end
      else mret ()
  | None => mret ()
  end.

(** ** The command table

    The handlers registered by [activate] that are embedded here, each
    with the argument the workbench passes, and the callback of the refresh
    interval, which runs only while an interval is scheduled. *)
Inductive Invocation : Type :=
| Run_addCluster
| Run_selectCluster (clusterId : string)
| Run_connectToCluster (clusterId : string)
| Run_removeCluster (clusterId : string)
| Run_toggleAutoRefresh
| Run_refresh
| Run_exportClusters
| Run_importClusters
| Run_disconnectFromCluster (clusterId : string)
| Run_clearAllClusterData
| Run_setCACertificate
| Run_clearCACertificate
| Run_clusterContextMenu (item : ExplorerItem.t)
| IntervalElapsed.

Definition invoke (i : Invocation) : M unit :=
  match i with
  | Run_addCluster => esExt_addCluster E
  | Run_selectCluster clusterId => esExt_selectCluster E clusterId
  | Run_connectToCluster clusterId => esExt_connectToCluster E clusterId
  | Run_removeCluster clusterId => esExt_removeCluster E clusterId
  | Run_toggleAutoRefresh => toggleAutoRefresh E
  | Run_refresh => refresh
  | Run_exportClusters => exportClusters;; mret ()
  | Run_importClusters => importClusters E
  | Run_disconnectFromCluster clusterId =>
      esExt_disconnectFromCluster clusterId
  | Run_clearAllClusterData => esExt_clearAllClusterData E
  | Run_setCACertificate => esExt_setCACertificate
  | Run_clearCACertificate => esExt_clearCACertificate
  | Run_clusterContextMenu item => esExt_clusterContextMenu item
  | IntervalElapsed =>
      scheduled ← gets refreshTimer;
      if (scheduled : bool) then refreshClusterHealth E else mret ()
  end.

(** The invocations of a session, in order. *)
Fixpoint session (invocations : list Invocation) : M unit :=
  match invocations with
  | [] => mret ()
  | i :: rest => invoke i;; session rest
  end.

End Explorer.

(** ** Reading the state, continued *)

(** The profile that start-up reads for an id: the payload stored under
    its config key, when there is one, it is not empty and it parses. *)
Definition storedConfig (E : Env) (w : World) (i : string)
  : option ClusterConfig.t :=
  match secrets w !! secretKey i "config" with
  | Some configJson =>
      if String.eqb configJson EmptyString then None
      else JSON_parse E configJson
  | None => None
  end.

(** What connecting, disconnecting and refreshing leave alone: the profile
    table, the list of known ids, the auto-refresh flags and the timer, the
    custom CA. *)
Definition profilesKept (w w' : World) : Prop :=
  clusters w' = clusters w ∧ gs_clusterIds w' = gs_clusterIds w
  ∧ autoRefreshEnabled w' = autoRefreshEnabled w
  ∧ refreshTimer w' = refreshTimer w
  ∧ gs_autoRefreshEnabled w' = gs_autoRefreshEnabled w
  ∧ gs_caCertificate w' = gs_caCertificate w.

(** The registry is what it was, or it gained the handle of a known
    profile. *)
Definition registryGrew (clusterId : string) (w w' : World) : Prop :=
  clients w' = clients w
  ∨ ∃ opts, is_Some (JsMap.get clusterId (clusters w))
            ∧ clients w' = JsMap.set clusterId opts (clients w).

(** The shape of a session: one entry per id in the profile table and in
    the registry, every handle belongs to a profile of the table, an
    interval is scheduled exactly while auto-refresh is enabled, and the
    persisted lists hold no id twice. *)
Definition consistent (w : World) : Prop :=
  NoDup (JsMap.keys (clusters w)) ∧ NoDup (JsMap.keys (clients w))
  ∧ (∀ i, is_Some (JsMap.get i (clients w)) →
          is_Some (JsMap.get i (clusters w)))
  ∧ refreshTimer w = autoRefreshEnabled w
  ∧ NoDup (gs_clusterIds w) ∧ NoDup (gs_connectedClusters w).

(** Only questions were asked and messages shown: the log grew by
    prompts and messages, the clock moved, everything else is the same. *)
Definition asked (w w' : World) : Prop :=
  untouched w w' ∧ secrets w' = secrets w ∧ ∃ l, talked w w' l.

(** The profile [c] under another id. *)
Definition withId (newId : string) (c : ClusterConfig.t) : ClusterConfig.t :=
  {| ClusterConfig.id := newId;
     ClusterConfig.name := ClusterConfig.name c;
     ClusterConfig.deploymentType := ClusterConfig.deploymentType c;
     ClusterConfig.nodeUrl := ClusterConfig.nodeUrl c;
     ClusterConfig.cloudId := ClusterConfig.cloudId c;
     ClusterConfig.authMethod := ClusterConfig.authMethod c;
     ClusterConfig.disableSSL := ClusterConfig.disableSSL c |}.

(** A profile that passes the validation of the import: its name, its
    deployment kind and its auth method are not empty. *)
Definition importable (c : ClusterConfig.t) : Prop :=
  ClusterConfig.name c ≠ EmptyString
  ∧ ClusterConfig.deploymentType c ≠ EmptyString
  ∧ ClusterConfig.authMethod c ≠ EmptyString.

(** ** A concrete platform *)

Module Workbench.

(** Case conversion on the letters of ASCII. *)
Definition upper (a : Ascii.ascii) : Ascii.ascii :=
  let n := Ascii.nat_of_ascii a in
  if (97 <=? n)%nat && (n <=? 122)%nat then Ascii.ascii_of_nat (n - 32) else a.

Definition lower (a : Ascii.ascii) : Ascii.ascii :=
  let n := Ascii.nat_of_ascii a in
  if (65 <=? n)%nat && (n <=? 90)%nat then Ascii.ascii_of_nat (n + 32) else a.

Fixpoint mapString (f : Ascii.ascii → Ascii.ascii) (s : string) : string :=
  match s with
  | EmptyString => EmptyString
  | String a r => String (f a) (mapString f r)
  end.

(** Dates are shown as their number; the user saves under the proposed
    name in [/home/dev], and picks [/home/dev/ca.pem] as the CA bundle. *)
Definition platform : Platform :=
  {| toUpperCase := mapString upper;
     toLowerCase := mapString lower;
     urlOrigin := Some;
     toLocaleTimeString := pretty;
     toLocaleString := pretty;
     toISOString := λ t, "2025-01-01T00:00:" +:+ pretty t +:+ "Z";
     showSaveDialog := λ _ name, Some ("/home/dev/" +:+ name);
     writeFile := λ _ _, Resolved;
     showOpenDialog := λ _, Some ["/home/dev/ca.pem"];
     readFile := λ _ _, inl "-----BEGIN CERTIFICATE-----" |}.

(** A cluster with two roles and nothing else to show. *)
Definition fetchers : Fetchers :=
  {| fetchClusterInfo := λ _ _, mret [];
     fetchClusterNodes := λ _, mret [];
     fetchDataStreams := λ _ _, mret [];
     fetchDataStreamIndices := λ _ _ _, mret [];
     fetchRoles := λ _,
       mret [ExplorerItem.new "admin" None TreeItemCollapsibleState.None
                (Some (plainIcon "person"));
             ExplorerItem.new "viewer" None TreeItemCollapsibleState.None
                (Some (plainIcon "person"))];
     fetchRoleMappings := λ _, mret [];
     fetchIndexTemplates := λ _, mret [] |}.

End Workbench.

(** ** Proof tools *)

Ltac run :=
  unfold mbind, M_bind, mret, M_ret, gets, modify, emit, tick; cbn.

Ltac split_ifs :=
  repeat (match goal with
          | |- context [if ?c then _ else _] =>
              lazymatch c with
              | context [if _ then _ else _] => fail
              | _ => destruct c eqn:?
              end
          end; cbn).

(** ** Strings and secret keys *)

Lemma append_nil_l (s : string) : EmptyString +:+ s = s.
Proof. reflexivity. Qed.

Lemma append_cons (a : Ascii.ascii) (s t : string) :
  String a s +:+ t = String a (s +:+ t).
Proof. reflexivity. Qed.

Ltac string_simpl :=
  repeat first [ rewrite append_nil_l in * | rewrite append_cons in * ];
  simpl in *.

Lemma append_nil_r (s : string) : s +:+ EmptyString = s.
Proof. induction s; string_simpl; congruence. Qed.

Lemma length_append (s t : string) :
  String.length (s +:+ t) = (String.length s + String.length t)%nat.
Proof. induction s; string_simpl; congruence. Qed.

(** Two ways of cutting one string: the shorter tail is a suffix of the
    longer one. *)
Lemma append_suffix (s1 s2 t1 t2 : string) :
  s1 +:+ t1 = s2 +:+ t2 → (String.length t1 ≤ String.length t2)%nat →
  ∃ u, t2 = u +:+ t1 ∧ s1 = s2 +:+ u.
Proof.
  revert s2. induction s1 as [|a s1 IH]; intros s2 Heq Hlen.
  - destruct s2 as [|b s2].
    + exists EmptyString. string_simpl. by subst.
    + string_simpl. subst t1. simpl in Hlen.
      rewrite length_append in Hlen. lia.
  - destruct s2 as [|b s2].
    + exists (String a s1). string_simpl. by subst.
    + string_simpl. injection Heq as -> Heq.
      destruct (IH _ Heq Hlen) as (u & -> & ->). by exists u.
Qed.

Lemma dotted_field_inj (i1 i2 f1 f2 : string) :
  f1 ∈ secretFields → f2 ∈ secretFields →
  i1 +:+ "." +:+ f1 = i2 +:+ "." +:+ f2 → i1 = i2 ∧ f1 = f2.
Proof.
  assert (Hle : ∀ j1 j2 g1 g2, g1 ∈ secretFields → g2 ∈ secretFields →
            (String.length g1 ≤ String.length g2)%nat →
            j1 +:+ "." +:+ g1 = j2 +:+ "." +:+ g2 → j1 = j2 ∧ g1 = g2).
  { intros j1 j2 g1 g2 H1 H2 Hlen Heq.
    destruct (append_suffix j1 j2 ("." +:+ g1) ("." +:+ g2) Heq)
      as (u & Hu & ->); [string_simpl; lia|].
    unfold secretFields in H1, H2.
    repeat (apply elem_of_cons in H1 as [->|H1]);
      [..|by apply elem_of_nil in H1];
    (repeat (apply elem_of_cons in H2 as [->|H2]);
      [..|by apply elem_of_nil in H2]);
    simpl in Hlen; try lia;
    (destruct u as [|a [|b [|c u]]]; string_simpl;
       [ by rewrite append_nil_r
       | discriminate Hu ..
       | apply (f_equal String.length) in Hu; simpl in Hu;
         rewrite length_append in Hu; simpl in Hu; lia ]). }
  intros H1 H2 Heq.
  destruct (decide (String.length f1 ≤ String.length f2)%nat) as [Hl|Hl].
  - by apply Hle.
  - symmetry in Heq. destruct (Hle i2 i1 f2 f1) as [-> ->]; auto; lia.
Qed.

(** The key template is injective: a key names one profile and one field. *)
Lemma secretKey_inj (i1 i2 f1 f2 : string) :
  f1 ∈ secretFields → f2 ∈ secretFields →
  secretKey i1 f1 = secretKey i2 f2 → i1 = i2 ∧ f1 = f2.
Proof.
  intros H1 H2 Heq. unfold secretKey in Heq. string_simpl.
  injection Heq as Heq. by apply dotted_field_inj.
Qed.

(** ** Lists, maps and the log *)

Lemma includes_true (x : string) (l : list string) :
  includes x l = true ↔ x ∈ l.
Proof.
  unfold includes. rewrite existsb_exists. split.
  - intros (y & Hin & Heq). apply String.eqb_eq in Heq as ->.
    by apply list_elem_of_In.
  - intros Hin. exists x.
    split; [by apply list_elem_of_In|apply String.eqb_refl].
Qed.

Lemma JsMap_get_set_eq {V : Type} (k : string) (v : V) (m : list (string * V)) :
  JsMap.get k (JsMap.set k v m) = Some v.
Proof.
  induction m as [|[k' v'] m IH]; simpl.
  - by rewrite String.eqb_refl.
  - destruct (String.eqb k k') eqn:Hk; simpl;
      rewrite ?String.eqb_refl, ?Hk; done.
Qed.

Lemma JsMap_get_set_ne {V : Type} (k k' : string) (v : V)
    (m : list (string * V)) :
  k ≠ k' → JsMap.get k' (JsMap.set k v m) = JsMap.get k' m.
Proof.
  intros Hne. induction m as [|[k0 v0] m IH]; simpl.
  - destruct (String.eqb k' k) eqn:Hk; [|done].
    apply String.eqb_eq in Hk. congruence.
  - destruct (String.eqb k k0) eqn:Hk; simpl.
    + apply String.eqb_eq in Hk as <-.
      destruct (String.eqb k' k) eqn:Hk'; [|done].
      apply String.eqb_eq in Hk'. congruence.
    + by rewrite IH.
Qed.

Lemma pings_app (l1 l2 : list Event) :
  pings (l1 ++ l2) = (pings l1 ++ pings l2)%list.
Proof. apply omap_app. Qed.

Lemma healthQueries_app (l1 l2 : list Event) :
  healthQueries (l1 ++ l2) = (healthQueries l1 ++ healthQueries l2)%list.
Proof. apply omap_app. Qed.

Lemma prompts_app (l1 l2 : list Event) :
  prompts (l1 ++ l2) = (prompts l1 ++ prompts l2)%list.
Proof. apply omap_app. Qed.

Lemma count_fires_app (l1 l2 : list Event) :
  count_fires (l1 ++ l2) = (count_fires l1 + count_fires l2)%nat.
Proof. unfold count_fires. by rewrite filter_app, length_app. Qed.


Lemma JsMap_keys_set {V : Type} (k : string) (v : V) (m : list (string * V)) :
  ∀ x, x ∈ JsMap.keys (JsMap.set k v m) → x = k ∨ x ∈ JsMap.keys m.
Proof.
  unfold JsMap.keys. induction m as [|[k' v'] m IH]; intros x; simpl.
  - intros ->%list_elem_of_singleton. by left.
  - destruct (String.eqb k k') eqn:Hk; simpl.
    + apply String.eqb_eq in Hk as <-. intros [->|Hx]%elem_of_cons.
      * by left.
      * right. by apply elem_of_cons; right.
    + intros [->|Hx]%elem_of_cons.
      * right. by apply elem_of_cons; left.
      * destruct (IH x Hx) as [->|Hin]; [by left|].
        right. by apply elem_of_cons; right.
Qed.

Lemma JsMap_keys_delete {V : Type} (k : string) (m : list (string * V)) :
  ∀ x, x ∈ JsMap.keys (JsMap.delete k m) → x ∈ JsMap.keys m.
Proof.
  unfold JsMap.keys. induction m as [|[k' v'] m IH]; intros x; simpl; [done|].
  destruct (String.eqb k k'); simpl.
  - intros Hx. apply elem_of_cons; right. by apply IH.
  - intros [->|Hx]%elem_of_cons; apply elem_of_cons; [by left|right].
    by apply IH.
Qed.

(** One entry per key is kept by [set] and [delete]: the registry, which
    is only written through them, never holds two handles for one id. *)
Lemma JsMap_set_NoDup {V : Type} (k : string) (v : V) (m : list (string * V)) :
  NoDup (JsMap.keys m) → NoDup (JsMap.keys (JsMap.set k v m)).
Proof.
  induction m as [|[k' v'] m IH]; simpl.
  - intros _. apply NoDup_singleton.
  - intros [Hk' Hm]%NoDup_cons. destruct (String.eqb k k') eqn:Hk; simpl.
    + apply String.eqb_eq in Hk as <-. by apply NoDup_cons.
    + apply NoDup_cons. split; [|by apply IH].
      intros [->|Hin]%JsMap_keys_set; [|done].
      by rewrite String.eqb_refl in Hk.
Qed.

Lemma JsMap_delete_NoDup {V : Type} (k : string) (m : list (string * V)) :
  NoDup (JsMap.keys m) → NoDup (JsMap.keys (JsMap.delete k m)).
Proof.
  induction m as [|[k' v'] m IH]; simpl; [done|].
  intros [Hk' Hm]%NoDup_cons. destruct (String.eqb k k'); simpl.
  - by apply IH.
  - apply NoDup_cons. split; [|by apply IH].
    intros Hin%JsMap_keys_delete. done.
Qed.

(** ** The pieces of a connect attempt *)

Lemma promptForCredentials_frame E clusterId config w :
  let w' := (promptForCredentials E clusterId config w).2 in
  untouched w w' ∧ (∃ l, talked w w' l)
  ∧ (∀ k, (∀ f, f ∈ credentialFields → k ≠ secretKey clusterId f) →
          secrets w' !! k = secrets w !! k).
Proof.
  unfold promptForCredentials, askInputBox, secrets_get, secrets_store,
    showWarningMessage. run.
  split_ifs.
  all: (split; [by repeat split|]).
  all: split.
  all: try (unfold talked; simpl; rewrite <- ?app_assoc; simpl;
            first [ eexists; split; [reflexivity|by repeat split]
                  | exists []; rewrite app_nil_r; by repeat split ]).
  all: intros k Hk; try reflexivity.
  all: rewrite ?lookup_insert_ne; try reflexivity.
  all: intros Heq; subst k; eapply Hk; [|reflexivity];
       unfold credentialFields; set_solver.
Qed.

Lemma buildClientOptions_world clusterId config w :
  (buildClientOptions clusterId config w).2 =
    if truthy_bool (ClusterConfig.disableSSL config)
    then set_NODE_TLS_REJECT_UNAUTHORIZED (Some "0") w else w.
Proof.
  unfold buildClientOptions, loadAuth, secrets_get. run.
  by split_ifs.
Qed.

Lemma buildClientOptions_ssl clusterId config w :
  ssl_rejectUnauthorized (buildClientOptions clusterId config w).1 =
    if truthy_bool (ClusterConfig.disableSSL config) then Some false else None.
Proof.
  unfold buildClientOptions, loadAuth, secrets_get. run. by split_ifs.
Qed.

(** The interactive connect path, one level unfolded. *)
Lemma connectToCluster_eq E clusterId config w :
  JsMap.get clusterId (clusters w) = Some config →
  connectToCluster E clusterId w =
    let p := promptForCredentials E clusterId config w in
    if p.1 then
      let b := buildClientOptions clusterId config p.2 in
      let opts := b.1 in
      let t := clock b.2 in
      let w2 := set_events (events b.2 ++ [Ping opts (resolved (ping E t opts))])
                  (set_clock (S t) b.2) in
      match ping E t opts with
      | Resolved =>
          (true,
           (fetchHealth E clusterId opts
              (saveConnectedCluster clusterId
                 (set_activeClusterId (Some clusterId)
                    (set_clients (JsMap.set clusterId opts (clients w2)) w2))).2).2)
      | Rejected message =>
          (false,
           set_events (events w2 ++
                         [ErrorMessage ("Failed to connect to " +:+
                            ClusterConfig.name config +:+ ": " +:+ message)]) w2)
      end
    else (false, p.2).
Proof.
  intros Hget. unfold connectToCluster, probe, showErrorMessage. run.
  rewrite Hget. cbn.
  destruct (promptForCredentials E clusterId config w) as [[] w1]; cbn; [|done].
  destruct (buildClientOptions clusterId config w1) as [opts w2]; cbn.
  destruct (ping E (clock w2) opts); cbn; reflexivity.
Qed.

Lemma saveConnectedCluster_world clusterId w :
  (saveConnectedCluster clusterId w).2 =
    if includes clusterId (gs_connectedClusters w) then w
    else set_gs_connectedClusters (gs_connectedClusters w ++ [clusterId]) w.
Proof. unfold saveConnectedCluster. run. by destruct (includes _ _). Qed.

Lemma saveConnectedCluster_elem clusterId w :
  clusterId ∈ gs_connectedClusters (saveConnectedCluster clusterId w).2.
Proof.
  rewrite saveConnectedCluster_world.
  destruct (includes _ _) eqn:Hin; cbn.
  - by apply includes_true.
  - apply elem_of_app. right. by apply list_elem_of_singleton.
Qed.

Lemma fetchHealth_world E clusterId client w :
  (fetchHealth E clusterId client w).2 =
    set_clusterHealth
      (<[clusterId := snapshotOf (health E (clock w) client) (now E (clock w))]>
         (clusterHealth w))
      (set_events
         (events w ++ [HealthQuery clusterId
                         (bool_decide (is_Some (health E (clock w) client)))])
         (set_clock (S (clock w)) w)).
Proof. reflexivity. Qed.


(** ** The health loop *)

Lemma count_fires_health (E : Env) (cs : list (string * Client)) (c0 : nat) :
  count_fires (imap (healthEvent E c0) cs) = 0%nat.
Proof.
  revert c0. induction cs as [|p cs IH]; intros c0; [done|].
  simpl. unfold count_fires in *. rewrite filter_cons_False by done.
  rewrite <- (IH (S c0)). f_equal. f_equal. apply imap_ext.
  intros i x _. unfold healthEvent. simpl. by rewrite Nat.add_succ_r.
Qed.

Lemma refreshLoop_spec (E : Env) (cs : list (string * Client)) (w : World) :
  let w' := (refreshLoop E cs w).2 in
  events w' = (events w ++ imap (healthEvent E (clock w)) cs)%list
  ∧ clients w' = clients w
  ∧ clock w' = (clock w + length cs)%nat
  ∧ (∀ k, k ∉ cs.*1 → clusterHealth w' !! k = clusterHealth w !! k)
  ∧ (NoDup cs.*1 → ∀ i k c, cs !! i = Some (k, c) →
       clusterHealth w' !! k =
         Some (snapshotOf (health E (clock w + i) c) (now E (clock w + i)))).
Proof.
  revert w. induction cs as [|[k0 c0] cs IH]; intros w; simpl.
  - run. rewrite app_nil_r, Nat.add_0_r. repeat split; try done.
  - unfold fetchHealth. run.
    match goal with |- context [refreshLoop E cs ?w1] =>
      destruct (IH w1) as (He & Hc & Hk & Hout & Hin) end.
    simpl in *. repeat split.
    + rewrite He, <- app_assoc. simpl. f_equal. f_equal.
      * unfold healthEvent. simpl. by rewrite Nat.add_0_r.
      * apply imap_ext. intros i x _. unfold healthEvent. simpl.
        by rewrite Nat.add_succ_r.
    + done.
    + rewrite Hk. lia.
    + intros k Hnot. apply not_elem_of_cons in Hnot as [Hne Hnot].
      rewrite Hout by done. by rewrite lookup_insert_ne.
    + intros Hnd i k c Hi. apply NoDup_cons in Hnd as [Hfresh Hnd].
      destruct i as [|i]; simpl in Hi.
      * injection Hi as -> ->. rewrite Hout by done.
        by rewrite lookup_insert_eq, Nat.add_0_r.
      * rewrite (Hin Hnd i k c Hi). by rewrite Nat.add_succ_r.
Qed.

Lemma JsMap_get_delete_eq {V : Type} (k : string) (m : list (string * V)) :
  JsMap.get k (JsMap.delete k m) = None.
Proof.
  induction m as [|[k' v'] m IH]; simpl; [done|].
  destruct (String.eqb k k') eqn:Hk; simpl; by rewrite ?Hk.
Qed.

Lemma JsMap_get_delete_ne {V : Type} (k k' : string) (m : list (string * V)) :
  k ≠ k' → JsMap.get k' (JsMap.delete k m) = JsMap.get k' m.
Proof.
  intros Hne. induction m as [|[k0 v0] m IH]; simpl; [done|].
  destruct (String.eqb k k0) eqn:Hk; simpl.
  - apply String.eqb_eq in Hk as <-.
    destruct (String.eqb k' k) eqn:Hk'; [|done].
    apply String.eqb_eq in Hk'. congruence.
  - by rewrite IH.
Qed.


(** The silent connect path, one level unfolded. *)
Lemma connectToClusterSilently_eq E clusterId config w :
  JsMap.get clusterId (clusters w) = Some config →
  connectToClusterSilently E clusterId w =
    let b := buildClientOptions clusterId config w in
    let opts := b.1 in
    let t := clock b.2 in
    let w2 := set_events (events b.2 ++ [Ping opts (resolved (ping E t opts))])
                (set_clock (S t) b.2) in
    match ping E t opts with
    | Resolved =>
        let w3 := set_clients (JsMap.set clusterId opts (clients w2)) w2 in
        (true,
         (fetchHealth E clusterId opts
            (if truthy (activeClusterId w3) then w3
             else set_activeClusterId (Some clusterId) w3)).2)
    | Rejected _ => (false, w2)
    end.
Proof.
  intros Hget. unfold connectToClusterSilently, probe. run.
  rewrite Hget. cbn.
  destruct (buildClientOptions clusterId config w) as [opts w2]; cbn.
  destruct (ping E (clock w2) opts); cbn; [|done].
  by destruct (truthy (activeClusterId w2)).
Qed.

Lemma connectToCluster_unknown E clusterId w :
  JsMap.get clusterId (clusters w) = None →
  connectToCluster E clusterId w =
    (false, set_events (events w ++
               [ErrorMessage ("Cluster " +:+ clusterId +:+ " not found")]) w).
Proof. intros Hget. unfold connectToCluster, showErrorMessage. run. by rewrite Hget. Qed.

Lemma connectToClusterSilently_unknown E clusterId w :
  JsMap.get clusterId (clusters w) = None →
  connectToClusterSilently E clusterId w = (false, w).
Proof. intros Hget. unfold connectToClusterSilently. run. by rewrite Hget. Qed.

Lemma buildClientOptions_frame clusterId config w :
  let w' := (buildClientOptions clusterId config w).2 in
  clusters w' = clusters w ∧ clients w' = clients w
  ∧ clusterHealth w' = clusterHealth w
  ∧ activeClusterId w' = activeClusterId w
  ∧ gs_connectedClusters w' = gs_connectedClusters w
  ∧ secrets w' = secrets w
  ∧ gs_clusterIds w' = gs_clusterIds w
  ∧ events w' = events w ∧ clock w' = clock w.
Proof.
  cbn zeta. rewrite buildClientOptions_world.
  by destruct (truthy_bool _).
Qed.


(** ** The silent path and the reconnect loop *)


Lemma loadAuth_secrets clusterId config w w' :
  secrets w' = secrets w →
  (loadAuth clusterId config w').1 = (loadAuth clusterId config w).1.
Proof.
  intros Hs. unfold loadAuth, secrets_get. run.
  destruct (_ =? BASIC)%string; [|destruct (_ =? API_KEY)%string]; cbn;
    by rewrite ?Hs.
Qed.

Lemma buildClientOptions_auth clusterId config w :
  auth (buildClientOptions clusterId config w).1 =
    (loadAuth clusterId config w).1.
Proof. unfold buildClientOptions. run. done. Qed.

Lemma removeConnectedCluster_world clusterId w :
  (removeConnectedCluster clusterId w).2 =
    set_gs_connectedClusters
      (filter (λ i, i ≠ clusterId) (gs_connectedClusters w)) w.
Proof. reflexivity. Qed.

(** What one silent attempt on a known profile does. *)
Lemma connectToClusterSilently_spec E clusterId config w :
  JsMap.get clusterId (clusters w) = Some config →
  let s := connectToClusterSilently E clusterId w in
  let opts := (buildClientOptions clusterId config w).1 in
  let ok := resolved (ping E (clock w) opts) in
  s.1 = ok
  ∧ secrets s.2 = secrets w ∧ clusters s.2 = clusters w
  ∧ gs_connectedClusters s.2 = gs_connectedClusters w
  ∧ clients s.2 = (if ok then JsMap.set clusterId opts (clients w)
                   else clients w)
  ∧ events s.2 =
      (events w ++ Ping opts ok ::
         (if ok then [HealthQuery clusterId
                        (bool_decide (is_Some (health E (S (clock w)) opts)))]
          else []))%list.
Proof.
  intros Hget. cbn zeta.
  rewrite (connectToClusterSilently_eq E clusterId config w Hget). cbn zeta.
  destruct (buildClientOptions_frame clusterId config w)
    as (Hc & Hcl & _ & _ & Hco & Hs & _ & He & Hk).
  destruct (buildClientOptions clusterId config w) as [opts w2].
  cbn in *. rewrite Hk. destruct (ping E _ _); cbn.
  - rewrite fetchHealth_world. cbn.
    match goal with |- context [if truthy ?a then _ else _] =>
      destruct (truthy a) end; cbn; repeat split; try done;
      by rewrite ?He, ?Hcl, <- ?app_assoc.
  - repeat split; try done. by rewrite He.
Qed.

(** The reconnect loop: what it leaves alone, what it counts, what stays
    in the reconnect-set. *)
Lemma reconnectLoop_inv E ids : ∀ rc fc w,
  let r := reconnectLoop E ids rc fc w in
  secrets r.2 = secrets w ∧ clusters r.2 = clusters w
  ∧ (r.1.1 + r.1.2 = rc + fc + length ids)%nat
  ∧ (∃ l, events r.2 = (events w ++ l)%list ∧ prompts l = []
          ∧ Forall (λ e, ∀ m, e ≠ WarningMessage m) l)
  ∧ gs_connectedClusters r.2 ⊆ gs_connectedClusters w
  ∧ (∀ i, i ∉ ids → i ∈ gs_connectedClusters w →
          i ∈ gs_connectedClusters r.2)
  ∧ (∀ i, i ∉ ids → JsMap.get i (clients r.2) = JsMap.get i (clients w))
  ∧ (∀ i, i ∈ ids → i ∈ gs_connectedClusters r.2 →
       ∃ config o, JsMap.get i (clusters w) = Some config
         ∧ JsMap.get i (clients r.2) = Some o
         ∧ auth o = (loadAuth i config w).1).
Proof.
  induction ids as [|i0 ids IH]; intros rc fc w; cbn zeta.
  - cbn. repeat split; try done; try lia.
    + exists []. by rewrite app_nil_r.
    + intros i Hi. by apply elem_of_nil in Hi.
  - cbn [reconnectLoop]. run.
    destruct (JsMap.get i0 (clusters w)) as [config|] eqn:Hget; cbn.
    + destruct (connectToClusterSilently_spec E i0 config w Hget)
        as (Hok & Hs & Hc & Hco & Hcl & He).
      destruct (connectToClusterSilently E i0 w) as [ok w1]. cbn in *.
      subst ok. set (opts := (buildClientOptions i0 config w).1) in *.
      destruct (resolved (ping E (clock w) opts)) eqn:Hping; cbn.
      * destruct (IH (S rc) fc w1)
          as (Hs' & Hc' & Hn & (l & Hl & Hp & Hw) & Hsub & Hstay & Hout & Hin).
        repeat split.
        -- congruence.
        -- congruence.
        -- rewrite Hn. cbn. lia.
        -- eexists. rewrite Hl, He, <- app_assoc. split; [done|].
           split; [by rewrite prompts_app, Hp|].
           apply Forall_app. split; [|done]. by repeat constructor.
        -- by rewrite <- Hco.
        -- intros i Hi Hmem. apply not_elem_of_cons in Hi as [Hne Hi].
           apply Hstay; [done|]. by rewrite Hco.
        -- intros i Hi. apply not_elem_of_cons in Hi as [Hne Hi].
           rewrite Hout, Hcl by done. by apply JsMap_get_set_ne.
        -- intros i Hi Hkeep.
           destruct (decide (i ∈ ids)) as [Hmem|Hmem].
           ++ destruct (Hin i Hmem Hkeep) as (c & o & Hg & Ho & Ha).
              exists c, o. rewrite <- Hc. split; [done|]. split; [done|].
              rewrite Ha. by apply loadAuth_secrets.
           ++ apply elem_of_cons in Hi as [->|Hi]; [|done].
              exists config, opts. split; [done|].
              rewrite Hout, Hcl by done. split; [apply JsMap_get_set_eq|].
              apply buildClientOptions_auth.
      * rewrite removeConnectedCluster_world.
        match goal with |- context [reconnectLoop E ids rc (S fc) ?w2] =>
          destruct (IH rc (S fc) w2)
            as (Hs' & Hc' & Hn & (l & Hl & Hp & Hw) & Hsub & Hstay & Hout & Hin)
        end.
        cbn in *. repeat split.
        -- congruence.
        -- congruence.
        -- rewrite Hn. lia.
        -- eexists. rewrite Hl, He, <- app_assoc. split; [done|].
           split; [by rewrite prompts_app, Hp|].
           apply Forall_app. split; [|done]. by repeat constructor.
        -- intros y Hy. apply Hsub, list_elem_of_filter in Hy as [_ Hy].
           by rewrite <- Hco.
        -- intros i Hi Hmem. apply not_elem_of_cons in Hi as [Hne Hi].
           apply Hstay; [done|]. apply list_elem_of_filter.
           split; [done|]. by rewrite Hco.
        -- intros i Hi. apply not_elem_of_cons in Hi as [Hne Hi].
           by rewrite Hout, Hcl.
        -- intros i Hi Hkeep.
           assert (Hne : i ≠ i0).
           { apply Hsub in Hkeep.
             by apply list_elem_of_filter in Hkeep as [? _]. }
           apply elem_of_cons in Hi as [->|Hi]; [done|].
           destruct (Hin i Hi Hkeep) as (c & o & Hg & Ho & Ha).
           exists c, o. rewrite <- Hc. split; [done|]. split; [done|].
           rewrite Ha. by apply loadAuth_secrets.
    + rewrite removeConnectedCluster_world.
      match goal with |- context [reconnectLoop E ids rc (S fc) ?w2] =>
        destruct (IH rc (S fc) w2)
          as (Hs' & Hc' & Hn & (l & Hl & Hp & Hw) & Hsub & Hstay & Hout & Hin)
      end.
      cbn in *. repeat split; try done.
      * rewrite Hn. lia.
      * by exists l.
      * intros y Hy. by apply Hsub, list_elem_of_filter in Hy as [_ Hy].
      * intros i Hi Hmem. apply not_elem_of_cons in Hi as [Hne Hi].
        apply Hstay; [done|]. by apply list_elem_of_filter.
      * intros i Hi. apply not_elem_of_cons in Hi as [Hne Hi]. by rewrite Hout.
      * intros i Hi Hkeep.
        assert (Hne : i ≠ i0).
        { apply Hsub in Hkeep. by apply list_elem_of_filter in Hkeep as [? _]. }
        apply elem_of_cons in Hi as [->|Hi]; [done|].
        destruct (Hin i Hi Hkeep) as (c & o & Hg & Ho & Ha).
        exists c, o. split; [done|]. split; [done|].
        rewrite Ha. by apply loadAuth_secrets.
Qed.



Lemma autoReconnectClusters_eq E w :
  gs_connectedClusters w ≠ [] →
  let r := reconnectLoop E (gs_connectedClusters w) 0 0 w in
  (autoReconnectClusters E w).2 =
    set_events (events r.2 ++ [summaryEvent r.1.1 r.1.2]) r.2.
Proof.
  intros Hne. unfold autoReconnectClusters, summaryEvent,
    showWarningMessage, showInformationMessage. run.
  destruct (length (gs_connectedClusters w) =? 0)%nat eqn:Hlen.
  { apply Nat.eqb_eq, nil_length_inv in Hlen. done. }
  apply Nat.eqb_neq in Hlen. cbn.
  destruct (reconnectLoop_inv E (gs_connectedClusters w) 0 0 w)
    as (_ & _ & Hn & _).
  destruct (reconnectLoop E (gs_connectedClusters w) 0 0 w) as [[rc fc] w1].
  cbn [fst snd] in *.
  destruct fc as [|fc]; cbn.
  - destruct rc as [|rc]; [lia|]. done.
  - rewrite orb_true_r. done.
Qed.


(** ** Adding, storing, clearing *)

Lemma addCluster_world E config w :
  (addCluster E config w).2 =
    let i := ClusterConfig.id config in
    let w1 := set_secrets
                (<[secretKey i "config" := JSON_stringify E config]> (secrets w))
                (set_clusters (JsMap.set i config (clusters w)) w) in
    let w2 := if includes i (gs_clusterIds w) then w1
              else set_gs_clusterIds (gs_clusterIds w ++ [i]) w1 in
    let w3 := if truthy (activeClusterId w) then w2
              else set_activeClusterId (Some i) w2 in
    set_events (events w ++ [Fire]) w3.
Proof.
  unfold addCluster, saveClusterConfig, refresh, secrets_store. run.
  by destruct (includes _ _); destruct (truthy _).
Qed.

Lemma truthy_Some (v : option string) :
  truthy v = true → v = Some (default EmptyString v).
Proof. by destruct v. Qed.

Lemma secretKey_ne (i j f g : string) :
  f ∈ secretFields → g ∈ secretFields → f ≠ g →
  secretKey i f ≠ secretKey j g.
Proof. intros Hf Hg Hne [_ ?]%secretKey_inj; done. Qed.

Lemma storeClusterCredentials_spec clusterId authMethod c w :
  credentialsSupplied authMethod c = true →
  let r := storeClusterCredentials clusterId authMethod c w in
  r.1 = true ∧ untouched w r.2 ∧ events r.2 = events w ∧ clock r.2 = clock w
  ∧ secrets r.2 !! secretKey clusterId "config" =
      secrets w !! secretKey clusterId "config"
  ∧ (authMethod = BASIC →
       secrets r.2 !! secretKey clusterId "username" = cred_username c
       ∧ secrets r.2 !! secretKey clusterId "password" = cred_password c)
  ∧ (authMethod = API_KEY →
       secrets r.2 !! secretKey clusterId "apiKey" = cred_apiKey c).
Proof.
  unfold credentialsSupplied, storeClusterCredentials, secrets_store_opt,
    secrets_store. unfold BASIC, API_KEY. intros Hsup. run.
  destruct (authMethod =? "Basic: Username/Password")%string eqn:Hb.
  - apply andb_true_iff in Hsup as [Hu%truthy_Some Hp%truthy_Some].
    rewrite Hu, Hp. cbn. repeat split; try done.
    + rewrite !lookup_insert_ne; [done|..]; apply secretKey_ne;
        unfold secretFields; set_solver.
    + rewrite lookup_insert_ne, lookup_insert_eq; [done|].
      apply secretKey_ne; unfold secretFields; set_solver.
    + by rewrite lookup_insert_eq.
    + apply String.eqb_eq in Hb. intros ->. done.
  - destruct (authMethod =? "API Key")%string eqn:Ha.
    + apply truthy_Some in Hsup. rewrite Hsup. cbn. repeat split; try done.
      * rewrite !lookup_insert_ne; [done|..]; apply secretKey_ne;
          unfold secretFields; set_solver.
      * apply String.eqb_neq in Hb. done.
      * apply String.eqb_neq in Hb. done.
      * by rewrite lookup_insert_eq.
    + cbn. apply String.eqb_neq in Hb, Ha. repeat split; done.
Qed.

Lemma promptForCredentials_ready E clusterId config w :
  credentialsMissing clusterId config w = false →
  promptForCredentials E clusterId config w = (true, w).
Proof.
  unfold credentialsMissing, promptForCredentials, secrets_get. run.
  intros H. split_ifs; done.
Qed.

(** Connecting never touches the profile table or the list of known ids,
    and with the credentials at hand it leaves the secrets alone. *)
Lemma connectToCluster_frame E clusterId w :
  let r := connectToCluster E clusterId w in
  clusters r.2 = clusters w ∧ gs_clusterIds r.2 = gs_clusterIds w
  ∧ (∀ k, (∀ f, f ∈ credentialFields → k ≠ secretKey clusterId f) →
          secrets r.2 !! k = secrets w !! k)
  ∧ (∀ config, JsMap.get clusterId (clusters w) = Some config →
       credentialsMissing clusterId config w = false →
       secrets r.2 = secrets w).
Proof.
  cbn zeta.
  destruct (JsMap.get clusterId (clusters w)) as [config|] eqn:Hget.
  2: { rewrite connectToCluster_unknown by done. cbn. repeat split; done. }
  rewrite (connectToCluster_eq E clusterId config w Hget). cbn zeta.
  pose proof (promptForCredentials_ready E clusterId config w) as Hready.
  destruct (promptForCredentials_frame E clusterId config w)
    as (Hsame & _ & Hsec).
  destruct Hsame as (Hc & _ & _ & _ & _ & _ & Hids & _).
  destruct (promptForCredentials E clusterId config w) as [ready w1].
  cbn in Hc, Hids, Hsec.
  destruct ready; cbn.
  - destruct (buildClientOptions_frame clusterId config w1)
      as (Hc1 & _ & _ & _ & _ & Hs1 & Hi1 & _).
    assert (Hs : credentialsMissing clusterId config w = false → w1 = w).
    { intros Hm. specialize (Hready Hm). by injection Hready. }
    destruct (ping E _ _); cbn;
      rewrite ?fetchHealth_world, ?saveConnectedCluster_world; cbn;
      [destruct (includes _ _); cbn|];
      rewrite Hc1, Hs1, Hi1; (repeat split; try done);
      intros c [= <-] Hm; by rewrite (Hs Hm).
  - repeat split; try done.
    intros c [= <-] Hm. specialize (Hready Hm). done.
Qed.

Lemma clearSecrets_spec ids : ∀ w,
  let w' := (clearSecrets ids w).2 in
  untouched w w' ∧ events w' = events w ∧ clock w' = clock w
  ∧ secrets w' ⊆ secrets w
  ∧ (∀ i f, i ∈ ids → f ∈ secretFields → secrets w' !! secretKey i f = None).
Proof.
  induction ids as [|i ids IH]; intros w; cbn zeta.
  - cbn. repeat split; try done. intros i f Hi. by apply elem_of_nil in Hi.
  - unfold clearSecrets; fold clearSecrets. unfold secrets_delete. run.
    match goal with |- context [clearSecrets ids ?w1] =>
      destruct (IH w1) as (Hu & He & Hc & Hsub & Hs) end.
    cbn in *. split; [done|]. split; [done|]. split; [done|]. split.
    + etrans; [done|]. repeat (etrans; [apply delete_subseteq|]). done.
    + intros i' f Hi Hf. apply elem_of_cons in Hi as [->|Hi]; [|by apply Hs].
      eapply lookup_weaken_None; [|done].
      unfold secretFields in Hf.
      repeat (apply elem_of_cons in Hf as [->|Hf]);
        [..|by apply elem_of_nil in Hf];
        repeat first [ apply lookup_delete_eq
                     | rewrite lookup_delete_ne;
                       [|by intros [_ ?]%secretKey_inj;
                            unfold secretFields; set_solver] ].
Qed.

Lemma credentialsSupplied_present clusterId name deploymentType target
    authMethod insecure c w :
  credentialsSupplied authMethod c = true →
  (authMethod = BASIC →
     secrets w !! secretKey clusterId "username" = cred_username c
     ∧ secrets w !! secretKey clusterId "password" = cred_password c) →
  (authMethod = API_KEY →
     secrets w !! secretKey clusterId "apiKey" = cred_apiKey c) →
  credentialsMissing clusterId
    (addedConfig clusterId name deploymentType target authMethod insecure) w
  = false.
Proof.
  unfold credentialsSupplied, credentialsMissing. cbn.
  intros Hsup Hb Ha.
  destruct (authMethod =? BASIC)%string eqn:Eb.
  - apply String.eqb_eq in Eb. destruct (Hb Eb) as [-> ->]. by rewrite Hsup.
  - destruct (authMethod =? API_KEY)%string eqn:Ea; [|done].
    apply String.eqb_eq in Ea. rewrite (Ha Ea). by rewrite Hsup.
Qed.

(** ** Removing and importing *)

Lemma removeCluster_world clusterId w :
  (removeCluster clusterId w).2 =
    let w1 :=
      set_secrets
        (delete (secretKey clusterId "apiKey")
           (delete (secretKey clusterId "password")
              (delete (secretKey clusterId "username")
                 (delete (secretKey clusterId "config") (secrets w)))))
        (set_gs_connectedClusters
           (filter (λ i, i ≠ clusterId) (gs_connectedClusters w))
           (set_clients (JsMap.delete clusterId (clients w))
              (set_clusters (JsMap.delete clusterId (clusters w)) w))) in
    set_events (events w ++ [Fire])
      (if bool_decide (activeClusterId w = Some clusterId)
       then set_activeClusterId
              (head (JsMap.keys (JsMap.delete clusterId (clusters w)))) w1
       else w1).
Proof.
  unfold removeCluster, removeConnectedCluster, secrets_delete, refresh. run.
  by case_bool_decide.
Qed.

Lemma removeCluster_secrets clusterId w :
  secrets (removeCluster clusterId w).2 ⊆ secrets w.
Proof.
  rewrite removeCluster_world. cbn zeta.
  case_bool_decide; cbn; repeat (etrans; [apply delete_subseteq|]); done.
Qed.

Lemma importEntry_world E clusterData w :
  (importEntry E clusterData w).2 =
    (addCluster E (newClusterConfig (generatedId E (clock w)) clusterData)
       (set_clock (S (clock w)) w)).2.
Proof. unfold importEntry, generateClusterId. run. done. Qed.

Lemma config_key_ne_credential (i j f : string) :
  f ∈ credentialFields → secretKey j "config" ≠ secretKey i f.
Proof.
  intros Hf. unfold credentialFields in Hf.
  repeat (apply elem_of_cons in Hf as [->|Hf]); [..|by apply elem_of_nil in Hf];
    apply secretKey_ne; try done; unfold secretFields; repeat constructor.
Qed.

Lemma importEntry_credentials E clusterData w i f :
  f ∈ credentialFields →
  secrets (importEntry E clusterData w).2 !! secretKey i f =
    secrets w !! secretKey i f.
Proof.
  intros Hf. rewrite importEntry_world, addCluster_world. cbn.
  destruct (includes _ _); destruct (truthy _); cbn;
    (rewrite lookup_insert_ne; [done|]);
    by apply config_key_ne_credential.
Qed.

Lemma importLoop_credentials E entries : ∀ importedCount skippedCount w i f v,
  f ∈ credentialFields →
  secrets (importLoop E entries importedCount skippedCount w).2
    !! secretKey i f = Some v →
  secrets w !! secretKey i f = Some v.
Proof.
  induction entries as [|[e|] entries IH]; intros ic sc w i f v Hf;
    [done| |done].
  cbn [importLoop].
  destruct (missingRequired e) eqn:Hmiss; [by apply IH|].
  unfold askWarning. run.
  destruct (findByName (ClusterExportData.name e) (clusters w))
    as [existing|]; cbn.
  - case_bool_decide; cbn; [done|].
    case_bool_decide; cbn.
    + intros Hv. by apply IH in Hv.
    + intros Hv. apply IH in Hv; [|done].
      rewrite importEntry_credentials in Hv by done.
      by apply (lookup_weaken _ _ _ _ Hv (removeCluster_secrets _ _)).
  - intros Hv. apply IH in Hv; [|done].
    by rewrite importEntry_credentials in Hv.
Qed.


Lemma ownedKey_true (ids : list string) (k : string) :
  ownedKey ids k = true →
  ∃ i f, i ∈ ids ∧ f ∈ secretFields ∧ k = secretKey i f.
Proof.
  unfold ownedKey. intros (i & Hi & (f & Hf & Heq)%existsb_exists)%existsb_exists.
  apply String.eqb_eq in Heq. exists i, f.
  split; [by apply list_elem_of_In|]. split; [by apply list_elem_of_In|done].
Qed.

Lemma removeCluster_health (clusterId : string) (w : World) :
  clusterHealth (removeCluster clusterId w).2 = clusterHealth w.
Proof. rewrite removeCluster_world. cbn zeta. by case_bool_decide. Qed.

Lemma disconnectFromCluster_purges (clusterId : string) (w : World) :
  let w' := (disconnectFromCluster clusterId w).2 in
  JsMap.get clusterId (clients w') = None
  ∧ clusterHealth w' !! clusterId = None
  ∧ clusterId ∉ gs_connectedClusters w'.
Proof.
  unfold disconnectFromCluster, removeConnectedCluster, getCluster, refresh,
    showInformationMessage. run.
  case_bool_decide; cbn;
    (split; [apply JsMap_get_delete_eq|split; [apply lookup_delete_eq|]]);
    by intros [? _]%list_elem_of_filter.
Qed.

(** ** What the reconnect run counts *)




(** ** Closed goals *)

Ltac by_computation :=
  cbn zeta; vm_compute; repeat split; first [reflexivity | exact I].

Ltac decide_closed := apply (bool_decide_unpack _); vm_compute; exact I.

(** * The claims *)

(** C1.  For a known profile, [connectToCluster] answers what its probe
    answers: once the credentials block lets it through, exactly one probe
    is made, with the options built from the profile, and the result is
    [true] exactly when [ping] resolves on them; when the block returns
    early no probe is made and the result is [false].  In particular, with
    the credentials at hand the result is the answer of [ping] at the clock
    of the call.  On success the handle with those options is in the
    registry, the id is in the reconnect-set, exactly one health query was
    made and its answer is the snapshot in the cache, the [unknown]
    snapshot when that query failed.  On failure no health query is made
    and the registry, the reconnect-set, the health cache and the active
    pointer are what they were, and a rejected probe ends in the error
    message that names the profile and carries the probe's message. *)
Theorem connectToCluster_known E clusterId config w :
  JsMap.get clusterId (clusters w) = Some config →
  let r := connectToCluster E clusterId w in
  let log := emitted (connectToCluster E clusterId) w in
  let p := promptForCredentials E clusterId config w in
  let opts := (buildClientOptions clusterId config p.2).1 in
  let t := clock p.2 in
  r.1 = p.1 && resolved (ping E t opts)
  ∧ pings log = (if p.1 then [(opts, resolved (ping E t opts))] else [])
  ∧ (credentialsMissing clusterId config w = false →
     r.1 = resolved (ping E (clock w)
                       (buildClientOptions clusterId config w).1))
  ∧ (r.1 = true ↔ ∃ o, (o, true) ∈ pings log)
  ∧ (r.1 = true →
        JsMap.get clusterId (clients r.2) = Some opts
        ∧ clusterId ∈ gs_connectedClusters r.2
        ∧ healthQueries log =
            [(clusterId, bool_decide (is_Some (health E (S t) opts)))]
        ∧ clusterHealth r.2 !! clusterId =
            Some (snapshotOf (health E (S t) opts) (now E (S t)))
        ∧ (health E (S t) opts = None →
           clusterHealth r.2 !! clusterId =
             Some (unknownHealth (now E (S t)))))
  ∧ (r.1 = false →
        clients r.2 = clients w
        ∧ gs_connectedClusters r.2 = gs_connectedClusters w
        ∧ clusterHealth r.2 = clusterHealth w
        ∧ activeClusterId r.2 = activeClusterId w
        ∧ healthQueries log = [])
  ∧ (∀ message, p.1 = true → ping E t opts = Rejected message →
        last log = Some (ErrorMessage
                           ("Failed to connect to " +:+
                            ClusterConfig.name config +:+ ": " +:+ message))).
Proof.
  intros Hget r log p opts t. subst r log.
  assert (Hready : credentialsMissing clusterId config w = false →
                   p = (true, w)) by apply promptForCredentials_ready.
  revert Hready. subst t opts p. unfold emitted.
  rewrite (connectToCluster_eq E clusterId config w Hget). cbn zeta.
  destruct (promptForCredentials_frame E clusterId config w)
    as (Hsame & (l & Hl & Hp & Hq & _) & _).
  destruct Hsame as (_ & Hcl & Hh & Ha & _ & _ & _ & Hco & _).
  destruct (promptForCredentials E clusterId config w) as [ready w1].
  cbn in *. intros Hready. destruct ready; cbn.
  2: { rewrite Hl, drop_app_length, Hp, Hq.
       split; [done|]. split; [done|].
       split; [intros Hm; by specialize (Hready Hm)|].
       split; [split; [done|intros [? H]; by apply elem_of_nil in H]|].
       by repeat split. }
  rewrite buildClientOptions_world.
  set (opts := (buildClientOptions clusterId config w1).1).
  set (w2 := if truthy_bool (ClusterConfig.disableSSL config)
             then set_NODE_TLS_REJECT_UNAUTHORIZED (Some "0") w1 else w1).
  assert (Hw2 : events w2 = events w1 ∧ clients w2 = clients w1
                ∧ gs_connectedClusters w2 = gs_connectedClusters w1
                ∧ clusterHealth w2 = clusterHealth w1
                ∧ activeClusterId w2 = activeClusterId w1
                ∧ clock w2 = clock w1).
  { subst w2. by destruct (truthy_bool _). }
  destruct Hw2 as (He2 & Hc2 & Hco2 & Hh2 & Ha2 & Hk2).
  rewrite Hk2.
  assert (Hat : credentialsMissing clusterId config w = false →
                ping E (clock w)
                  (buildClientOptions clusterId config w).1
                = ping E (clock w1) opts).
  { intros Hm. specialize (Hready Hm). injection Hready as <-. done. }
  destruct (ping E (clock w1) opts) as [|message] eqn:Hping; cbn.
  - rewrite fetchHealth_world, saveConnectedCluster_world. cbn.
    assert (Hpings : ∀ tl,
      pings (drop (length (events w))
               (((events w2 ++ [Ping opts true]) ++ tl))%list)
      = (opts, true) :: pings tl).
    { intros tl. by rewrite He2, Hl, <- !app_assoc, drop_app_length,
        !pings_app, Hp. }
    assert (Hqs : ∀ tl,
      healthQueries (drop (length (events w))
                       (((events w2 ++ [Ping opts true]) ++ tl))%list)
      = healthQueries tl).
    { intros tl. by rewrite He2, Hl, <- !app_assoc, drop_app_length,
        !healthQueries_app, Hq. }
    split; [done|]. split; [by destruct (includes _ _); cbn; rewrite Hpings|].
    split; [intros Hm; by rewrite (Hat Hm)|].
    split; [|split; [|split; [done|done]]].
    + split; [|done]. intros _. exists opts.
      destruct (includes _ _); cbn; rewrite Hpings; by left.
    + intros _.
      destruct (includes clusterId (gs_connectedClusters w2)) eqn:Hin; cbn;
        rewrite ?JsMap_get_set_eq, ?lookup_insert_eq, Hqs; cbn.
      * apply includes_true in Hin. repeat split; try done.
        by intros ->.
      * repeat split; try done; [|by intros ->].
        apply elem_of_app. right. by apply list_elem_of_singleton.
  - assert (Hlog : drop (length (events w))
                     ((events w2 ++ [Ping opts false]) ++
                      [ErrorMessage ("Failed to connect to " +:+
                         ClusterConfig.name config +:+ ": " +:+ message)])%list
                   = ((l ++ [Ping opts false]) ++
                      [ErrorMessage ("Failed to connect to " +:+
                         ClusterConfig.name config +:+ ": " +:+ message)])%list).
    { by rewrite He2, Hl, <- !app_assoc, drop_app_length. }
    rewrite Hlog.
    split; [done|]. split; [by rewrite !pings_app, Hp|].
    split; [intros Hm; by rewrite (Hat Hm)|].
    split; [|split; [done|split]].
    + split; [done|]. intros [o Ho]. exfalso.
      rewrite !pings_app, Hp in Ho. cbn in Ho.
      apply list_elem_of_singleton in Ho. congruence.
    + intros _. rewrite Hc2, Hco2, Hh2, Ha2.
      repeat split; try done. by rewrite !healthQueries_app, Hq.
    + intros m _ [= <-]. apply last_snoc.
Qed.

Lemma connectToCluster_known_witness :
  let E := Demo.envOpen "Yes" in
  let r := connectToCluster E "B" Demo.loaded in
  let p := promptForCredentials E "B" Demo.cfgB Demo.loaded in
  JsMap.get "B" (clusters Demo.loaded) = Some Demo.cfgB
  ∧ credentialsMissing "B" Demo.cfgB Demo.loaded = true
  ∧ p.1 = true
  ∧ ping E (clock p.2) (buildClientOptions "B" Demo.cfgB p.2).1 = Resolved
  ∧ r.1 = true
  ∧ JsMap.has "B" (clients r.2) = true
  ∧ healthQueries (emitted (connectToCluster E "B") Demo.loaded)
    = [("B", false)]
  ∧ status <$> clusterHealth r.2 !! "B" = Some "unknown".
Proof.
  cbn zeta.
  assert (Hget : JsMap.get "B" (clusters Demo.loaded) = Some Demo.cfgB)
    by (vm_compute; reflexivity).
  destruct (connectToCluster_known (Demo.envOpen "Yes") "B" Demo.cfgB
              Demo.loaded Hget) as (Hr & _ & _ & _ & Hok & _).
  split; [exact Hget|]. split; [vm_compute; reflexivity|].
  split; [vm_compute; reflexivity|]. split; [vm_compute; reflexivity|].
  assert (Htrue : (connectToCluster (Demo.envOpen "Yes") "B" Demo.loaded).1
                  = true).
  { rewrite Hr. vm_compute. reflexivity. }
  split; [exact Htrue|].
  destruct (Hok Htrue) as (Hhandle & _ & Hq & Hsnap & _).
  split; [|split].
  - unfold JsMap.has. by rewrite Hhandle.
  - rewrite Hq. vm_compute. reflexivity.
  - rewrite Hsnap. vm_compute. reflexivity.
Defined.

(** C2, as the code has it.  The add flow probes first and saves second.
    With every credential its method needs at hand: when the preliminary
    probe is rejected, nothing is saved (secrets, known ids and profile
    table are what they were) and the log shows that probe and the error
    message; when it resolves, the profile payload, its id and the
    credentials are in the stores at the end of the flow, whatever the
    connect attempt that follows does. *)
Theorem add_flow_saves_after_probe E clusterId name deploymentType target
    authMethod credentials insecure w :
  credentialsSupplied authMethod credentials = true →
  let opts := tempClientOptions deploymentType target credentials insecure in
  let config := addedConfig clusterId name deploymentType target
                            authMethod insecure in
  let add := testConnectionAndSave E clusterId name deploymentType target
               authMethod credentials insecure in
  let w' := (add w).2 in
  match ping E (clock w) opts with
  | Rejected message =>
      secrets w' = secrets w ∧ gs_clusterIds w' = gs_clusterIds w
      ∧ clusters w' = clusters w
      ∧ emitted add w =
          [Ping opts false;
           ErrorMessage ("Failed to connect to cluster: " +:+ message)]
  | Resolved =>
      secrets w' !! secretKey clusterId "config" =
        Some (JSON_stringify E config)
      ∧ clusterId ∈ gs_clusterIds w'
      ∧ JsMap.get clusterId (clusters w') = Some config
      ∧ (authMethod = BASIC →
           secrets w' !! secretKey clusterId "username" =
             cred_username credentials
           ∧ secrets w' !! secretKey clusterId "password" =
               cred_password credentials)
      ∧ (authMethod = API_KEY →
           secrets w' !! secretKey clusterId "apiKey" =
             cred_apiKey credentials)
  end.
Proof.
  intros Hsup opts config add w'. subst w' add.
  unfold emitted, testConnectionAndSave, probe, showErrorMessage,
    showInformationMessage, refresh. run.
  fold opts config.
  destruct (ping E (clock w) opts) as [|message]; cbn.
  2: { repeat split; try done.
       by rewrite <- app_assoc, drop_app_length. }
  rewrite addCluster_world. cbn zeta. cbn [ClusterConfig.id config addedConfig].
  match goal with
  | |- context [storeClusterCredentials clusterId authMethod credentials ?x] =>
      set (w2 := x)
  end.
  destruct (storeClusterCredentials_spec clusterId authMethod credentials
              w2 Hsup) as (Hok & Hu & _ & _ & Hcfg & Hb & Ha).
  destruct Hu as (Hcl & _ & _ & _ & _ & _ & Hids & _).
  destruct (storeClusterCredentials clusterId authMethod credentials w2)
    as [stored w3]. cbn in Hok, Hcl, Hids, Hcfg, Hb, Ha. subst stored. cbn.
  assert (Hget : JsMap.get clusterId (clusters w3) = Some config).
  { rewrite Hcl. subst w2. cbn.
    destruct (includes _ _); destruct (truthy _); cbn;
      apply JsMap_get_set_eq. }
  assert (Hin : clusterId ∈ gs_clusterIds w3).
  { rewrite Hids. subst w2. cbn.
    destruct (includes clusterId (gs_clusterIds w)) eqn:Hinc;
      destruct (truthy _); cbn;
      first [ by apply includes_true
            | apply elem_of_app; right; by apply list_elem_of_singleton ]. }
  assert (Hsaved : secrets w3 !! secretKey clusterId "config" =
                   Some (JSON_stringify E config)).
  { rewrite Hcfg. subst w2. cbn.
    destruct (includes _ _); destruct (truthy _); cbn;
      apply lookup_insert_eq. }
  destruct (connectToCluster_frame E clusterId w3) as (Hc & Hi & _ & Hs).
  rewrite (Hs config Hget), Hc, Hi.
  2: { by apply (credentialsSupplied_present _ _ _ _ _ _ credentials). }
  repeat split; try done; [by apply Hb|by apply Hb].
Qed.

Lemma add_flow_saves_after_probe_witness :
  credentialsSupplied "None" noCredentials = true
  ∧ secrets (testConnectionAndSave (Demo.envOpen "Yes") "cluster-1000" "Local"
               "Self-managed Cluster" (Some "http://localhost:9200") "None"
               noCredentials false emptyWorld).2
      !! secretKey "cluster-1000" "config" =
    Some (Demo.stringify
            (addedConfig "cluster-1000" "Local" "Self-managed Cluster"
               (Some "http://localhost:9200") "None" false)).
Proof.
  split; [by_computation|].
  apply (add_flow_saves_after_probe (Demo.envOpen "Yes") "cluster-1000" "Local"
           "Self-managed Cluster" (Some "http://localhost:9200") "None"
           noCredentials false emptyWorld).
  by_computation.
Defined.

(** C2, as the spec has it, fails: a valid profile typed into the add flow
    while nothing answers the probe is not saved at all. *)
Lemma add_flow_drops_profile_on_failed_probe :
  let w' := (esExt_addCluster Demo.envDown emptyWorld).2 in
  prompts (events w') =
    ["Cluster Name"; "Select Elasticsearch deployment type";
     "Full Elasticsearch URL (include protocol and port)";
     "Select auth method";
     "Disable SSL certificate verification? (insecure)"]
  ∧ gs_clusterIds w' = [] ∧ clusters w' = [] ∧ secrets w' = ∅
  ∧ last (events w') =
      Some (ErrorMessage
              "Failed to connect to cluster: connect ECONNREFUSED").
Proof. by_computation. Qed.




(** C4, evaluated.  Profile [A] is connected and has a snapshot.  After
    [removeCluster] its handle and its profile are gone and the snapshot is
    still in the cache; [disconnectFromCluster] on the same state purges
    it. *)
Theorem removeCluster_keeps_stale_snapshot :
  let w := Demo.loaded in
  let w' := (removeCluster "A" w).2 in
  JsMap.has "A" (clients w) = true
  ∧ JsMap.has "A" (clients w') = false
  ∧ JsMap.has "A" (clusters w') = false
  ∧ status <$> clusterHealth w' !! "A" = Some "green"
  ∧ clusterHealth (disconnectFromCluster "A" w).2 !! "A" = None.
Proof. by_computation. Qed.



(** What the clear-all handler does clear.  Once confirmed, [esExt.clearAllClusterData]
    empties the persisted list of known ids and the persisted
    reconnect-set, sets the persisted auto-refresh flag to [false], deletes
    the payload and the three credential fields of every id that was
    listed, so that the secret storage is empty when every key in it
    belonged to a listed id, and fires the change event once. *)
Lemma clearAll_clears_durable_state E w :
  showWarningChoice E (clock w) CLEAR_ALL_WARNING = Some "Yes, clear all" →
  let w' := (esExt_clearAllClusterData E w).2 in
  gs_clusterIds w' = []
  ∧ gs_connectedClusters w' = []
  ∧ gs_autoRefreshEnabled w' = false
  ∧ (∀ i f, i ∈ gs_clusterIds w → f ∈ secretFields →
       secrets w' !! secretKey i f = None)
  ∧ (map_Forall (λ k _, ownedKey (gs_clusterIds w) k = true) (secrets w) →
     secrets w' = ∅)
  ∧ count_fires (emitted (esExt_clearAllClusterData E) w) = 1%nat.
Proof.
  intros Hyes. cbn zeta. unfold emitted.
  unfold esExt_clearAllClusterData, askWarning, showInformationMessage,
    refresh. run.
  rewrite Hyes. rewrite bool_decide_eq_true_2 by done. cbn.
  match goal with |- context [clearSecrets (gs_clusterIds w) ?w1] =>
    destruct (clearSecrets_spec (gs_clusterIds w) w1)
      as (Hu & He & Hc & Hsub & Hs) end.
  destruct Hu as (_ & _ & _ & _ & _ & _ & Hids & Hco & Hau & _).
  cbn in *. repeat split; try done.
  - intros Hkeys. apply map_eq. intros k. rewrite lookup_empty.
    destruct (secrets w !! k) as [v|] eqn:Hk.
    + destruct (ownedKey_true _ _ (Hkeys k v Hk)) as (i & f & Hi & Hf & ->).
      by apply Hs.
    + by eapply lookup_weaken_None.
  - rewrite He, <- !app_assoc, drop_app_length. reflexivity.
Qed.

Lemma clearAll_clears_durable_state_witness :
  let E := Demo.envOpen "Yes, clear all" in
  showWarningChoice E (clock Demo.loaded) CLEAR_ALL_WARNING
    = Some "Yes, clear all"
  ∧ map_Forall (λ k _, ownedKey (gs_clusterIds Demo.loaded) k = true)
      (secrets Demo.loaded)
  ∧ secrets (esExt_clearAllClusterData E Demo.loaded).2 = ∅.
Proof.
  cbn zeta. split; [by_computation|].
  assert (Hkeys : map_Forall
            (λ k _, ownedKey (gs_clusterIds Demo.loaded) k = true)
            (secrets Demo.loaded)) by decide_closed.
  split; [exact Hkeys|].
  apply (clearAll_clears_durable_state (Demo.envOpen "Yes, clear all")
           Demo.loaded); [by_computation|exact Hkeys].
Defined.

(** In every state and whatever the answer, the handler leaves the fields
    of the provider as they are: the profile table, the registry, the health
    cache, the active pointer, the auto-refresh flag and the timer. *)
Lemma clearAll_keeps_provider_state E w :
  let w' := (esExt_clearAllClusterData E w).2 in
  clusters w' = clusters w ∧ clients w' = clients w
  ∧ clusterHealth w' = clusterHealth w
  ∧ activeClusterId w' = activeClusterId w
  ∧ autoRefreshEnabled w' = autoRefreshEnabled w
  ∧ refreshTimer w' = refreshTimer w.
Proof.
  cbn zeta.
  unfold esExt_clearAllClusterData, askWarning, showInformationMessage,
    refresh. run.
  case_bool_decide; cbn; [|done].
  match goal with |- context [clearSecrets (gs_clusterIds w) ?w1] =>
    destruct (clearSecrets_spec (gs_clusterIds w) w1) as (Hu & _) end.
  destruct Hu as (Hc & Hcl & Hh & Ha & Hau & Ht & _).
  cbn in *. by repeat split.
Qed.

(** C6, evaluated.  [A] is connected and active, [B] has a profile and
    auto-refresh is on.  A confirmed clear-all empties the persisted lists
    and the secret storage and reports that all cluster data has been
    cleared.  Yet the handle of [A] is still in the registry, both profiles
    are still in the table, the pointer is still on [A] and its snapshot in
    the cache; the persisted auto-refresh flag is off while the flag of the
    provider and its timer stay on, and the next tick still queries [A].
    The handlers beside it keep these in step: [removeCluster] takes the
    profile and its handle out, and [toggleAutoRefresh] leaves the flag, the
    persisted flag and the timer equal. *)
Theorem clearAll_leaves_session_state :
  let E := Demo.envOpen "Yes, clear all" in
  let w := (toggleAutoRefresh E Demo.loaded).2 in
  let w' := (esExt_clearAllClusterData E w).2 in
  let off := (toggleAutoRefresh E w).2 in
  JsMap.keys (clusters w) = ["A"; "B"] ∧ JsMap.keys (clients w) = ["A"]
  ∧ autoRefreshEnabled w = true
  ∧ gs_clusterIds w' = [] ∧ gs_connectedClusters w' = []
  ∧ gs_autoRefreshEnabled w' = false ∧ secrets w' = ∅
  ∧ emitted (esExt_clearAllClusterData E) w =
      [WarningMessage CLEAR_ALL_WARNING;
       InformationMessage
         "All cluster data and credentials have been cleared."; Fire]
  ∧ JsMap.keys (clients w') = ["A"]
  ∧ JsMap.keys (clusters w') = ["A"; "B"]
  ∧ activeClusterId w' = Some "A"
  ∧ status <$> clusterHealth w' !! "A" = Some "green"
  ∧ autoRefreshEnabled w' = true
  ∧ refreshTimer w' = true
  ∧ healthQueries (emitted (refreshClusterHealth E) w') = [("A", true)]
  ∧ JsMap.keys (clusters (removeCluster "A" w).2) = ["B"]
  ∧ JsMap.keys (clients (removeCluster "A" w).2) = []
  ∧ autoRefreshEnabled off = false ∧ refreshTimer off = false
  ∧ gs_autoRefreshEnabled off = false.
Proof. by_computation. Qed.

(** C7, as the code has it.  A successful interactive connect makes [id]
    the active profile, whatever the pointer was; a successful silent
    connect makes it active only when no pointer was set. *)
Theorem connect_sets_active E clusterId w :
  ((connectToCluster E clusterId w).1 = true →
   activeClusterId (connectToCluster E clusterId w).2 = Some clusterId)
  ∧ ((connectToClusterSilently E clusterId w).1 = true →
     activeClusterId (connectToClusterSilently E clusterId w).2 =
       if truthy (activeClusterId w) then activeClusterId w
       else Some clusterId).
Proof.
  destruct (JsMap.get clusterId (clusters w)) as [config|] eqn:Hget.
  2: { rewrite connectToCluster_unknown, connectToClusterSilently_unknown
         by done. by split. }
  split.
  - rewrite (connectToCluster_eq E clusterId config w Hget). cbn zeta.
    destruct (promptForCredentials E clusterId config w) as [[] w1]; cbn;
      [|done].
    destruct (ping E _ _); cbn; [|done]. intros _.
    rewrite fetchHealth_world, saveConnectedCluster_world. cbn.
    by destruct (includes _ _).
  - rewrite (connectToClusterSilently_eq E clusterId config w Hget). cbn zeta.
    destruct (buildClientOptions_frame clusterId config w)
      as (_ & _ & _ & Ha & _).
    destruct (ping E _ _); cbn; [|done]. intros _.
    rewrite fetchHealth_world. cbn. rewrite Ha.
    by destruct (truthy (activeClusterId w)).
Qed.

Lemma connect_sets_active_witness :
  (connectToCluster (Demo.envOpen "Yes") "B" Demo.loaded).1 = true
  ∧ activeClusterId (connectToCluster (Demo.envOpen "Yes") "B" Demo.loaded).2
    = Some "B".
Proof.
  split; [by_computation|].
  apply (connect_sets_active (Demo.envOpen "Yes") "B" Demo.loaded).
  by_computation.
Defined.

(** C7, as the spec has it, fails: [A] is active and connected, an
    interactive connect to [B] succeeds, and the pointer moves to [B]. *)
Lemma interactive_connect_moves_active_pointer :
  let r := connectToCluster (Demo.envOpen "Yes") "B" Demo.loaded in
  activeClusterId Demo.loaded = Some "A"
  ∧ r.1 = true
  ∧ activeClusterId r.2 = Some "B".
Proof. by_computation. Qed.

(** The import loop on entries that are objects: an entry without a
    name, a deployment kind or an auth method is skipped and counted, the
    state untouched; on a name collision answered [Cancel] the loop returns
    at once with the counts so far and the state as the earlier entries left
    it; an entry with its fields and no collision is imported; an imported
    entry is stored under the id the generator hands out at that moment,
    which does not depend on the entry, with its payload in the secret
    storage, its id among the known ids and every credential field of every
    id as it was; and over a whole import, whatever its entries, no
    credential field appears that was not there before. *)
Lemma import_entries E :
  (∀ e rest importedCount skippedCount w,
     missingRequired e = true →
     importLoop E (Some e :: rest) importedCount skippedCount w =
       importLoop E rest importedCount (S skippedCount) w)
  ∧ (∀ e rest importedCount skippedCount w existing,
       missingRequired e = false →
       findByName (ClusterExportData.name e) (clusters w) = Some existing →
       showWarningChoice E (clock w) (collisionWarning e) = Some "Cancel" →
       let r := importLoop E (Some e :: rest) importedCount skippedCount w in
       r.1 = Completed importedCount skippedCount
       ∧ untouched w r.2 ∧ secrets r.2 = secrets w)
  ∧ (∀ e rest importedCount skippedCount w,
       missingRequired e = false →
       findByName (ClusterExportData.name e) (clusters w) = None →
       importLoop E (Some e :: rest) importedCount skippedCount w =
         importLoop E rest (S importedCount) skippedCount
           (importEntry E e w).2)
  ∧ (∀ e w,
       let newId := generatedId E (clock w) in
       let w' := (importEntry E e w).2 in
       JsMap.get newId (clusters w') = Some (newClusterConfig newId e)
       ∧ secrets w' !! secretKey newId "config" =
           Some (JSON_stringify E (newClusterConfig newId e))
       ∧ newId ∈ gs_clusterIds w'
       ∧ ∀ i f, f ∈ credentialFields →
           secrets w' !! secretKey i f = secrets w !! secretKey i f)
  ∧ (∀ entries importedCount skippedCount w i f v,
       f ∈ credentialFields →
       secrets (importLoop E entries importedCount skippedCount w).2
         !! secretKey i f = Some v →
       secrets w !! secretKey i f = Some v).
Proof.
  split; [|split; [|split; [|split]]].
  - intros e rest ic sc w Hmiss. cbn [importLoop]. by rewrite Hmiss.
  - intros e rest ic sc w existing Hmiss Hfind Hcancel. cbn zeta.
    cbn [importLoop]. rewrite Hmiss. unfold askWarning. run.
    rewrite Hfind. cbn. rewrite Hcancel.
    rewrite bool_decide_eq_true_2 by done. cbn. by repeat split.
  - intros e rest ic sc w Hmiss Hfind. cbn [importLoop]. rewrite Hmiss.
    run. by rewrite Hfind.
  - intros e w. cbn zeta. split; [|split; [|split]].
    + rewrite importEntry_world, addCluster_world. cbn.
      destruct (includes _ _); destruct (truthy _); cbn;
        apply JsMap_get_set_eq.
    + rewrite importEntry_world, addCluster_world. cbn.
      destruct (includes _ _); destruct (truthy _); cbn;
        apply lookup_insert_eq.
    + rewrite importEntry_world, addCluster_world. cbn.
      destruct (includes _ _) eqn:Hinc; destruct (truthy _); cbn;
        first [ by apply includes_true
              | apply elem_of_app; right; by apply list_elem_of_singleton ].
    + intros i f Hf. by apply importEntry_credentials.
  - intros entries ic sc w i f v. apply importLoop_credentials.
Qed.

Lemma import_entries_witness :
  let E := Demo.envOpen "Cancel" in
  let e := {| ClusterExportData.doc_id := Some "A";
              ClusterExportData.name := Some "Alpha";
              ClusterExportData.deploymentType := Some "Elastic Cloud";
              ClusterExportData.nodeUrl := None;
              ClusterExportData.cloudId := Some "alpha:dXM=";
              ClusterExportData.authMethod := Some "API Key";
              ClusterExportData.disableSSL := None |} in
  missingRequired e = false
  ∧ findByName (ClusterExportData.name e) (clusters Demo.loaded)
    = Some Demo.cfgA
  ∧ showWarningChoice E (clock Demo.loaded) (collisionWarning e)
    = Some "Cancel"
  ∧ (importLoop E [Some e; Some e] 1 2 Demo.loaded).1 = Completed 1 2.
Proof.
  cbn zeta. split; [by_computation|]. split; [by_computation|].
  split; [by_computation|].
  eapply (proj1 (proj2 (import_entries (Demo.envOpen "Cancel")))
            _ _ _ _ Demo.loaded Demo.cfgA); by_computation.
Defined.

(** After a [null] entry nothing is read: the entries behind it make no
    difference to what the loop does. *)
Lemma importLoop_stops_at_null E pre : ∀ rest importedCount skippedCount w,
  importLoop E (pre ++ None :: rest) importedCount skippedCount w =
    importLoop E (pre ++ [None]) importedCount skippedCount w.
Proof.
  induction pre as [|[e|] pre IH]; intros rest ic sc w; [done| |done].
  cbn [app importLoop].
  destruct (missingRequired e); [apply IH|].
  unfold mbind, M_bind, gets. cbn [fst snd].
  destruct (findByName _ _) as [existing|]; [|apply IH].
  destruct (askWarning E _ w) as [overwrite w1]. cbn [fst snd].
  case_bool_decide; [done|]. case_bool_decide; apply IH.
Qed.

(** A loop that throws ends the import with the error message; no summary
    is shown. *)
Lemma importClusters_thrown E w entries :
  openImportFile E (clock w) = Document (Some entries) →
  let r := importLoop E entries 0 0 (set_clock (S (clock w)) w) in
  (∃ importedCount skippedCount, r.1 = Thrown importedCount skippedCount) →
  (importClusters E w).2 =
    set_events
      (events r.2 ++
         [ErrorMessage ("Failed to import clusters: " +:+ nullPropertyError E)])
      r.2.
Proof.
  intros Hfile r (ic & sc & Hr). subst r.
  unfold importClusters, showErrorMessage. run. rewrite Hfile. cbn.
  by rewrite Hr.
Qed.

(** C8, evaluated.  A document with the entries [Gamma], [null] and
    [Delta], imported into an empty session: [Gamma] is imported, reading
    the name of the [null] entry throws, and the import ends there with the
    error message.  The [null] entry is not skipped and counted, [Delta] is
    never looked at, and no summary is shown.  With the empty object in the
    place of [null] the entry is skipped and counted, [Delta] is imported
    and the summary reports two imported and one skipped. *)
Theorem import_aborts_on_null_entry :
  let withNull :=
    Demo.envImporting
      (Document (Some [Some Demo.gamma; None; Some Demo.delta])) in
  let withEmpty :=
    Demo.envImporting
      (Document (Some [Some Demo.gamma; Some Demo.emptyObject;
                       Some Demo.delta])) in
  let w1 := (importClusters withNull emptyWorld).2 in
  let w2 := (importClusters withEmpty emptyWorld).2 in
  missingRequired Demo.emptyObject = true
  ∧ (importLoop withNull [Some Demo.gamma; None; Some Demo.delta] 0 0
       emptyWorld).1 = Thrown 1 0
  ∧ ClusterConfig.name <$> JsMap.values (clusters w1) = ["Gamma"]
  ∧ events w1 =
      [Fire;
       ErrorMessage
         "Failed to import clusters: TypeError: Cannot read properties of null (reading 'name')"]
  ∧ (importLoop withEmpty
       [Some Demo.gamma; Some Demo.emptyObject; Some Demo.delta] 0 0
       emptyWorld).1 = Completed 2 1
  ∧ ClusterConfig.name <$> JsMap.values (clusters w2) = ["Gamma"; "Delta"]
  ∧ events w2 = [Fire; Fire; InformationMessage (importSummary 2 1)].
Proof. by_computation. Qed.

(** What the [disableSSL] flag of a profile does.  On both connect paths
    of a known profile, a set [disableSSL] flag puts
    [rejectUnauthorized: false] into the options of that profile's client
    and also assigns ['0'] to the process-wide
    [NODE_TLS_REJECT_UNAUTHORIZED] (on the interactive path once the
    credentials are resolved), even when the probe then fails; without the
    flag the process-wide setting is what it was; the registered handle of
    every other profile is what it was. *)
Lemma disableSSL_is_process_wide E clusterId config w :
  JsMap.get clusterId (clusters w) = Some config →
  let tls (w0 : World) :=
    if truthy_bool (ClusterConfig.disableSSL config) then Some "0"
    else NODE_TLS_REJECT_UNAUTHORIZED w0 in
  let ssl := if truthy_bool (ClusterConfig.disableSSL config)
             then Some false else None in
  let s := connectToClusterSilently E clusterId w in
  let c := connectToCluster E clusterId w in
  NODE_TLS_REJECT_UNAUTHORIZED s.2 = tls w
  ∧ (s.1 = true →
     ssl_rejectUnauthorized <$> JsMap.get clusterId (clients s.2) = Some ssl)
  ∧ (∀ other, other ≠ clusterId →
     JsMap.get other (clients s.2) = JsMap.get other (clients w))
  ∧ ((promptForCredentials E clusterId config w).1 = true →
     NODE_TLS_REJECT_UNAUTHORIZED c.2 = tls w)
  ∧ (c.1 = true →
     ssl_rejectUnauthorized <$> JsMap.get clusterId (clients c.2) = Some ssl)
  ∧ (∀ other, other ≠ clusterId →
     JsMap.get other (clients c.2) = JsMap.get other (clients w)).
Proof.
  intros Hget tls ssl s c. subst tls ssl s c.
  rewrite (connectToClusterSilently_eq E clusterId config w Hget).
  rewrite (connectToCluster_eq E clusterId config w Hget). cbn zeta.
  destruct (promptForCredentials_frame E clusterId config w)
    as (Hsame & _ & _).
  destruct Hsame as (_ & Hcl & _ & _ & _ & _ & _ & _ & _ & _ & Htls).
  destruct (promptForCredentials E clusterId config w) as [ready w1].
  cbn in Hcl, Htls. cbn [fst snd].
  pose proof (buildClientOptions_ssl clusterId config w) as Hssl.
  pose proof (buildClientOptions_ssl clusterId config w1) as Hssl1.
  rewrite !buildClientOptions_world.
  repeat split.
  - destruct (ping E _ _); cbn; rewrite ?fetchHealth_world; cbn;
      destruct (truthy_bool _); cbn; try done;
      by destruct (truthy (activeClusterId w)).
  - destruct (ping E _ _); cbn; [|done]. intros _.
    rewrite fetchHealth_world. cbn.
    match goal with |- context [if truthy ?a then _ else _] =>
      destruct (truthy a) end; cbn; by rewrite JsMap_get_set_eq; cbn; rewrite Hssl.
  - intros other Hne. destruct (ping E _ _); cbn.
    + rewrite fetchHealth_world. cbn.
      match goal with |- context [if truthy ?a then _ else _] =>
        destruct (truthy a) end; cbn; rewrite JsMap_get_set_ne by done;
        by destruct (truthy_bool _).
    + by destruct (truthy_bool _).
  - intros ->. destruct (ping E _ _); cbn;
      rewrite ?fetchHealth_world, ?saveConnectedCluster_world; cbn.
    + destruct (includes _ _); cbn; destruct (truthy_bool _); cbn; done.
    + destruct (truthy_bool _); cbn; done.
  - destruct ready; cbn; [|done]. destruct (ping E _ _); cbn; [|done].
    intros _. rewrite fetchHealth_world, saveConnectedCluster_world. cbn.
    destruct (includes _ _); cbn; by rewrite JsMap_get_set_eq; cbn; rewrite Hssl1.
  - intros other Hne. destruct ready; cbn; [|by rewrite Hcl].
    destruct (ping E _ _); cbn;
      rewrite ?fetchHealth_world, ?saveConnectedCluster_world; cbn.
    + destruct (includes _ _); cbn; rewrite JsMap_get_set_ne by done;
        destruct (truthy_bool _); cbn; by rewrite Hcl.
    + destruct (truthy_bool _); cbn; by rewrite Hcl.
Qed.

Lemma disableSSL_is_process_wide_witness :
  JsMap.get "B" (clusters Demo.loaded) = Some Demo.cfgB
  ∧ NODE_TLS_REJECT_UNAUTHORIZED
      (connectToClusterSilently (Demo.envOpen "Yes") "B" Demo.loaded).2
    = Some "0".
Proof.
  split; [by_computation|].
  refine (proj1 (disableSSL_is_process_wide (Demo.envOpen "Yes") "B"
                   Demo.cfgB Demo.loaded _)).
  by_computation.
Defined.

(** C9, evaluated.  [A] is connected and its profile does not disable TLS
    verification; the process-wide variable is not set.  Connecting [B],
    whose profile disables verification, assigns ['0'] to
    [NODE_TLS_REJECT_UNAUTHORIZED] for the whole process.  Nothing sets it
    back: it is still ['0'] after [B] is disconnected or removed, and a
    later connect of [A], whose own client options ask for no such thing,
    runs and ends with the variable at ['0']. *)
Theorem connecting_with_disableSSL_changes_process_env :
  let E := Demo.envOpen "Yes" in
  let w := Demo.loaded in
  let w1 := (connectToCluster E "B" w).2 in
  let again := connectToCluster E "A" (disconnectFromCluster "B" w1).2 in
  ClusterConfig.disableSSL Demo.cfgA = Some false
  ∧ ClusterConfig.disableSSL Demo.cfgB = Some true
  ∧ JsMap.has "A" (clients w) = true
  ∧ NODE_TLS_REJECT_UNAUTHORIZED w = None
  ∧ (connectToCluster E "B" w).1 = true
  ∧ JsMap.has "A" (clients w1) = true
  ∧ NODE_TLS_REJECT_UNAUTHORIZED w1 = Some "0"
  ∧ NODE_TLS_REJECT_UNAUTHORIZED (disconnectFromCluster "B" w1).2 = Some "0"
  ∧ NODE_TLS_REJECT_UNAUTHORIZED (removeCluster "B" w1).2 = Some "0"
  ∧ again.1 = true
  ∧ ssl_rejectUnauthorized <$> JsMap.get "A" (clients again.2) = Some None
  ∧ NODE_TLS_REJECT_UNAUTHORIZED again.2 = Some "0".
Proof. by_computation. Qed.

(** The add flow does the same before it probes: answering [Yes] switches
    verification off for the process although nothing gets saved. *)
Example add_flow_with_disableSSL_changes_process_env :
  let w' := (esExt_addCluster Demo.envDownInsecure emptyWorld).2 in
  NODE_TLS_REJECT_UNAUTHORIZED w' = Some "0"
  ∧ clusters w' = [] ∧ gs_clusterIds w' = [].
Proof. by_computation. Qed.

(** C10.  [addCluster] keeps a set active pointer and points it at the new
    profile otherwise; it writes the profile table, the payload under the
    profile's config key and the list of known ids (appending the id when
    absent), fires the change event, and leaves every other field as it
    was. *)
Theorem addCluster_frame (E : Env) (config : ClusterConfig.t) (w : World) :
  let i := ClusterConfig.id config in
  let w' := (addCluster E config w).2 in
  activeClusterId w' =
    (if truthy (activeClusterId w) then activeClusterId w else Some i)
  ∧ clusters w' = JsMap.set i config (clusters w)
  ∧ secrets w' = <[secretKey i "config" := JSON_stringify E config]> (secrets w)
  ∧ gs_clusterIds w' =
      (if includes i (gs_clusterIds w) then gs_clusterIds w
       else (gs_clusterIds w ++ [i])%list)
  ∧ clients w' = clients w
  ∧ clusterHealth w' = clusterHealth w
  ∧ autoRefreshEnabled w' = autoRefreshEnabled w
  ∧ refreshTimer w' = refreshTimer w
  ∧ gs_connectedClusters w' = gs_connectedClusters w
  ∧ gs_autoRefreshEnabled w' = gs_autoRefreshEnabled w
  ∧ gs_caCertificate w' = gs_caCertificate w
  ∧ NODE_TLS_REJECT_UNAUTHORIZED w' = NODE_TLS_REJECT_UNAUTHORIZED w
  ∧ clock w' = clock w
  ∧ events w' = (events w ++ [Fire])%list.
Proof.
  intros i w'. subst i w'.
  rewrite addCluster_world. cbn zeta.
  destruct (includes _ _); destruct (truthy _); cbn; repeat split; reflexivity.
Qed.

(** The first profile added to an empty state becomes active; the second
    one does not take the pointer over. *)
Example addCluster_first_becomes_active :
  let E := Demo.envOpen "Yes" in
  activeClusterId (addCluster E Demo.cfgA emptyWorld).2 = Some "A"
  ∧ activeClusterId
      (addCluster E Demo.cfgB (addCluster E Demo.cfgA emptyWorld).2).2
    = Some "A".
Proof. by_computation. Qed.

(** The scenario of the specification: [A] with its credentials, [B]
    without, secured clusters.  Startup connects [A], drops [B] and reports
    one success and one failure. *)
Example startup_one_success_one_failure :
  let w' := (activate Demo.envSecured Demo.stored).2 in
  JsMap.keys (clients w') = ["A"]
  ∧ gs_connectedClusters w' = ["A"]
  ∧ WarningMessage
      "Auto-reconnected 1 cluster(s). 1 cluster(s) failed to reconnect."
    ∈ events w'.
Proof.
  cbn zeta. split; [by_computation|]. split; [by_computation|].
  decide_closed.
Qed.

(** * Further properties of the session manager and the tree view *)

(** * Further properties *)

(** ** Removing a profile *)

Lemma secretKey_other (i j f g : string) :
  f ∈ secretFields → g ∈ secretFields → i ≠ j →
  secretKey i f ≠ secretKey j g.
Proof. intros Hf Hg Hne Heq. by destruct (secretKey_inj _ _ _ _ Hf Hg Heq). Qed.

Lemma secretFields_config : "config" ∈ secretFields.
Proof. unfold secretFields. set_solver. Qed.
Lemma secretFields_username : "username" ∈ secretFields.
Proof. unfold secretFields. set_solver. Qed.
Lemma secretFields_password : "password" ∈ secretFields.
Proof. unfold secretFields. set_solver. Qed.
Lemma secretFields_apiKey : "apiKey" ∈ secretFields.
Proof. unfold secretFields. set_solver. Qed.

Create HintDb fields.

#[local] Hint Resolve secretFields_config secretFields_username
  secretFields_password secretFields_apiKey : fields.

Lemma removeCluster_own_secrets (clusterId f : string) (w : World) :
  f ∈ secretFields →
  secrets (removeCluster clusterId w).2 !! secretKey clusterId f = None.
Proof.
  intros Hf. rewrite removeCluster_world. cbn zeta.
  assert (Hgone :
    delete (secretKey clusterId "apiKey")
      (delete (secretKey clusterId "password")
         (delete (secretKey clusterId "username")
            (delete (secretKey clusterId "config") (secrets w))))
      !! secretKey clusterId f = None).
  { unfold secretFields in Hf.
    repeat (apply elem_of_cons in Hf as [->|Hf]);
      [..|by apply elem_of_nil in Hf];
      repeat first [ apply lookup_delete_eq
                   | rewrite lookup_delete_ne
                       by (apply secretKey_ne; eauto with fields; done) ]. }
  by destruct (bool_decide (activeClusterId w = Some clusterId)).
Qed.

Lemma removeCluster_other_secrets (clusterId other f : string) (w : World) :
  other ≠ clusterId → f ∈ secretFields →
  secrets (removeCluster clusterId w).2 !! secretKey other f =
    secrets w !! secretKey other f.
Proof.
  intros Hne Hf. rewrite removeCluster_world. cbn zeta.
  assert (Hkept :
    delete (secretKey clusterId "apiKey")
      (delete (secretKey clusterId "password")
         (delete (secretKey clusterId "username")
            (delete (secretKey clusterId "config") (secrets w))))
      !! secretKey other f = secrets w !! secretKey other f).
  { rewrite !lookup_delete_ne
      by (apply secretKey_other; eauto with fields). done. }
  by destruct (bool_decide (activeClusterId w = Some clusterId)).
Qed.

(** X1.  [removeCluster] takes one profile out and nothing else: its entry
    in the profile table, its handle, its place in the reconnect-set and its
    four stored fields are gone; the entry, the handle, the membership and
    the stored fields of every other id are what they were.  The persisted
    list of known ids is not pruned. *)
Theorem removeCluster_removes_one_profile (clusterId : string) (w : World) :
  let w' := (removeCluster clusterId w).2 in
  JsMap.get clusterId (clusters w') = None
  ∧ JsMap.get clusterId (clients w') = None
  ∧ (clusterId ∉ gs_connectedClusters w')
  ∧ (∀ f, f ∈ secretFields → secrets w' !! secretKey clusterId f = None)
  ∧ (∀ other, other ≠ clusterId →
       JsMap.get other (clusters w') = JsMap.get other (clusters w)
       ∧ JsMap.get other (clients w') = JsMap.get other (clients w)
       ∧ (other ∈ gs_connectedClusters w' ↔ other ∈ gs_connectedClusters w)
       ∧ ∀ f, f ∈ secretFields →
           secrets w' !! secretKey other f = secrets w !! secretKey other f)
  ∧ gs_clusterIds w' = gs_clusterIds w.
Proof.
  cbn zeta.
  split; [|split; [|split; [|split; [|split]]]].
  - rewrite removeCluster_world. cbn zeta.
    destruct (bool_decide _); apply JsMap_get_delete_eq.
  - rewrite removeCluster_world. cbn zeta.
    destruct (bool_decide _); apply JsMap_get_delete_eq.
  - rewrite removeCluster_world. cbn zeta.
    destruct (bool_decide _); by intros [? _]%list_elem_of_filter.
  - intros f Hf. by apply removeCluster_own_secrets.
  - intros other Hne. split; [|split; [|split]].
    + rewrite removeCluster_world. cbn zeta.
      destruct (bool_decide _); by apply JsMap_get_delete_ne.
    + rewrite removeCluster_world. cbn zeta.
      destruct (bool_decide _); by apply JsMap_get_delete_ne.
    + rewrite removeCluster_world. cbn zeta.
      destruct (bool_decide _); cbn; rewrite list_elem_of_filter;
        (split; [by intros [_ ?]|by split]).
    + intros f Hf. by apply removeCluster_other_secrets.
  - rewrite removeCluster_world. cbn zeta. by destruct (bool_decide _).
Qed.

Lemma JsMap_delete_not_in {V : Type} (k : string) (m : list (string * V)) :
  k ∉ JsMap.keys (JsMap.delete k m).
Proof.
  induction m as [|[k' v] m IH]; cbn; [by intros ?%elem_of_nil|].
  destruct (String.eqb k k') eqn:Hk; [done|]. cbn.
  apply String.eqb_neq in Hk. by intros [?|?]%elem_of_cons.
Qed.

Lemma JsMap_get_is_Some {V : Type} (k : string) (m : list (string * V)) :
  is_Some (JsMap.get k m) ↔ k ∈ JsMap.keys m.
Proof.
  induction m as [|[k' v] m IH]; cbn.
  - split; [by intros [? ?]|by intros ?%elem_of_nil].
  - destruct (String.eqb k k') eqn:Hk.
    + apply String.eqb_eq in Hk as ->. split; [intros _; by left|by eexists].
    + apply String.eqb_neq in Hk. rewrite IH, elem_of_cons.
      split; [by right|by intros [?|?]].
Qed.

(** X2.  After [removeCluster] the active pointer never names the removed
    id.  A pointer on another id stays where it was.  The pointer of the
    removed id moves to the first profile left in the table, in insertion
    order, and is unset exactly when no profile is left. *)
Theorem removeCluster_moves_active_pointer (clusterId : string) (w : World) :
  let w' := (removeCluster clusterId w).2 in
  activeClusterId w' ≠ Some clusterId
  ∧ (activeClusterId w ≠ Some clusterId →
     activeClusterId w' = activeClusterId w)
  ∧ (activeClusterId w = Some clusterId →
     activeClusterId w' = head (JsMap.keys (clusters w'))
     ∧ (activeClusterId w' = None ↔ clusters w' = [])
     ∧ ∀ j, activeClusterId w' = Some j →
         j ≠ clusterId ∧ is_Some (JsMap.get j (clusters w'))).
Proof.
  cbn zeta. rewrite removeCluster_world. cbn zeta.
  pose proof (JsMap_delete_not_in clusterId (clusters w)) as Hnot.
  case_bool_decide as Ha; cbn.
  - split; [|split; [done|intros _; split; [done|split]]].
    + intros Hh. apply Hnot. apply head_Some_elem_of. exact Hh.
    + destruct (JsMap.delete clusterId (clusters w)) as [|[??]?]; by cbn.
    + intros j Hj. apply head_Some_elem_of in Hj. split.
      * by intros ->.
      * by apply JsMap_get_is_Some.
  - by repeat split.
Qed.

(** ** Start-up *)

Lemma World_eta (w : World) :
  w = {| clusters := clusters w; clients := clients w;
         clusterHealth := clusterHealth w;
         activeClusterId := activeClusterId w;
         autoRefreshEnabled := autoRefreshEnabled w;
         refreshTimer := refreshTimer w; gs_clusterIds := gs_clusterIds w;
         gs_connectedClusters := gs_connectedClusters w;
         gs_autoRefreshEnabled := gs_autoRefreshEnabled w;
         gs_caCertificate := gs_caCertificate w; secrets := secrets w;
         NODE_TLS_REJECT_UNAUTHORIZED := NODE_TLS_REJECT_UNAUTHORIZED w;
         clock := clock w; events := events w |}.
Proof. by destruct w. Qed.

(** The loading loop writes the profile table and nothing else. *)
Lemma loadLoop_world E ids : ∀ w,
  (loadLoop E ids w).2 = set_clusters (clusters (loadLoop E ids w).2) w.
Proof.
  induction ids as [|i ids IH]; intros w.
  - cbn. apply World_eta.
  - cbn [loadLoop]. unfold secrets_get. run.
    match goal with |- context [loadLoop E ids ?x] => set (w1 := x) end.
    rewrite (IH w1).
    assert (Hw1 : ∃ cs, w1 = set_clusters cs w).
    { subst w1. destruct (truthy _); [destruct (JSON_parse E _)|]; cbn;
        eauto using World_eta. }
    destruct Hw1 as [cs ->]. reflexivity.
Qed.

Lemma storedConfig_secrets E w w' i :
  secrets w' = secrets w → storedConfig E w' i = storedConfig E w i.
Proof. unfold storedConfig. by intros ->. Qed.

(** What the loop leaves under an id: the stored profile of a listed id,
    the entry that was there otherwise. *)
Lemma loadLoop_get E ids : ∀ w i,
  JsMap.get i (clusters (loadLoop E ids w).2) =
    match (if bool_decide (i ∈ ids) then storedConfig E w i else None) with
    | Some config => Some config
    | None => JsMap.get i (clusters w)
    end.
Proof.
  induction ids as [|j ids IH]; intros w i.
  - cbn. rewrite bool_decide_eq_false_2 by apply not_elem_of_nil. done.
  - cbn [loadLoop]. unfold secrets_get. run.
    match goal with |- context [loadLoop E ids ?x] => set (w1 := x) end.
    rewrite (IH w1 i).
    assert (Hs : secrets w1 = secrets w).
    { subst w1. destruct (truthy _); [destruct (JSON_parse E _)|]; done. }
    rewrite (storedConfig_secrets E w w1 i Hs).
    assert (Hj : JsMap.get i (clusters w1) =
                 if bool_decide (i = j)
                 then match storedConfig E w i with
                      | Some c => Some c
                      | None => JsMap.get i (clusters w)
                      end
                 else JsMap.get i (clusters w)).
    { subst w1. unfold storedConfig. case_bool_decide as Hij.
      - subst i. destruct (secrets w !! secretKey j "config") as [s|]; cbn;
          [|done].
        destruct (String.eqb s EmptyString); cbn; [done|].
        destruct (JSON_parse E s); cbn; [apply JsMap_get_set_eq|done].
      - destruct (truthy _); [destruct (JSON_parse E _)|]; cbn; try done.
        apply JsMap_get_set_ne. congruence. }
    rewrite Hj.
    destruct (decide (i = j)) as [->|Hne].
    + rewrite (bool_decide_eq_true_2 (j = j)) by done.
      rewrite (bool_decide_eq_true_2 (j ∈ j :: ids)) by (by left).
      destruct (storedConfig E w j); destruct (bool_decide (j ∈ ids)); done.
    + rewrite (bool_decide_eq_false_2 (i = j)) by done.
      destruct (decide (i ∈ ids)) as [Hin|Hin].
      * rewrite !bool_decide_eq_true_2; [done|by right|done].
      * rewrite !bool_decide_eq_false_2; [done| |done].
        by intros [?|?]%elem_of_cons.
Qed.

Lemma loadClusters_world E w :
  (loadClusters E w).2 =
    let w1 := (loadLoop E (gs_clusterIds w) w).2 in
    if (0 <? length (clusters w1))%nat && negb (truthy (activeClusterId w1))
    then set_activeClusterId (head (JsMap.keys (clusters w1))) w1
    else w1.
Proof.
  unfold loadClusters. run.
  match goal with |- context [if ?c then _ else _] => by destruct c end.
Qed.

Lemma loadClusters_get E w i :
  JsMap.get i (clusters (loadClusters E w).2) =
    match (if bool_decide (i ∈ gs_clusterIds w) then storedConfig E w i
           else None) with
    | Some config => Some config
    | None => JsMap.get i (clusters w)
    end.
Proof.
  rewrite loadClusters_world. cbn zeta.
  rewrite <- loadLoop_get. by destruct ((0 <? _)%nat && _).
Qed.

(** Loading touches the profile table and the active pointer only. *)
Lemma loadClusters_frame E w :
  ∃ cs a, (loadClusters E w).2 = set_activeClusterId a (set_clusters cs w).
Proof.
  rewrite loadClusters_world. cbn zeta. rewrite loadLoop_world.
  set (cs := clusters (loadLoop E (gs_clusterIds w) w).2).
  destruct ((0 <? _)%nat && _).
  - by eexists _, _.
  - exists cs, (activeClusterId w). cbn. reflexivity.
Qed.

(** A refresh writes the health cache, the clock and the log only. *)
Lemma refreshLoop_world E cs : ∀ w, ∃ h e c,
  (refreshLoop E cs w).2 = set_clusterHealth h (set_events e (set_clock c w)).
Proof.
  induction cs as [|[k o] cs IH]; intros w.
  - exists (clusterHealth w), (events w), (clock w). cbn. apply World_eta.
  - cbn [refreshLoop]. unfold mbind, M_bind. cbn [fst snd].
    rewrite fetchHealth_world.
    match goal with |- context [refreshLoop E cs ?x] =>
      destruct (IH x) as (h & e & c & ->) end.
    by eexists _, _, _.
Qed.

Lemma refreshClusterHealth_world E w : ∃ h e c,
  (refreshClusterHealth E w).2 =
    set_clusterHealth h (set_events e (set_clock c w)).
Proof.
  unfold refreshClusterHealth, refresh. run.
  destruct (refreshLoop_world E (clients w) w) as (h & e & c & ->).
  by eexists _, _, _.
Qed.

Lemma constructor_eq E w :
  (constructor E w).2 =
    let w0 := set_refreshTimer false
                (set_activeClusterId None
                   (set_clusterHealth ∅
                      (set_clients [] (set_clusters [] w)))) in
    let w1 := (loadClusters E w0).2 in
    let w2 := set_autoRefreshEnabled (gs_autoRefreshEnabled w1) w1 in
    if gs_autoRefreshEnabled w1
    then (refreshClusterHealth E
            (set_refreshTimer true (set_refreshTimer false w2))).2
    else w2.
Proof.
  unfold constructor, startAutoRefresh, stopAutoRefresh. run.
  match goal with |- context [if ?c then _ else _] => by destruct c end.
Qed.

(** What the constructor leaves: the table holds the stored profile of
    every listed id, the registry and the health cache are empty, the
    pointer is on the first profile, auto-refresh is as persisted. *)
Lemma constructor_spec E w :
  let w' := (constructor E w).2 in
  (∀ i, JsMap.get i (clusters w') =
          if bool_decide (i ∈ gs_clusterIds w) then storedConfig E w i
          else None)
  ∧ clients w' = [] ∧ clusterHealth w' = ∅
  ∧ activeClusterId w' = head (JsMap.keys (clusters w'))
  ∧ autoRefreshEnabled w' = gs_autoRefreshEnabled w
  ∧ refreshTimer w' = gs_autoRefreshEnabled w
  ∧ gs_clusterIds w' = gs_clusterIds w
  ∧ gs_connectedClusters w' = gs_connectedClusters w
  ∧ gs_autoRefreshEnabled w' = gs_autoRefreshEnabled w
  ∧ gs_caCertificate w' = gs_caCertificate w
  ∧ secrets w' = secrets w
  ∧ NODE_TLS_REJECT_UNAUTHORIZED w' = NODE_TLS_REJECT_UNAUTHORIZED w
  ∧ clock w' = clock w
  ∧ events w' = (events w ++ if gs_autoRefreshEnabled w then [Fire] else [])%list.
Proof.
  cbn zeta. rewrite constructor_eq. cbn zeta.
  set (w0 := set_refreshTimer false _).
  pose proof (loadClusters_get E w0) as Hget.
  pose proof (loadClusters_world E w0) as Hw1. cbn zeta in Hw1.
  pose proof (loadLoop_world E (gs_clusterIds w0) w0) as Hl.
  set (wl := (loadLoop E (gs_clusterIds w0) w0).2) in *.
  assert (Hptr : activeClusterId (loadClusters E w0).2 =
                 head (JsMap.keys (clusters (loadClusters E w0).2))).
  { rewrite Hw1. rewrite Hl. cbn.
    destruct (clusters wl) as [|[k c] r]; by cbn. }
  assert (Hrest : ∃ cs a, (loadClusters E w0).2 =
                    set_activeClusterId a (set_clusters cs w0))
    by apply loadClusters_frame.
  destruct Hrest as (cs & a & Hrest).
  assert (Hgetw : ∀ i, JsMap.get i (clusters (loadClusters E w0).2) =
            if bool_decide (i ∈ gs_clusterIds w) then storedConfig E w i
            else None).
  { intros i. rewrite Hget. subst w0. cbn.
    unfold storedConfig. cbn.
    destruct (bool_decide _); [|done]. by destruct (_ !! _) as [s|];
      [destruct (String.eqb s EmptyString); [|destruct (JSON_parse E s)]|]. }
  clear Hget Hw1 Hl. revert Hptr Hgetw. rewrite Hrest. subst w0. cbn.
  intros Hptr Hgetw.
  destruct (gs_autoRefreshEnabled w) eqn:Hflag.
  - unfold refreshClusterHealth, refresh. run.
    by repeat split.
  - rewrite app_nil_r. by repeat split.
Qed.

(** ** What an operation leaves alone *)

Lemma profilesKept_refl w : profilesKept w w.
Proof. by repeat split. Qed.

Lemma profilesKept_trans w1 w2 w3 :
  profilesKept w1 w2 → profilesKept w2 w3 → profilesKept w1 w3.
Proof.
  unfold profilesKept. intros (?&?&?&?&?&?) (?&?&?&?&?&?).
  repeat split; congruence.
Qed.

Lemma untouched_refl w : untouched w w.
Proof. by repeat split. Qed.

Lemma untouched_trans w1 w2 w3 :
  untouched w1 w2 → untouched w2 w3 → untouched w1 w3.
Proof.
  unfold untouched. intros (?&?&?&?&?&?&?&?&?&?&?) (?&?&?&?&?&?&?&?&?&?&?).
  repeat split; congruence.
Qed.

Lemma untouched_profilesKept w w' : untouched w w' → profilesKept w w'.
Proof.
  unfold untouched, profilesKept. intros (?&?&?&?&?&?&?&?&?&?&?).
  by repeat split.
Qed.

Lemma connectToClusterSilently_kept E clusterId w :
  let w' := (connectToClusterSilently E clusterId w).2 in
  profilesKept w w' ∧ secrets w' = secrets w
  ∧ gs_connectedClusters w' = gs_connectedClusters w
  ∧ registryGrew clusterId w w'.
Proof.
  cbn zeta. destruct (JsMap.get clusterId (clusters w)) as [config|] eqn:Hget.
  2: { rewrite connectToClusterSilently_unknown by done. cbn.
       repeat split; by left. }
  rewrite (connectToClusterSilently_eq E clusterId config w Hget). cbn zeta.
  rewrite buildClientOptions_world.
  destruct (ping E _ _); cbn.
  - rewrite fetchHealth_world. cbn.
    match goal with |- context [if truthy ?a then _ else _] =>
      destruct (truthy a) end;
      destruct (truthy_bool _); cbn; repeat split;
      right; eexists; (split; [by rewrite Hget|reflexivity]).
  - destruct (truthy_bool _); cbn; repeat split; by left.
Qed.

Lemma connectToCluster_kept E clusterId w :
  let w' := (connectToCluster E clusterId w).2 in
  profilesKept w w'
  ∧ (gs_connectedClusters w' = gs_connectedClusters w
     ∨ ((clusterId ∉ gs_connectedClusters w)
        ∧ gs_connectedClusters w' =
            (gs_connectedClusters w ++ [clusterId])%list))
  ∧ registryGrew clusterId w w'.
Proof.
  cbn zeta. destruct (JsMap.get clusterId (clusters w)) as [config|] eqn:Hget.
  2: { rewrite connectToCluster_unknown by done. cbn.
       repeat split; by left. }
  rewrite (connectToCluster_eq E clusterId config w Hget). cbn zeta.
  destruct (promptForCredentials_frame E clusterId config w)
    as (Hsame & _ & _).
  apply untouched_profilesKept in Hsame as Hkept.
  destruct Hsame as (_ & Hcl & _ & _ & _ & _ & _ & Hco & _).
  destruct (promptForCredentials E clusterId config w) as [ready w1].
  cbn [fst snd] in *. destruct ready; cbn [fst snd];
    [|split; [exact Hkept|split; left; done]].
  rewrite buildClientOptions_world.
  set (w2 := if truthy_bool (ClusterConfig.disableSSL config)
             then set_NODE_TLS_REJECT_UNAUTHORIZED (Some "0") w1 else w1).
  assert (Hw2 : profilesKept w w2 ∧ clients w2 = clients w
                ∧ gs_connectedClusters w2 = gs_connectedClusters w).
  { subst w2. by destruct (truthy_bool _). }
  destruct Hw2 as (Hk2 & Hc2 & Hco2).
  destruct (ping E (clock w2) _) as [|message]; cbn.
  - rewrite fetchHealth_world, saveConnectedCluster_world. cbn.
    destruct (includes clusterId (gs_connectedClusters w2)) eqn:Hin; cbn.
    + split; [exact Hk2|]. split; [by left|].
      right. eexists. split; [by rewrite Hget|by rewrite Hc2].
    + split; [exact Hk2|]. split.
      * right. rewrite <- Hco2. split; [|done].
        intros Hi. apply includes_true in Hi. congruence.
      * right. eexists. split; [by rewrite Hget|by rewrite Hc2].
  - split; [exact Hk2|]. split; by left.
Qed.

(** ** The shape of a session is kept *)

Lemma JsMap_get_set_is_Some {V : Type} (i k : string) (v : V)
    (m : list (string * V)) :
  is_Some (JsMap.get i (JsMap.set k v m)) ↔ i = k ∨ is_Some (JsMap.get i m).
Proof.
  destruct (decide (k = i)) as [->|Hne].
  - rewrite JsMap_get_set_eq. split; [by left|by eexists].
  - rewrite JsMap_get_set_ne by done. split; [by right|by intros [->|?]].
Qed.

Lemma JsMap_get_delete_is_Some {V : Type} (i k : string)
    (m : list (string * V)) :
  is_Some (JsMap.get i (JsMap.delete k m)) ↔ i ≠ k ∧ is_Some (JsMap.get i m).
Proof.
  destruct (decide (k = i)) as [->|Hne].
  - rewrite JsMap_get_delete_eq. split; [by intros [? ?]|by intros [? _]].
  - rewrite JsMap_get_delete_ne by done. split; [by split|by intros [_ ?]].
Qed.

(** The six fields that [consistent] reads. *)
Lemma consistent_fields w w' :
  clusters w' = clusters w → clients w' = clients w →
  refreshTimer w' = refreshTimer w →
  autoRefreshEnabled w' = autoRefreshEnabled w →
  gs_clusterIds w' = gs_clusterIds w →
  gs_connectedClusters w' = gs_connectedClusters w →
  consistent w → consistent w'.
Proof. unfold consistent. by intros -> -> -> -> -> ->. Qed.

Lemma consistent_untouched w w' : untouched w w' → consistent w → consistent w'.
Proof.
  intros (?&?&?&?&?&?&?&?&?&?&?). by apply consistent_fields.
Qed.

Lemma consistent_registryGrew clusterId w w' :
  profilesKept w w' → registryGrew clusterId w w' →
  NoDup (gs_connectedClusters w') →
  consistent w → consistent w'.
Proof.
  intros (Hcl & Hids & Hen & Htm & _ & _) Hreg Hnd
    (Hk & Hc & Hsub & Ht & Hi & _).
  unfold consistent. rewrite Hcl, Hids, Hen, Htm.
  destruct Hreg as [->|(opts & Hknown & ->)]; [done|].
  split; [done|]. split; [by apply JsMap_set_NoDup|].
  split; [|done].
  intros i [->|Hi']%JsMap_get_set_is_Some; [done|by apply Hsub].
Qed.

Lemma consistent_connectToCluster E clusterId w :
  consistent w → consistent (connectToCluster E clusterId w).2.
Proof.
  intros Hc. destruct (connectToCluster_kept E clusterId w) as (Hk & Hco & Hr).
  apply (consistent_registryGrew clusterId w); try done.
  destruct Hc as (_ & _ & _ & _ & _ & Hnd).
  destruct Hco as [->|[Hnot ->]]; [done|].
  apply NoDup_app. split; [done|]. split; [|apply NoDup_singleton].
  intros x Hx ->%list_elem_of_singleton. done.
Qed.

Lemma consistent_connectToClusterSilently E clusterId w :
  consistent w → consistent (connectToClusterSilently E clusterId w).2.
Proof.
  intros Hc.
  destruct (connectToClusterSilently_kept E clusterId w) as (Hk & _ & Hco & Hr).
  apply (consistent_registryGrew clusterId w); try done.
  rewrite Hco. by destruct Hc as (_ & _ & _ & _ & _ & Hnd).
Qed.

Lemma consistent_removeConnectedCluster clusterId w :
  consistent w → consistent (removeConnectedCluster clusterId w).2.
Proof.
  rewrite removeConnectedCluster_world. unfold consistent. cbn.
  intros (?&?&?&?&?&?). repeat split; try done. by apply NoDup_filter.
Qed.

Lemma consistent_reconnectLoop E ids : ∀ rc fc w,
  consistent w → consistent (reconnectLoop E ids rc fc w).2.
Proof.
  induction ids as [|i ids IH]; intros rc fc w Hc; [done|].
  cbn [reconnectLoop]. unfold mbind, M_bind, gets. cbn [fst snd].
  destruct (JsMap.get i (clusters w)) as [config|].
  - pose proof (consistent_connectToClusterSilently E i w Hc) as Hs.
    destruct (connectToClusterSilently E i w) as [[] w1]; cbn [fst snd] in *.
    + by apply IH.
    + apply IH. by apply consistent_removeConnectedCluster.
  - apply IH. by apply consistent_removeConnectedCluster.
Qed.

Lemma consistent_events l w : consistent w → consistent (set_events l w).
Proof. by apply consistent_fields. Qed.

Lemma consistent_clock c w : consistent w → consistent (set_clock c w).
Proof. by apply consistent_fields. Qed.

Lemma consistent_autoReconnectClusters E w :
  consistent w → consistent (autoReconnectClusters E w).2.
Proof.
  intros Hc. destruct (gs_connectedClusters w) as [|i ids] eqn:Hids.
  - unfold autoReconnectClusters. run. by rewrite Hids.
  - rewrite autoReconnectClusters_eq by (by rewrite Hids). cbn zeta.
    apply consistent_events. by apply consistent_reconnectLoop.
Qed.

Lemma consistent_refreshClusterHealth E w :
  consistent w → consistent (refreshClusterHealth E w).2.
Proof.
  destruct (refreshClusterHealth_world E w) as (h & e & c & ->).
  by apply consistent_fields.
Qed.

Lemma disconnectFromCluster_world clusterId w :
  (disconnectFromCluster clusterId w).2 =
    let w1 := set_clusterHealth (delete clusterId (clusterHealth w))
                (set_gs_connectedClusters
                   (filter (λ i, i ≠ clusterId) (gs_connectedClusters w))
                   (set_clients (JsMap.delete clusterId (clients w)) w)) in
    let w2 := if bool_decide (activeClusterId w = Some clusterId)
              then set_activeClusterId None w1 else w1 in
    set_events
      (events w ++
         [Fire;
          InformationMessage
            ("Disconnected from " +:+
             match JsMap.get clusterId (clusters w) with
             | Some c => ClusterConfig.name c
             | None => "Unknown"
             end)]) w2.
Proof.
  unfold disconnectFromCluster, removeConnectedCluster, getCluster, refresh,
    showInformationMessage. run.
  case_bool_decide; cbn; by rewrite <- app_assoc.
Qed.

Lemma consistent_disconnectFromCluster clusterId w :
  consistent w → consistent (disconnectFromCluster clusterId w).2.
Proof.
  rewrite disconnectFromCluster_world. cbn zeta.
  intros (Hk & Hc & Hsub & Ht & Hi & Hco).
  unfold consistent.
  case_bool_decide; cbn;
    (split; [done|]); (split; [by apply JsMap_delete_NoDup|]);
    (split; [|split; [done|split; [done|by apply NoDup_filter]]]);
    intros i [_ Hi']%JsMap_get_delete_is_Some; by apply Hsub.
Qed.

Lemma consistent_removeCluster clusterId w :
  consistent w → consistent (removeCluster clusterId w).2.
Proof.
  rewrite removeCluster_world. cbn zeta.
  intros (Hk & Hc & Hsub & Ht & Hi & Hco).
  unfold consistent.
  case_bool_decide; cbn;
    (split; [by apply JsMap_delete_NoDup|]);
    (split; [by apply JsMap_delete_NoDup|]);
    (split; [|split; [done|split; [done|by apply NoDup_filter]]]);
    intros i [Hne Hi']%JsMap_get_delete_is_Some;
    apply JsMap_get_delete_is_Some; (split; [done|by apply Hsub]).
Qed.

Lemma consistent_addCluster E config w :
  consistent w → consistent (addCluster E config w).2.
Proof.
  rewrite addCluster_world. cbn zeta.
  intros (Hk & Hc & Hsub & Ht & Hi & Hco).
  assert (Hids : NoDup (if includes (ClusterConfig.id config) (gs_clusterIds w)
                        then gs_clusterIds w
                        else (gs_clusterIds w ++ [ClusterConfig.id config])%list)).
  { destruct (includes _ _) eqn:Hin; [done|].
    apply NoDup_app. split; [done|]. split; [|apply NoDup_singleton].
    intros x Hx ->%list_elem_of_singleton.
    apply includes_true in Hx. congruence. }
  unfold consistent.
  destruct (includes _ _); destruct (truthy _); cbn in *;
    (split; [by apply JsMap_set_NoDup|]); (split; [done|]);
    (split; [|done]);
    intros i Hi'; apply JsMap_get_set_is_Some; right; by apply Hsub.
Qed.

(** ** Questions and messages *)

Lemma askInputBox_eq E prompt w :
  askInputBox E prompt w =
    (showInputBox E (clock w) prompt,
     set_events (events w ++ [InputBox prompt]) (set_clock (S (clock w)) w)).
Proof. reflexivity. Qed.

Lemma askQuickPick_eq E placeHolder w :
  askQuickPick E placeHolder w =
    (showQuickPick E (clock w) placeHolder,
     set_events (events w ++ [QuickPick placeHolder])
       (set_clock (S (clock w)) w)).
Proof. reflexivity. Qed.

Lemma askWarning_eq E msg w :
  askWarning E msg w =
    (showWarningChoice E (clock w) msg,
     set_events (events w ++ [WarningMessage msg]) (set_clock (S (clock w)) w)).
Proof. reflexivity. Qed.

Lemma asked_refl w : asked w w.
Proof.
  split; [apply untouched_refl|]. split; [done|].
  exists []. split; [by rewrite app_nil_r|done].
Qed.

Lemma asked_trans w1 w2 w3 : asked w1 w2 → asked w2 w3 → asked w1 w3.
Proof.
  intros (Hu1 & Hs1 & l1 & He1 & Hp1 & Hq1 & Hf1)
         (Hu2 & Hs2 & l2 & He2 & Hp2 & Hq2 & Hf2).
  split; [by eapply untouched_trans|]. split; [congruence|].
  exists (l1 ++ l2)%list. split; [by rewrite He2, He1, app_assoc|].
  rewrite pings_app, healthQueries_app, count_fires_app, Hp1, Hp2, Hq1, Hq2,
    Hf1, Hf2. done.
Qed.

(** One more entry in the log, one more tick of the clock. *)
Lemma asked_step (e : Event) (c : nat) (w : World) :
  pings [e] = [] → healthQueries [e] = [] → count_fires [e] = 0%nat →
  asked w (set_events (events w ++ [e]) (set_clock c w)).
Proof.
  intros Hp Hq Hf. split; [by repeat split|]. split; [done|].
  by exists [e].
Qed.

Lemma asked_message (e : Event) (w : World) :
  pings [e] = [] → healthQueries [e] = [] → count_fires [e] = 0%nat →
  asked w (set_events (events w ++ [e]) w).
Proof.
  intros Hp Hq Hf. split; [by repeat split|]. split; [done|].
  by exists [e].
Qed.

Lemma asked_tick (w : World) : asked w (set_clock (S (clock w)) w).
Proof.
  split; [by repeat split|]. split; [done|].
  exists []. split; [by rewrite app_nil_r|done].
Qed.

Lemma asked_askInputBox E prompt w : asked w (askInputBox E prompt w).2.
Proof. rewrite askInputBox_eq. by apply asked_step. Qed.

Lemma asked_askQuickPick E placeHolder w :
  asked w (askQuickPick E placeHolder w).2.
Proof. rewrite askQuickPick_eq. by apply asked_step. Qed.

Lemma asked_askWarning E msg w : asked w (askWarning E msg w).2.
Proof. rewrite askWarning_eq. by apply asked_step. Qed.

Lemma asked_gatherCredentials E authMethod w :
  asked w (gatherCredentials E authMethod w).2.
Proof.
  unfold gatherCredentials.
  destruct (String.eqb authMethod BASIC);
    [|destruct (String.eqb authMethod API_KEY)].
  - unfold mbind, M_bind, mret, M_ret. cbn [fst snd].
    eapply asked_trans; [apply asked_askInputBox|].
    destruct (truthy _); cbn [fst snd];
      [apply asked_askInputBox|apply asked_refl].
  - unfold mbind, M_bind, mret, M_ret. cbn [fst snd].
    apply asked_askInputBox.
  - apply asked_refl.
Qed.

Lemma consistent_asked w w' : asked w w' → consistent w → consistent w'.
Proof. intros (Hu & _). by apply consistent_untouched. Qed.

(** The add flow either stops at a prompt, or reaches its [try] block
    after prompts only (and the process-wide switch, when asked for). *)
Lemma esExt_addCluster_cases E w (P : unit * World → Prop) :
  (∀ w', asked w w' → P ((), w')) →
  (∀ w5 name deploymentType target authMethod credentials insecure,
     asked w w5 →
     P (testConnectionAndSave E ("cluster-" +:+ pretty (now E (clock w)))
          name deploymentType target authMethod credentials insecure
          (if insecure : bool
           then set_NODE_TLS_REJECT_UNAUTHORIZED (Some "0") w5
           else w5))) →
  P (esExt_addCluster E w).
Proof.
  intros Hstop Htry. unfold esExt_addCluster.
  unfold mbind at 1, M_bind at 1. cbn [fst snd].
  set (w0 := (tick w).2).
  assert (H0 : asked w w0) by apply asked_tick.
  unfold mbind at 1, M_bind at 1. cbn [fst snd].
  pose proof (asked_askInputBox E "Cluster Name" w0) as H1.
  destruct (askInputBox E "Cluster Name" w0) as [name w1]. cbn [fst snd] in *.
  destruct (negb (truthy name)); [apply Hstop; eauto using asked_trans|].
  unfold mbind at 1, M_bind at 1. cbn [fst snd].
  pose proof (asked_askQuickPick E "Select Elasticsearch deployment type" w1)
    as H2.
  destruct (askQuickPick E _ w1) as [deploymentType w2]. cbn [fst snd] in *.
  destruct (negb (truthy deploymentType));
    [apply Hstop; eauto using asked_trans|].
  unfold mbind at 1, M_bind at 1. cbn [fst snd].
  match goal with |- context [askInputBox E ?p w2] =>
    pose proof (asked_askInputBox E p w2) as H3;
    destruct (askInputBox E p w2) as [target w3] end.
  cbn [fst snd] in *.
  destruct (negb (truthy target)); [apply Hstop; eauto using asked_trans|].
  unfold mbind at 1, M_bind at 1. cbn [fst snd].
  pose proof (asked_askQuickPick E "Select auth method" w3) as H4.
  destruct (askQuickPick E _ w3) as [authMethod w4]. cbn [fst snd] in *.
  destruct (negb (truthy authMethod)); [apply Hstop; eauto using asked_trans|].
  unfold mbind at 1, M_bind at 1. cbn [fst snd].
  pose proof (asked_gatherCredentials E (default EmptyString authMethod) w4)
    as H5.
  destruct (gatherCredentials E _ w4) as [credentials w5]. cbn [fst snd] in *.
  unfold mbind at 1, M_bind at 1. cbn [fst snd].
  pose proof (asked_askQuickPick E
                "Disable SSL certificate verification? (insecure)" w5) as H6.
  destruct (askQuickPick E _ w5) as [disableSSL w6]. cbn [fst snd] in *.
  unfold mbind, M_bind. cbn [fst snd].
  assert (H : asked w w6) by eauto 10 using asked_trans.
  destruct (bool_decide (disableSSL = Some "Yes")) eqn:Hd; cbn.
  - apply (Htry w6 _ _ _ _ _ true H).
  - apply (Htry w6 _ _ _ _ _ false H).
Qed.

(** ** The [try] block of the add flow *)

Lemma probe_eq E opts w :
  probe E opts w =
    (ping E (clock w) opts,
     set_events (events w ++ [Ping opts (resolved (ping E (clock w) opts))])
       (set_clock (S (clock w)) w)).
Proof. reflexivity. Qed.

(** Storing credentials writes the secret storage and nothing else. *)
Lemma storeClusterCredentials_untouched clusterId authMethod c w :
  let w' := (storeClusterCredentials clusterId authMethod c w).2 in
  untouched w w' ∧ events w' = events w ∧ clock w' = clock w.
Proof.
  unfold storeClusterCredentials, secrets_store_opt, secrets_store.
  destruct (String.eqb authMethod BASIC);
    [|destruct (String.eqb authMethod API_KEY)];
    destruct c as [[u|] [p|] [k|]]; run; by repeat split.
Qed.

Lemma connectToCluster_log E clusterId w :
  ∃ l, events (connectToCluster E clusterId w).2 = (events w ++ l)%list.
Proof.
  destruct (JsMap.get clusterId (clusters w)) as [config|] eqn:Hget.
  2: { rewrite connectToCluster_unknown by done. by eexists. }
  rewrite (connectToCluster_eq E clusterId config w Hget). cbn zeta.
  destruct (promptForCredentials_frame E clusterId config w)
    as (_ & (l & Hl & _) & _).
  destruct (promptForCredentials E clusterId config w) as [ready w1].
  cbn [fst snd] in *. destruct ready; cbn [fst snd]; [|by eexists].
  rewrite buildClientOptions_world.
  set (w2 := if truthy_bool (ClusterConfig.disableSSL config)
             then set_NODE_TLS_REJECT_UNAUTHORIZED (Some "0") w1 else w1).
  assert (He2 : events w2 = events w1) by (subst w2; by destruct (truthy_bool _)).
  destruct (ping E (clock w2) _) as [|message]; cbn.
  - rewrite fetchHealth_world, saveConnectedCluster_world. cbn.
    destruct (includes _ _); cbn; rewrite He2, Hl, <- !app_assoc; by eexists.
  - rewrite He2, Hl, <- !app_assoc. by eexists.
Qed.

(** The block starts with its probe; what follows depends on the
    outcome. *)
Lemma testConnectionAndSave_log E clusterId name deploymentType target
    authMethod credentials insecure w :
  let opts := tempClientOptions deploymentType target credentials insecure in
  ∃ l, events (testConnectionAndSave E clusterId name deploymentType target
                 authMethod credentials insecure w).2 =
       (events w ++ Ping opts (resolved (ping E (clock w) opts)) :: l)%list.
Proof.
  cbn zeta. unfold testConnectionAndSave.
  unfold mbind at 1, M_bind at 1. rewrite probe_eq. cbn [fst snd].
  destruct (ping E (clock w) _) as [|message].
  - unfold mbind at 1, M_bind at 1. cbn [fst snd].
    rewrite addCluster_world. cbn zeta.
    unfold mbind at 1, M_bind at 1. cbn [fst snd].
    match goal with |- context [storeClusterCredentials _ _ _ ?x] =>
      set (w2 := x) end.
    assert (He2 : events w2 =
              (events w ++ [Ping (tempClientOptions deploymentType target
                                    credentials insecure) true; Fire])%list).
    { subst w2. cbn. by rewrite <- app_assoc. }
    destruct (storeClusterCredentials_untouched clusterId authMethod
                credentials w2) as (_ & He3 & _).
    destruct (storeClusterCredentials clusterId authMethod credentials w2)
      as [stored w3]. cbn [fst snd] in *.
    destruct stored.
    + unfold mbind, M_bind, showInformationMessage, refresh. run.
      destruct (connectToCluster_log E clusterId w3) as [l ->].
      rewrite He3, He2, <- !app_assoc. by eexists.
    + unfold showErrorMessage. run. rewrite He3, He2, <- !app_assoc.
      by eexists.
  - unfold showErrorMessage. run. rewrite <- app_assoc. by eexists.
Qed.

Lemma consistent_testConnectionAndSave E clusterId name deploymentType target
    authMethod credentials insecure w :
  consistent w →
  consistent (testConnectionAndSave E clusterId name deploymentType target
                authMethod credentials insecure w).2.
Proof.
  intros Hc. unfold testConnectionAndSave.
  unfold mbind at 1, M_bind at 1. rewrite probe_eq. cbn [fst snd].
  set (w1 := set_events _ _).
  assert (Hc1 : consistent w1)
    by (subst w1; by apply consistent_events, consistent_clock).
  destruct (ping E (clock w) _) as [|message].
  - unfold mbind at 1, M_bind at 1. cbn [fst snd].
    pose proof (consistent_addCluster E
      (addedConfig clusterId name deploymentType target authMethod insecure)
      w1 Hc1) as Hc2.
    set (w2 := (addCluster E _ w1).2) in *.
    unfold mbind at 1, M_bind at 1. cbn [fst snd].
    destruct (storeClusterCredentials_untouched clusterId authMethod
                credentials w2) as (Hu3 & _ & _).
    pose proof (consistent_untouched _ _ Hu3 Hc2) as Hc3.
    destruct (storeClusterCredentials clusterId authMethod credentials w2)
      as [stored w3]. cbn [fst snd] in *.
    destruct stored.
    + unfold mbind, M_bind, showInformationMessage, refresh. run.
      apply (consistent_events _ (set_events _ _)), consistent_events.
      by apply consistent_connectToCluster.
    + unfold showErrorMessage. run. by apply consistent_events.
  - unfold showErrorMessage. run. by apply consistent_events.
Qed.

Lemma consistent_tls v w :
  consistent w → consistent (set_NODE_TLS_REJECT_UNAUTHORIZED v w).
Proof. by apply consistent_fields. Qed.

Lemma consistent_esExt_addCluster E w :
  consistent w → consistent (esExt_addCluster E w).2.
Proof.
  intros Hc.
  apply (esExt_addCluster_cases E w (λ r, consistent r.2)); cbn [snd].
  - intros w' Ha. by eapply consistent_asked.
  - intros w5 name deploymentType target authMethod credentials insecure Ha.
    apply consistent_testConnectionAndSave.
    destruct insecure; [apply consistent_tls|]; by eapply consistent_asked.
Qed.

(** ** Auto-refresh, import and the other handlers *)

Lemma toggleAutoRefresh_eq E w :
  (toggleAutoRefresh E w).2 =
    if autoRefreshEnabled w then
      set_refreshTimer false
        (set_events (events w ++ [InformationMessage "Auto-refresh disabled"])
           (set_gs_autoRefreshEnabled false (set_autoRefreshEnabled false w)))
    else
      (refreshClusterHealth E
         (set_refreshTimer true
            (set_refreshTimer false
               (set_events
                  (events w ++
                     [InformationMessage
                        "Auto-refresh enabled: Health status will update every 60 seconds"])
                  (set_gs_autoRefreshEnabled true
                     (set_autoRefreshEnabled true w)))))).2.
Proof.
  unfold toggleAutoRefresh, startAutoRefresh, stopAutoRefresh,
    showInformationMessage. run.
  by destruct (autoRefreshEnabled w).
Qed.

Lemma consistent_toggleAutoRefresh E w :
  consistent w → consistent (toggleAutoRefresh E w).2.
Proof.
  intros (Hk & Hc & Hsub & Ht & Hi & Hco). rewrite toggleAutoRefresh_eq.
  destruct (autoRefreshEnabled w).
  - by repeat split.
  - apply consistent_refreshClusterHealth. by repeat split.
Qed.

Lemma consistent_importEntry E clusterData w :
  consistent w → consistent (importEntry E clusterData w).2.
Proof.
  intros Hc. rewrite importEntry_world.
  by apply consistent_addCluster, consistent_clock.
Qed.

Lemma consistent_importLoop E entries : ∀ importedCount skippedCount w,
  consistent w →
  consistent (importLoop E entries importedCount skippedCount w).2.
Proof.
  induction entries as [|[e|] entries IH]; intros ic sc w Hc; [done| |done].
  cbn [importLoop]. destruct (missingRequired e); [by apply IH|].
  unfold mbind at 1, M_bind at 1, gets. cbn [fst snd].
  destruct (findByName _ _) as [existing|].
  - unfold mbind at 1, M_bind at 1. rewrite askWarning_eq. cbn [fst snd].
    set (w1 := set_events _ _).
    assert (Hc1 : consistent w1)
      by (subst w1; by apply consistent_events, consistent_clock).
    case_bool_decide; [done|]. case_bool_decide; [by apply IH|].
    unfold mbind, M_bind. cbn [fst snd]. apply IH.
    by apply consistent_importEntry, consistent_removeCluster.
  - unfold mbind, M_bind. cbn [fst snd]. apply IH.
    by apply consistent_importEntry.
Qed.

Lemma consistent_importClusters E w :
  consistent w → consistent (importClusters E w).2.
Proof.
  intros Hc. unfold importClusters.
  unfold mbind at 1, M_bind at 1, tick. cbn [fst snd].
  assert (Hc1 : consistent (set_clock (S (clock w)) w))
    by (by apply consistent_clock).
  destruct (openImportFile E (clock w)) as [|message|[entries|]].
  - done.
  - unfold showErrorMessage. run. by apply consistent_events.
  - unfold mbind at 1, M_bind at 1.
    pose proof (consistent_importLoop E entries 0 0 _ Hc1) as Hc2.
    destruct (importLoop E entries 0 0 _) as [[ic sc|ic sc] w2];
      cbn [fst snd] in *.
    + unfold showInformationMessage. run. by apply consistent_events.
    + unfold showErrorMessage. run. by apply consistent_events.
  - unfold showErrorMessage. run. by apply consistent_events.
Qed.

Lemma consistent_esExt_selectCluster E clusterId w :
  consistent w → consistent (esExt_selectCluster E clusterId w).2.
Proof.
  intros Hc. unfold esExt_selectCluster, setActiveCluster, refresh.
  unfold mbind at 1, M_bind at 1. run.
  match goal with |- context [connectToCluster E clusterId ?x] =>
    assert (Hc1 : consistent x) by (by apply (consistent_fields w));
    pose proof (consistent_connectToCluster E clusterId x Hc1) as Hc2;
    destruct (connectToCluster E clusterId x) as [[] w2] end;
    cbn [fst snd] in *.
  - unfold getActiveCluster, showInformationMessage. run.
    destruct (truthy _); cbn; by apply consistent_events.
  - unfold showErrorMessage. run. by apply consistent_events.
Qed.

Lemma consistent_esExt_connectToCluster E clusterId w :
  consistent w → consistent (esExt_connectToCluster E clusterId w).2.
Proof.
  intros Hc. unfold esExt_connectToCluster.
  unfold mbind at 1, M_bind at 1. cbn [fst snd].
  pose proof (consistent_connectToCluster E clusterId w Hc) as Hc2.
  destruct (connectToCluster E clusterId w) as [[] w2]; cbn [fst snd] in *.
  - unfold getActiveCluster, showInformationMessage, refresh. run.
    destruct (truthy _); cbn;
      by apply (consistent_events _ (set_events _ _)), consistent_events.
  - unfold showErrorMessage. run. by apply consistent_events.
Qed.

Lemma consistent_esExt_removeCluster E clusterId w :
  consistent w → consistent (esExt_removeCluster E clusterId w).2.
Proof.
  intros Hc. unfold esExt_removeCluster, getCluster.
  unfold mbind at 1, M_bind at 1, gets. cbn [fst snd].
  destruct (JsMap.get clusterId (clusters w)) as [c|]; [|done].
  unfold mbind at 1, M_bind at 1. rewrite askWarning_eq. cbn [fst snd].
  case_bool_decide.
  - unfold mbind, M_bind, showInformationMessage. run.
    apply consistent_events, consistent_removeCluster.
    by apply consistent_events, consistent_clock.
  - by apply consistent_events, consistent_clock.
Qed.

Lemma consistent_esExt_disconnectFromCluster clusterId w :
  consistent w → consistent (esExt_disconnectFromCluster clusterId w).2.
Proof.
  intros Hc. unfold esExt_disconnectFromCluster, getCluster.
  unfold mbind, M_bind, gets. cbn [fst snd].
  destruct (JsMap.get clusterId (clusters w)) as [c|]; [|done].
  by apply consistent_disconnectFromCluster.
Qed.

Lemma consistent_esExt_clearAllClusterData E w :
  consistent w → consistent (esExt_clearAllClusterData E w).2.
Proof.
  intros Hc. unfold esExt_clearAllClusterData.
  unfold mbind at 1, M_bind at 1. rewrite askWarning_eq. cbn [fst snd].
  case_bool_decide; [|by apply consistent_events, consistent_clock].
  unfold showInformationMessage, refresh. run.
  match goal with |- context [clearSecrets ?ids ?x] =>
    destruct (clearSecrets_spec ids x)
      as ((Hcl & Hcs & _ & _ & Hen & Htm & Hids & Hco & _) & _) end.
  cbn in *. destruct Hc as (Hk & Hc & Hsub & Ht & _ & _).
  unfold consistent. cbn. rewrite Hcl, Hcs, Hen, Htm, Hids, Hco.
  repeat split; try done; apply NoDup_nil_2.
Qed.

Lemma consistent_exportClusters E X w :
  consistent w → consistent (exportClusters E X w).2.
Proof.
  intros Hc. unfold exportClusters, showInformationMessage, showErrorMessage.
  run. destruct (length (clusters w) =? 0)%nat; cbn;
    [by apply consistent_events|].
  destruct (showSaveDialog X _ _); cbn; [destruct (writeFile X _ _); cbn|];
    by apply (consistent_fields w).
Qed.

Lemma consistent_esExt_setCACertificate X w :
  consistent w → consistent (esExt_setCACertificate X w).2.
Proof.
  intros Hc. unfold esExt_setCACertificate, showInformationMessage,
    showErrorMessage. run.
  destruct (showOpenDialog X _) as [[|fileUri ?]|]; cbn;
    [| destruct (readFile X _ _); cbn |]; by apply (consistent_fields w).
Qed.

Lemma consistent_esExt_clearCACertificate w :
  consistent w → consistent (esExt_clearCACertificate w).2.
Proof. intros Hc. by apply (consistent_fields w). Qed.

Lemma consistent_esExt_clusterContextMenu E item w :
  consistent w → consistent (esExt_clusterContextMenu E item w).2.
Proof.
  intros Hc. unfold esExt_clusterContextMenu.
  destruct (ExplorerItem.contextValue item) as [contextValue|]; [|done].
  destruct (String.prefix _ _); [|done].
  destruct (split colon contextValue !! 1%nat) as [clusterId|]; [|done].
  unfold mbind at 1, M_bind at 1. rewrite askQuickPick_eq. cbn [fst snd].
  assert (Hc1 : consistent
                  (set_events (events w ++ [QuickPick "Select action"])
                     (set_clock (S (clock w)) w)))
    by (by apply consistent_events, consistent_clock).
  repeat case_bool_decide.
  - by apply consistent_esExt_connectToCluster.
  - by apply consistent_esExt_removeCluster.
  - unfold showInformationMessage. run. by apply consistent_events.
  - done.
Qed.

Lemma consistent_invoke E X i w :
  consistent w → consistent (invoke E X i w).2.
Proof.
  intros Hc. destruct i; cbn [invoke].
  - by apply consistent_esExt_addCluster.
  - by apply consistent_esExt_selectCluster.
  - by apply consistent_esExt_connectToCluster.
  - by apply consistent_esExt_removeCluster.
  - by apply consistent_toggleAutoRefresh.
  - unfold refresh. run. by apply consistent_events.
  - unfold mbind, M_bind. cbn [fst snd]. by apply consistent_exportClusters.
  - by apply consistent_importClusters.
  - by apply consistent_esExt_disconnectFromCluster.
  - by apply consistent_esExt_clearAllClusterData.
  - by apply consistent_esExt_setCACertificate.
  - by apply consistent_esExt_clearCACertificate.
  - by apply consistent_esExt_clusterContextMenu.
  - unfold mbind, M_bind, gets. cbn [fst snd].
    destruct (refreshTimer w); [by apply consistent_refreshClusterHealth|done].
Qed.

Lemma consistent_session E X invocations : ∀ w,
  consistent w → consistent (session E X invocations w).2.
Proof.
  induction invocations as [|i invocations IH]; intros w Hc; [done|].
  cbn [session]. unfold mbind, M_bind. cbn [fst snd].
  by apply IH, consistent_invoke.
Qed.

(** ** Start-up, continued *)

Lemma loadLoop_NoDup E ids : ∀ w,
  NoDup (JsMap.keys (clusters w)) →
  NoDup (JsMap.keys (clusters (loadLoop E ids w).2)).
Proof.
  induction ids as [|i ids IH]; intros w Hnd; [done|].
  cbn [loadLoop]. unfold secrets_get. run. apply IH.
  destruct (truthy _); [destruct (JSON_parse E _)|]; cbn; try done.
  by apply JsMap_set_NoDup.
Qed.

Lemma loadLoop_keeps E ids w i :
  is_Some (JsMap.get i (clusters w)) →
  is_Some (JsMap.get i (clusters (loadLoop E ids w).2)).
Proof.
  intros Hi. rewrite loadLoop_get.
  by destruct (if bool_decide (i ∈ ids) then storedConfig E w i else None).
Qed.

Lemma consistent_loadClusters E w :
  consistent w → consistent (loadClusters E w).2.
Proof.
  intros (Hk & Hc & Hsub & Ht & Hi & Hco).
  rewrite loadClusters_world. cbn zeta.
  pose proof (loadLoop_NoDup E (gs_clusterIds w) w Hk) as Hk'.
  pose proof (loadLoop_keeps E (gs_clusterIds w) w) as Hkeeps.
  rewrite loadLoop_world in *.
  set (cs := clusters (loadLoop E (gs_clusterIds w) w).2) in *.
  cbn in Hk', Hkeeps.
  destruct ((0 <? _)%nat && _); cbn; repeat split; try done;
    intros i Hi'; by apply Hkeeps, Hsub.
Qed.

Lemma consistent_constructor E w :
  NoDup (gs_clusterIds w) → NoDup (gs_connectedClusters w) →
  consistent (constructor E w).2.
Proof.
  intros Hi Hco.
  destruct (constructor_spec E w)
    as (Hget & Hcl & _ & _ & Hen & Htm & Hids & Hcos & _).
  assert (Hk : NoDup (JsMap.keys (clusters (constructor E w).2))).
  { rewrite constructor_eq. cbn zeta.
    set (w0 := set_refreshTimer false _).
    assert (Hk1 : NoDup (JsMap.keys (clusters (loadClusters E w0).2))).
    { rewrite loadClusters_world. cbn zeta.
      pose proof (loadLoop_NoDup E (gs_clusterIds w0) w0) as Hl.
      destruct ((0 <? _)%nat && _); cbn; apply Hl; subst w0; cbn;
        apply NoDup_nil_2. }
    destruct (gs_autoRefreshEnabled (loadClusters E w0).2); [|exact Hk1].
    match goal with |- context [refreshClusterHealth E ?x] =>
      destruct (refreshClusterHealth_world E x) as (h & e & c & ->) end.
    exact Hk1. }
  unfold consistent. rewrite Hcl, Hen, Htm, Hids, Hcos.
  repeat split; try done; [apply NoDup_nil_2|by intros i [? ?]].
Qed.

Lemma reconnectLoop_kept E ids : ∀ rc fc w,
  profilesKept w (reconnectLoop E ids rc fc w).2.
Proof.
  induction ids as [|i ids IH]; intros rc fc w; [apply profilesKept_refl|].
  cbn [reconnectLoop]. unfold mbind, M_bind, gets. cbn [fst snd].
  assert (Hrm : ∀ v, profilesKept v (removeConnectedCluster i v).2).
  { intros v. rewrite removeConnectedCluster_world. by repeat split. }
  destruct (JsMap.get i (clusters w)) as [config|].
  - destruct (connectToClusterSilently_kept E i w) as (Hk & _).
    destruct (connectToClusterSilently E i w) as [[] w1]; cbn [fst snd] in *.
    + eapply profilesKept_trans; [exact Hk|apply IH].
    + eapply profilesKept_trans; [exact Hk|].
      eapply profilesKept_trans; [apply Hrm|apply IH].
  - eapply profilesKept_trans; [apply Hrm|apply IH].
Qed.

Lemma autoReconnectClusters_kept E w :
  let w' := (autoReconnectClusters E w).2 in
  profilesKept w w' ∧ secrets w' = secrets w
  ∧ gs_connectedClusters w' ⊆ gs_connectedClusters w.
Proof.
  cbn zeta. destruct (decide (gs_connectedClusters w = [])) as [Hids|Hids].
  - unfold autoReconnectClusters. run. rewrite Hids. cbn.
    split; [apply profilesKept_refl|]. split; [done|by rewrite Hids].
  - rewrite autoReconnectClusters_eq by done. cbn zeta.
    destruct (reconnectLoop_inv E (gs_connectedClusters w) 0 0 w)
      as (Hs & _ & _ & _ & Hsub & _).
    pose proof (reconnectLoop_kept E (gs_connectedClusters w) 0 0 w) as Hk.
    split; [exact Hk|]. split; [exact Hs|exact Hsub].
Qed.

Lemma activate_eq E w :
  (activate E w).2 =
    let w3 := (autoReconnectClusters E
                 (loadClusters E (constructor E w).2).2).2 in
    set_events (events w3 ++ [Fire]) w3.
Proof. reflexivity. Qed.

Lemma activate_get E w i :
  JsMap.get i (clusters (activate E w).2) =
    if bool_decide (i ∈ gs_clusterIds w) then storedConfig E w i else None.
Proof.
  rewrite activate_eq.
  destruct (constructor_spec E w)
    as (Hget & _ & _ & _ & _ & _ & Hids & _ & _ & _ & Hs & _).
  set (w1 := (constructor E w).2) in *. clearbody w1.
  destruct (autoReconnectClusters_kept E (loadClusters E w1).2)
    as ((Hcl & _) & _).
  set (w3 := (autoReconnectClusters E (loadClusters E w1).2).2) in *.
  clearbody w3. cbn. rewrite Hcl.
  rewrite loadClusters_get, Hids, (storedConfig_secrets E w w1 i Hs), Hget.
  by destruct (bool_decide _); [destruct (storedConfig E w i)|].
Qed.

Lemma activate_kept E w :
  let w' := (activate E w).2 in
  secrets w' = secrets w ∧ gs_clusterIds w' = gs_clusterIds w
  ∧ autoRefreshEnabled w' = gs_autoRefreshEnabled w
  ∧ refreshTimer w' = gs_autoRefreshEnabled w
  ∧ gs_autoRefreshEnabled w' = gs_autoRefreshEnabled w
  ∧ gs_connectedClusters w' ⊆ gs_connectedClusters w.
Proof.
  cbn zeta. rewrite activate_eq.
  destruct (constructor_spec E w)
    as (_ & _ & _ & _ & Hen & Htm & Hids & Hco & Hgs & _ & Hs & _).
  set (w1 := (constructor E w).2) in *. clearbody w1.
  destruct (loadClusters_frame E w1) as (cs & a & Hl).
  destruct (autoReconnectClusters_kept E (loadClusters E w1).2)
    as ((_ & Hids3 & Hen3 & Htm3 & Hgs3 & _) & Hs3 & Hsub).
  set (w3 := (autoReconnectClusters E (loadClusters E w1).2).2) in *.
  clearbody w3. cbn. rewrite Hs3, Hids3, Hen3, Htm3, Hgs3.
  revert Hsub. rewrite Hl. cbn. rewrite Hco, Hs, Hids, Hen, Htm, Hgs.
  by repeat split.
Qed.

(** X3.  Start-up rebuilds the profile table from the persisted state
    alone: after [activate] the table holds, for every id of the persisted
    list of known ids, the profile parsed from the payload stored under its
    config key, and no entry for an id that is not listed, has no payload,
    an empty one or one that does not parse.  Auto-refresh and its timer
    are as the persisted flag says; the secret storage, the list of known
    ids and the flag are not written, and the reconnect-set only
    shrinks. *)
Theorem startup_loads_stored_profiles (E : Env) (w : World) :
  let w' := (activate E w).2 in
  (∀ i, JsMap.get i (clusters w') =
          if bool_decide (i ∈ gs_clusterIds w) then storedConfig E w i
          else None)
  ∧ secrets w' = secrets w ∧ gs_clusterIds w' = gs_clusterIds w
  ∧ autoRefreshEnabled w' = gs_autoRefreshEnabled w
  ∧ refreshTimer w' = gs_autoRefreshEnabled w
  ∧ gs_autoRefreshEnabled w' = gs_autoRefreshEnabled w
  ∧ gs_connectedClusters w' ⊆ gs_connectedClusters w.
Proof.
  cbn zeta. split; [apply activate_get|apply activate_kept].
Qed.

(** X4.  A profile saved by [addCluster] comes back at the next start-up:
    when its serialised form is not empty and parses back to it, the
    profile table after [activate] holds it under its id. *)
Theorem added_profile_survives_restart (E : Env) (config : ClusterConfig.t)
    (w : World) :
  JSON_stringify E config ≠ EmptyString →
  JSON_parse E (JSON_stringify E config) = Some config →
  JsMap.get (ClusterConfig.id config)
    (clusters (activate E (addCluster E config w).2).2) = Some config.
Proof.
  intros Hne Hparse. rewrite activate_get, addCluster_world. cbn zeta.
  unfold storedConfig.
  destruct (includes (ClusterConfig.id config) (gs_clusterIds w)) eqn:Hinc;
    destruct (truthy (activeClusterId w)); cbn;
    rewrite lookup_insert_eq;
    (rewrite bool_decide_eq_true_2;
     [ apply String.eqb_neq in Hne; by rewrite Hne
     | first [ by apply includes_true
             | apply elem_of_app; right; by apply list_elem_of_singleton ] ]).
Qed.

Lemma added_profile_survives_restart_witness :
  JSON_stringify (Demo.envOpen "Yes") Demo.cfgA ≠ EmptyString
  ∧ JSON_parse (Demo.envOpen "Yes")
      (JSON_stringify (Demo.envOpen "Yes") Demo.cfgA) = Some Demo.cfgA
  ∧ JsMap.get "A"
      (clusters (activate (Demo.envOpen "Yes")
                   (addCluster (Demo.envOpen "Yes") Demo.cfgA emptyWorld).2).2)
    = Some Demo.cfgA.
Proof.
  assert (H1 : JSON_stringify (Demo.envOpen "Yes") Demo.cfgA ≠ EmptyString)
    by (by vm_compute).
  assert (H2 : JSON_parse (Demo.envOpen "Yes")
                 (JSON_stringify (Demo.envOpen "Yes") Demo.cfgA)
               = Some Demo.cfgA) by (by vm_compute).
  split; [exact H1|]. split; [exact H2|].
  exact (added_profile_survives_restart (Demo.envOpen "Yes") Demo.cfgA
           emptyWorld H1 H2).
Defined.

(** X5.  A removed profile does not come back: although [removeCluster]
    leaves its id in the persisted list of known ids, the profile table
    after the next [activate] has no entry for it. *)
Theorem removed_profile_stays_removed (E : Env) (clusterId : string)
    (w : World) :
  JsMap.get clusterId
    (clusters (activate E (removeCluster clusterId w).2).2) = None
  ∧ gs_clusterIds (activate E (removeCluster clusterId w).2).2 =
      gs_clusterIds w.
Proof.
  split.
  - rewrite activate_get. destruct (bool_decide _); [|done].
    unfold storedConfig. rewrite removeCluster_world. cbn zeta.
    assert (Hgone :
      delete (secretKey clusterId "apiKey")
        (delete (secretKey clusterId "password")
           (delete (secretKey clusterId "username")
              (delete (secretKey clusterId "config") (secrets w))))
        !! secretKey clusterId "config" = None).
    { rewrite !lookup_delete_ne
        by (apply secretKey_ne; eauto with fields; done).
      apply lookup_delete_eq. }
    destruct (bool_decide (activeClusterId w = Some clusterId)); cbn;
      by rewrite Hgone.
  - destruct (activate_kept E (removeCluster clusterId w).2) as (_ & -> & _).
    rewrite removeCluster_world. cbn zeta.
    destruct (bool_decide (activeClusterId w = Some clusterId)); reflexivity.
Qed.

(** X6.  The shape of a session is an invariant.  Started on persisted
    lists that hold no id twice, after [activate] and any sequence of the
    handlers: the profile table and the registry hold one entry per id,
    every handle belongs to a profile of the table, an interval is
    scheduled exactly while auto-refresh is enabled, and the persisted
    lists still hold no id twice. *)
Theorem session_keeps_shape (E : Env) (X : Platform)
    (invocations : list Invocation) (w : World) :
  NoDup (gs_clusterIds w) → NoDup (gs_connectedClusters w) →
  consistent (session E X invocations (activate E w).2).2.
Proof.
  intros Hi Hco. apply consistent_session.
  rewrite activate_eq. cbn zeta.
  apply consistent_events, consistent_autoReconnectClusters,
    consistent_loadClusters.
  by apply consistent_constructor.
Qed.

Lemma session_keeps_shape_witness :
  NoDup (gs_clusterIds Demo.stored)
  ∧ NoDup (gs_connectedClusters Demo.stored)
  ∧ consistent
      (session (Demo.envOpen "Remove") Workbench.platform
         [Run_connectToCluster "B"; Run_toggleAutoRefresh;
          Run_removeCluster "A"; IntervalElapsed]
         (activate (Demo.envOpen "Remove") Demo.stored).2).2.
Proof.
  assert (H1 : NoDup (gs_clusterIds Demo.stored)) by decide_closed.
  assert (H2 : NoDup (gs_connectedClusters Demo.stored)) by decide_closed.
  split; [exact H1|]. split; [exact H2|].
  exact (session_keeps_shape (Demo.envOpen "Remove") Workbench.platform
           [Run_connectToCluster "B"; Run_toggleAutoRefresh;
            Run_removeCluster "A"; IntervalElapsed] Demo.stored H1 H2).
Defined.

(** ** Auto-refresh *)

Lemma healthQueries_health (E : Env) (cs : list (string * Client)) (c0 : nat) :
  healthQueries (imap (healthEvent E c0) cs) =
    imap (λ i p, (p.1, bool_decide (is_Some (health E (c0 + i) p.2)))) cs.
Proof.
  revert c0. induction cs as [|p cs IH]; intros c0; [done|].
  simpl. unfold healthQueries in *. simpl. f_equal.
  rewrite (imap_ext _ (λ i p, (p.1, bool_decide
                                    (is_Some (health E (S c0 + i) p.2)))) cs)
    by (intros i x _; simpl; by rewrite Nat.add_succ_r).
  rewrite <- (IH (S c0)). f_equal. apply imap_ext.
  intros i x _. unfold healthEvent. simpl. by rewrite Nat.add_succ_r.
Qed.

Lemma refreshClusterHealth_events E w :
  events (refreshClusterHealth E w).2 =
    (events w ++ imap (healthEvent E (clock w)) (clients w) ++ [Fire])%list.
Proof.
  destruct (refreshLoop_spec E (clients w) w) as (He & _).
  unfold refreshClusterHealth, refresh. run. by rewrite He, <- app_assoc.
Qed.

(** X7.  [toggleAutoRefresh] flips the flag and keeps the persisted flag
    and the timer in step with it.  Switching on refreshes at once: one
    health query per handle of the registry, in its order, and one change
    event.  Switching off asks nothing and leaves the health cache as it
    is. *)
Theorem toggleAutoRefresh_flags (E : Env) (w : World) :
  let w' := (toggleAutoRefresh E w).2 in
  let log := emitted (toggleAutoRefresh E) w in
  autoRefreshEnabled w' = negb (autoRefreshEnabled w)
  ∧ gs_autoRefreshEnabled w' = autoRefreshEnabled w'
  ∧ refreshTimer w' = autoRefreshEnabled w'
  ∧ healthQueries log =
      (if autoRefreshEnabled w then []
       else imap (λ i p, (p.1, bool_decide
                                 (is_Some (health E (clock w + i) p.2))))
                 (clients w))
  ∧ count_fires log = (if autoRefreshEnabled w then 0 else 1)%nat
  ∧ (autoRefreshEnabled w = true → clusterHealth w' = clusterHealth w).
Proof.
  cbn zeta. unfold emitted. rewrite toggleAutoRefresh_eq.
  destruct (autoRefreshEnabled w) eqn:Hen.
  - cbn. rewrite drop_app_length. by repeat split.
  - match goal with |- context [refreshClusterHealth E ?x] =>
      set (w1 := x) end.
    destruct (refreshClusterHealth_world E w1) as (h & e & c & Hw).
    assert (He : events (refreshClusterHealth E w1).2 =
              (events w ++
                 InformationMessage
                   "Auto-refresh enabled: Health status will update every 60 seconds"
                 :: imap (healthEvent E (clock w)) (clients w) ++ [Fire])%list).
    { rewrite refreshClusterHealth_events. subst w1. cbn.
      by rewrite <- !app_assoc. }
    rewrite He, drop_app_length. rewrite Hw. subst w1.
    match goal with |- context [?m :: imap ?f ?l ++ [Fire]] =>
      change (m :: imap f l ++ [Fire])%list
        with ([m] ++ imap f l ++ [Fire])%list end.
    rewrite !healthQueries_app, healthQueries_health, !count_fires_app,
      count_fires_health, app_nil_r.
    by repeat split.
Qed.

(** ** Connecting, continued *)

Lemma truthy_nonempty (s : string) : s ≠ EmptyString → truthy (Some s) = true.
Proof. intros Hne. cbn. apply String.eqb_neq in Hne. by rewrite Hne. Qed.

(** What a failed and what a successful interactive connect leave. *)
Lemma connectToCluster_outcome E clusterId w :
  let r := connectToCluster E clusterId w in
  (r.1 = false →
     clients r.2 = clients w ∧ activeClusterId r.2 = activeClusterId w
     ∧ clusterHealth r.2 = clusterHealth w
     ∧ gs_connectedClusters r.2 = gs_connectedClusters w)
  ∧ (r.1 = true →
     activeClusterId r.2 = Some clusterId
     ∧ is_Some (JsMap.get clusterId (clients r.2))
     ∧ is_Some (JsMap.get clusterId (clusters w))).
Proof.
  cbn zeta. destruct (JsMap.get clusterId (clusters w)) as [config|] eqn:Hget.
  2: { rewrite connectToCluster_unknown by done. by split. }
  rewrite (connectToCluster_eq E clusterId config w Hget). cbn zeta.
  destruct (promptForCredentials_frame E clusterId config w)
    as (Hsame & _ & _).
  destruct Hsame as (_ & Hcl & Hh & Ha & _ & _ & _ & Hco & _).
  destruct (promptForCredentials E clusterId config w) as [ready w1].
  cbn [fst snd] in *. destruct ready; cbn [fst snd]; [|by split].
  rewrite buildClientOptions_world.
  set (w2 := if truthy_bool (ClusterConfig.disableSSL config)
             then set_NODE_TLS_REJECT_UNAUTHORIZED (Some "0") w1 else w1).
  assert (Hw2 : clients w2 = clients w1
                ∧ gs_connectedClusters w2 = gs_connectedClusters w1
                ∧ clusterHealth w2 = clusterHealth w1
                ∧ activeClusterId w2 = activeClusterId w1).
  { subst w2. by destruct (truthy_bool _). }
  destruct Hw2 as (Hc2 & Hco2 & Hh2 & Ha2).
  destruct (ping E (clock w2) _) as [|message]; cbn.
  - rewrite fetchHealth_world, saveConnectedCluster_world. cbn.
    split; [done|]. intros _.
    destruct (includes _ _); cbn; rewrite JsMap_get_set_eq; by repeat split.
  - split; [|done]. intros _. by rewrite Hc2, Hco2, Hh2, Ha2.
Qed.

(** With the credentials at hand a connect asks nothing. *)
Lemma connectToCluster_quiet E clusterId config w :
  JsMap.get clusterId (clusters w) = Some config →
  credentialsMissing clusterId config w = false →
  prompts (emitted (connectToCluster E clusterId) w) = [].
Proof.
  intros Hget Hready. unfold emitted.
  rewrite (connectToCluster_eq E clusterId config w Hget). cbn zeta.
  rewrite (promptForCredentials_ready E clusterId config w Hready).
  cbn [fst snd]. rewrite buildClientOptions_world.
  set (w2 := if truthy_bool (ClusterConfig.disableSSL config)
             then set_NODE_TLS_REJECT_UNAUTHORIZED (Some "0") w else w).
  assert (He2 : events w2 = events w)
    by (subst w2; by destruct (truthy_bool _)).
  destruct (ping E (clock w2) _) as [|message]; cbn.
  - rewrite fetchHealth_world, saveConnectedCluster_world. cbn.
    destruct (includes _ _); cbn;
      by rewrite He2, <- !app_assoc, drop_app_length.
  - by rewrite He2, <- !app_assoc, drop_app_length.
Qed.

(** The prompts of a Basic profile without stored credentials, answered. *)
Lemma promptForCredentials_typed E clusterId config username password w :
  ClusterConfig.authMethod config = BASIC →
  credentialsMissing clusterId config w = true →
  showInputBox E (clock w) ("Username for " +:+ ClusterConfig.name config)
    = Some username →
  showInputBox E (S (clock w)) "Password" = Some password →
  username ≠ EmptyString → password ≠ EmptyString →
  promptForCredentials E clusterId config w =
    (true,
     set_secrets
       (<[secretKey clusterId "password" := password]>
          (<[secretKey clusterId "username" := username]> (secrets w)))
       (set_events
          (events w ++
             [InputBox ("Username for " +:+ ClusterConfig.name config);
              InputBox "Password"])
          (set_clock (S (S (clock w))) w))).
Proof.
  intros Hm Hmiss Hu Hp Hune Hpne.
  unfold credentialsMissing in Hmiss. unfold promptForCredentials.
  rewrite Hm in *. rewrite String.eqb_refl in *.
  apply negb_true_iff in Hmiss.
  unfold secrets_get, secrets_store, askInputBox. run.
  rewrite Hmiss. cbn. rewrite Hu. rewrite (truthy_nonempty _ Hune). cbn.
  rewrite Hp. rewrite (truthy_nonempty _ Hpne). cbn.
  by rewrite <- app_assoc.
Qed.

(** X8.  Credentials typed at the prompts of [connectToCluster] are stored
    before the probe: for a Basic profile without stored credentials whose
    user answers both prompts, the probe carries what was typed, and
    whether it succeeds or fails the user name and the password are in the
    secret storage afterwards, so that the next [connectToCluster] on the
    resulting state asks nothing. *)
Theorem typed_credentials_are_stored (E : Env) (clusterId : string)
    (config : ClusterConfig.t) (username password : string) (w : World) :
  JsMap.get clusterId (clusters w) = Some config →
  ClusterConfig.authMethod config = BASIC →
  credentialsMissing clusterId config w = true →
  showInputBox E (clock w) ("Username for " +:+ ClusterConfig.name config)
    = Some username →
  showInputBox E (S (clock w)) "Password" = Some password →
  username ≠ EmptyString → password ≠ EmptyString →
  let r := connectToCluster E clusterId w in
  secrets r.2 !! secretKey clusterId "username" = Some username
  ∧ secrets r.2 !! secretKey clusterId "password" = Some password
  ∧ (∃ opts, pings (emitted (connectToCluster E clusterId) w) = [(opts, r.1)]
             ∧ auth opts = Some (BasicAuth username password))
  ∧ prompts (emitted (connectToCluster E clusterId) r.2) = [].
Proof.
  intros Hget Hm Hmiss Hu Hp Hune Hpne. cbn zeta.
  assert (Hkey : secretKey clusterId "password" ≠ secretKey clusterId "username")
    by (apply secretKey_ne; eauto with fields; done).
  destruct (connectToCluster_frame E clusterId w) as (Hcl & _).
  assert (Hsec : secrets (connectToCluster E clusterId w).2 !!
                   secretKey clusterId "username" = Some username
                 ∧ secrets (connectToCluster E clusterId w).2 !!
                     secretKey clusterId "password" = Some password
                 ∧ ∃ opts,
                     pings (emitted (connectToCluster E clusterId) w) =
                       [(opts, (connectToCluster E clusterId w).1)]
                     ∧ auth opts = Some (BasicAuth username password)).
  { unfold emitted.
    rewrite (connectToCluster_eq E clusterId config w Hget). cbn zeta.
    rewrite (promptForCredentials_typed E clusterId config username password
               w Hm Hmiss Hu Hp Hune Hpne). cbn [fst snd].
    set (w1 := set_secrets _ _).
    assert (Hs1 : secrets w1 !! secretKey clusterId "username" = Some username
                  ∧ secrets w1 !! secretKey clusterId "password" = Some password).
    { subst w1. cbn. rewrite lookup_insert_eq, lookup_insert_ne by done.
      by rewrite lookup_insert_eq. }
    destruct Hs1 as (Hsu & Hsp).
    assert (He1 : events w1 =
              (events w ++
                 [InputBox ("Username for " +:+ ClusterConfig.name config);
                  InputBox "Password"])%list) by done.
    clearbody w1.
    assert (Hauth : auth (buildClientOptions clusterId config w1).1 =
                    Some (BasicAuth username password)).
    { rewrite buildClientOptions_auth. unfold loadAuth, secrets_get.
      rewrite Hm, String.eqb_refl. run. rewrite Hsu, Hsp.
      by rewrite (truthy_nonempty _ Hune), (truthy_nonempty _ Hpne). }
    rewrite buildClientOptions_world.
    set (opts := (buildClientOptions clusterId config w1).1) in *.
    set (w2 := if truthy_bool (ClusterConfig.disableSSL config)
               then set_NODE_TLS_REJECT_UNAUTHORIZED (Some "0") w1 else w1).
    assert (Hw2 : events w2 = events w1 ∧ secrets w2 = secrets w1)
      by (subst w2; by destruct (truthy_bool _)).
    destruct Hw2 as (He2 & Hs2).
    clearbody opts.
    destruct (ping E (clock w2) opts) as [|message]; cbn.
    - rewrite fetchHealth_world, saveConnectedCluster_world. cbn.
      destruct (includes _ _); cbn; rewrite Hs2, He2, He1, <- !app_assoc,
        drop_app_length; (split; [done|split; [done|by exists opts]]).
    - rewrite Hs2, He2, He1, <- !app_assoc, drop_app_length.
      split; [done|split; [done|by exists opts]]. }
  destruct Hsec as (Hsu & Hsp & Hping).
  repeat split; try done.
  apply (connectToCluster_quiet E clusterId config).
  - by rewrite Hcl.
  - unfold credentialsMissing. rewrite Hm, String.eqb_refl, Hsu, Hsp.
    by rewrite (truthy_nonempty _ Hune), (truthy_nonempty _ Hpne).
Qed.

Lemma typed_credentials_are_stored_witness :
  let E := Demo.envDown in
  JsMap.get "B" (clusters Demo.loaded) = Some Demo.cfgB
  ∧ ClusterConfig.authMethod Demo.cfgB = BASIC
  ∧ credentialsMissing "B" Demo.cfgB Demo.loaded = true
  ∧ showInputBox E (clock Demo.loaded)
      ("Username for " +:+ ClusterConfig.name Demo.cfgB) = Some "elastic"
  ∧ showInputBox E (S (clock Demo.loaded)) "Password" = Some "changeme"
  ∧ (connectToCluster E "B" Demo.loaded).1 = false
  ∧ secrets (connectToCluster E "B" Demo.loaded).2 !! secretKey "B" "password"
    = Some "changeme".
Proof.
  cbn zeta.
  assert (H1 : JsMap.get "B" (clusters Demo.loaded) = Some Demo.cfgB)
    by by_computation.
  assert (H2 : ClusterConfig.authMethod Demo.cfgB = BASIC) by reflexivity.
  assert (H3 : credentialsMissing "B" Demo.cfgB Demo.loaded = true)
    by by_computation.
  assert (H4 : showInputBox Demo.envDown (clock Demo.loaded)
                 ("Username for " +:+ ClusterConfig.name Demo.cfgB)
               = Some "elastic") by by_computation.
  assert (H5 : showInputBox Demo.envDown (S (clock Demo.loaded)) "Password"
               = Some "changeme") by by_computation.
  split; [exact H1|]. split; [exact H2|]. split; [exact H3|].
  split; [exact H4|]. split; [exact H5|]. split; [by_computation|].
  refine (proj1 (proj2 (typed_credentials_are_stored Demo.envDown "B"
                          Demo.cfgB "elastic" "changeme" Demo.loaded
                          H1 H2 H3 H4 H5 _ _))); done.
Defined.

Lemma esExt_selectCluster_eq E clusterId w :
  (esExt_selectCluster E clusterId w).2 =
    let r := connectToCluster E clusterId (setActiveCluster clusterId w).2 in
    set_events
      (events r.2 ++
         [if r.1
          then InformationMessage (connectedMessage (getActiveCluster r.2).1)
          else ErrorMessage "Failed to connect to cluster"]) r.2.
Proof.
  unfold esExt_selectCluster. unfold mbind, M_bind. cbn [fst snd].
  destruct (connectToCluster E clusterId (setActiveCluster clusterId w).2)
    as [[] w1]; cbn [fst snd]; [|reflexivity].
  unfold getActiveCluster, showInformationMessage. run.
  by destruct (truthy _).
Qed.

(** X9.  [esExt.selectCluster] moves the active pointer before it
    connects: afterwards the pointer is on the selected id whether or not
    the connection succeeded, also for an id that has no profile.  When the
    connection fails the registry is what it was, so the active client is
    the handle that the id had before, if any, and the handler ends with its
    error message. *)
Theorem selectCluster_moves_pointer_first (E : Env) (clusterId : string)
    (w : World) :
  let w' := (esExt_selectCluster E clusterId w).2 in
  let attempt := connectToCluster E clusterId (setActiveCluster clusterId w).2 in
  activeClusterId w' = Some clusterId
  ∧ (attempt.1 = false →
     clients w' = clients w
     ∧ last (events w') = Some (ErrorMessage "Failed to connect to cluster"))
  ∧ (JsMap.get clusterId (clusters w) = None → attempt.1 = false).
Proof.
  cbn zeta. rewrite esExt_selectCluster_eq. cbn zeta.
  set (w0 := (setActiveCluster clusterId w).2).
  assert (Hw0 : activeClusterId w0 = Some clusterId ∧ clients w0 = clients w
                ∧ clusters w0 = clusters w) by done.
  destruct Hw0 as (Ha0 & Hc0 & Hcl0). clearbody w0.
  destruct (connectToCluster_outcome E clusterId w0) as (Hfail & Hok).
  split; [|split].
  - cbn. destruct (connectToCluster E clusterId w0) as [[] w1];
      cbn [fst snd] in *.
    + by destruct (Hok eq_refl) as (Ha & _).
    + destruct (Hfail eq_refl) as (_ & Ha & _). by rewrite Ha.
  - intros Hf. destruct (Hfail Hf) as (Hc & _). rewrite Hf. cbn.
    split; [by rewrite Hc|apply last_snoc].
  - intros Hnone. rewrite connectToCluster_unknown by (by rewrite Hcl0). done.
Qed.

(** X10.  [disconnectFromCluster] undoes a connection and nothing more: the
    handle, the health snapshot and the membership in the reconnect-set of
    the id are gone, those of every other id are what they were, and the
    profile table, the stored secrets and the list of known ids are not
    touched.  A pointer on the id is cleared, not moved to another
    profile, so that no client is active afterwards even when other
    profiles are connected. *)
Theorem disconnect_undoes_connection (clusterId : string) (w : World) :
  let w' := (disconnectFromCluster clusterId w).2 in
  JsMap.get clusterId (clients w') = None
  ∧ clusterHealth w' !! clusterId = None
  ∧ (clusterId ∉ gs_connectedClusters w')
  ∧ (∀ other, other ≠ clusterId →
       JsMap.get other (clients w') = JsMap.get other (clients w)
       ∧ clusterHealth w' !! other = clusterHealth w !! other
       ∧ (other ∈ gs_connectedClusters w' ↔ other ∈ gs_connectedClusters w))
  ∧ clusters w' = clusters w ∧ secrets w' = secrets w
  ∧ gs_clusterIds w' = gs_clusterIds w
  ∧ activeClusterId w' =
      (if bool_decide (activeClusterId w = Some clusterId) then None
       else activeClusterId w)
  ∧ (activeClusterId w = Some clusterId → (getActiveClient w').1 = None).
Proof.
  cbn zeta. rewrite disconnectFromCluster_world. cbn zeta.
  unfold getActiveClient.
  case_bool_decide as Ha; cbn;
    (split; [apply JsMap_get_delete_eq|]);
    (split; [apply lookup_delete_eq|]);
    (split; [by intros [? _]%list_elem_of_filter|]);
    (split; [|by repeat split]);
    intros other Hne;
    (split; [by apply JsMap_get_delete_ne|]);
    (split; [by apply lookup_delete_ne|]);
    rewrite list_elem_of_filter; (split; [by intros [_ ?]|by split]).
Qed.

(** X11.  The reconnect run of start-up leaves in the reconnect-set only
    ids that were in it, have a profile and now have a handle; an id whose
    profile is gone is dropped.  On an empty reconnect-set it does nothing
    at all, not even a message. *)
Theorem autoReconnect_keeps_connected_ids (E : Env) (w : World) :
  let w' := (autoReconnectClusters E w).2 in
  (gs_connectedClusters w = [] → w' = w)
  ∧ (∀ i, i ∈ gs_connectedClusters w' →
       i ∈ gs_connectedClusters w
       ∧ is_Some (JsMap.get i (clusters w))
       ∧ is_Some (JsMap.get i (clients w')))
  ∧ (∀ i, JsMap.get i (clusters w) = None → i ∉ gs_connectedClusters w').
Proof.
  cbn zeta.
  assert (Hkeep : ∀ i, i ∈ gs_connectedClusters (autoReconnectClusters E w).2 →
            i ∈ gs_connectedClusters w
            ∧ is_Some (JsMap.get i (clusters w))
            ∧ is_Some (JsMap.get i (clients (autoReconnectClusters E w).2))).
  { destruct (decide (gs_connectedClusters w = [])) as [Hnil|Hne].
    - unfold autoReconnectClusters. run. rewrite Hnil. cbn. rewrite Hnil.
      by intros i ?%elem_of_nil.
    - rewrite autoReconnectClusters_eq by done. cbn zeta. cbn.
      destruct (reconnectLoop_inv E (gs_connectedClusters w) 0 0 w)
        as (_ & _ & _ & _ & Hsub & _ & _ & Hkept).
      intros i Hi. pose proof (Hsub i Hi) as Hin.
      destruct (Hkept i Hin Hi) as (config & o & Hc & Ho & _).
      split; [done|]. by rewrite Hc, Ho. }
  split; [|split; [exact Hkeep|]].
  - intros Hnil. unfold autoReconnectClusters. run. by rewrite Hnil.
  - intros i Hnone Hi. destruct (Hkeep i Hi) as (_ & [c Hc] & _). congruence.
Qed.

(** ** The add flow and import *)

(** X12.  The add flow saves nothing unless it probes: when its log shows
    no probe (a prompt was dismissed), the profile table, the registry, the
    persisted lists, the stored secrets and the process-wide TLS switch are
    what they were. *)
Theorem add_flow_without_probe_saves_nothing (E : Env) (w : World) :
  pings (emitted (esExt_addCluster E) w) = [] →
  untouched w (esExt_addCluster E w).2
  ∧ secrets (esExt_addCluster E w).2 = secrets w.
Proof.
  unfold emitted.
  apply (esExt_addCluster_cases E w
           (λ r, pings (drop (length (events w)) (events r.2)) = [] →
                 untouched w r.2 ∧ secrets r.2 = secrets w)); cbn [snd].
  - intros w' (Hu & Hs & _) _. by split.
  - intros w5 name deploymentType target authMethod credentials
      insecure (_ & _ & l0 & He & _) Hp. exfalso.
    destruct (testConnectionAndSave_log E
                ("cluster-" +:+ pretty (now E (clock w))) name deploymentType
                target authMethod credentials insecure
                (if insecure
                 then set_NODE_TLS_REJECT_UNAUTHORIZED (Some "0") w5
                 else w5)) as [l Hl].
    rewrite Hl in Hp.
    assert (He' : events (if insecure
                          then set_NODE_TLS_REJECT_UNAUTHORIZED (Some "0") w5
                          else w5) = (events w ++ l0)%list)
      by (by destruct insecure).
    rewrite He', <- app_assoc, drop_app_length, pings_app in Hp.
    apply app_eq_nil in Hp as [_ Hp]. discriminate Hp.
Qed.

Lemma add_flow_without_probe_saves_nothing_witness :
  pings (emitted (esExt_addCluster Demo.envSecured) Demo.loaded) = []
  ∧ secrets (esExt_addCluster Demo.envSecured Demo.loaded).2
    = secrets Demo.loaded.
Proof.
  assert (H : pings (emitted (esExt_addCluster Demo.envSecured) Demo.loaded)
              = []) by by_computation.
  split; [exact H|].
  exact (proj2 (add_flow_without_probe_saves_nothing Demo.envSecured
                  Demo.loaded H)).
Defined.

(** The counts of the import loop only grow, and by no more than the
    number of entries. *)
Lemma importLoop_counts E entries : ∀ importedCount skippedCount w,
  let r := importLoop E entries importedCount skippedCount w in
  (importedCount ≤ (loopCounts r.1).1)%nat
  ∧ (skippedCount ≤ (loopCounts r.1).2)%nat
  ∧ ((loopCounts r.1).1 + (loopCounts r.1).2
     ≤ importedCount + skippedCount + length entries)%nat.
Proof.
  induction entries as [|[e|] entries IH]; intros ic sc w; cbn zeta.
  - run. repeat split; lia.
  - cbn [importLoop length]. destruct (missingRequired e).
    { destruct (IH ic (S sc) w) as (H1 & H2 & H3). repeat split; lia. }
    unfold mbind, M_bind, gets. cbn [fst snd].
    destruct (findByName _ _) as [existing|].
    + rewrite askWarning_eq. cbn [fst snd].
      case_bool_decide; [run; repeat split; lia|]. case_bool_decide.
      * match goal with |- context [importLoop E entries ic (S sc) ?x] =>
          destruct (IH ic (S sc) x) as (H1 & H2 & H3) end.
        repeat split; lia.
      * match goal with |- context [importLoop E entries (S ic) sc ?x] =>
          destruct (IH (S ic) sc x) as (H1 & H2 & H3) end.
        repeat split; lia.
    + match goal with |- context [importLoop E entries (S ic) sc ?x] =>
        destruct (IH (S ic) sc x) as (H1 & H2 & H3) end.
      repeat split; lia.
  - cbn. repeat split; lia.
Qed.

Lemma credentialFields_secretFields f :
  f ∈ credentialFields → f ∈ secretFields.
Proof.
  unfold credentialFields, secretFields.
  intros Hf. repeat (apply elem_of_cons in Hf as [->|Hf]);
    [..|by apply elem_of_nil in Hf]; set_solver.
Qed.

Lemma importLoop_overwrite E e rest importedCount skippedCount w existing :
  missingRequired e = false →
  findByName (ClusterExportData.name e) (clusters w) = Some existing →
  showWarningChoice E (clock w) (collisionWarning e) ≠ Some "Cancel" →
  showWarningChoice E (clock w) (collisionWarning e) ≠ Some "No" →
  importLoop E (Some e :: rest) importedCount skippedCount w =
    importLoop E rest (S importedCount) skippedCount
      (importEntry E e
         (removeCluster (ClusterConfig.id existing)
            (askWarning E (collisionWarning e) w).2).2).2.
Proof.
  intros Hmiss Hfind Hc Hn. cbn [importLoop]. rewrite Hmiss.
  unfold mbind, M_bind, gets. cbn [fst snd]. rewrite Hfind.
  rewrite askWarning_eq. cbn [fst snd].
  by rewrite !bool_decide_eq_false_2 by done.
Qed.

(** X13.  Overwriting on import costs the stored credentials.  When an
    entry names an existing profile and the answer to the question is
    neither [Cancel] nor [No] (a dismissed question counts), the existing
    profile is removed and the entry imported under a new id; after the
    import no credential field of the old id is stored, and the entry is
    counted as imported, whatever the entries after it are. *)
Theorem import_overwrite_drops_credentials (E : Env)
    (e : ClusterExportData.t) (rest : list (option ClusterExportData.t))
    (importedCount skippedCount : nat) (w : World)
    (existing : ClusterConfig.t) :
  missingRequired e = false →
  findByName (ClusterExportData.name e) (clusters w) = Some existing →
  showWarningChoice E (clock w) (collisionWarning e) ≠ Some "Cancel" →
  showWarningChoice E (clock w) (collisionWarning e) ≠ Some "No" →
  let r := importLoop E (Some e :: rest) importedCount skippedCount w in
  (∀ f, f ∈ credentialFields →
        secrets r.2 !! secretKey (ClusterConfig.id existing) f = None)
  ∧ (S importedCount ≤ (loopCounts r.1).1)%nat.
Proof.
  intros Hmiss Hfind Hc Hn. cbn zeta.
  rewrite (importLoop_overwrite E e rest importedCount skippedCount w existing)
    by done.
  set (w1 := (askWarning E (collisionWarning e) w).2).
  set (w2 := (removeCluster (ClusterConfig.id existing) w1).2).
  set (w3 := (importEntry E e w2).2).
  split.
  - intros f Hf.
    destruct (secrets (importLoop E rest (S importedCount) skippedCount w3).2
                !! secretKey (ClusterConfig.id existing) f) as [v|] eqn:Hv;
      [|done].
    apply importLoop_credentials in Hv; [|done].
    subst w3. rewrite importEntry_credentials in Hv by done.
    subst w2. rewrite removeCluster_own_secrets in Hv; [done|].
    by apply credentialFields_secretFields.
  - pose proof (importLoop_counts E rest (S importedCount) skippedCount w3)
      as (Hle & _). exact Hle.
Qed.

Lemma import_overwrite_drops_credentials_witness :
  let E := Demo.envSecured in
  let e := {| ClusterExportData.doc_id := None;
              ClusterExportData.name := Some "Alpha";
              ClusterExportData.deploymentType := Some "Elastic Cloud";
              ClusterExportData.nodeUrl := None;
              ClusterExportData.cloudId := Some "alpha:dXM=";
              ClusterExportData.authMethod := Some "API Key";
              ClusterExportData.disableSSL := None |} in
  missingRequired e = false
  ∧ findByName (ClusterExportData.name e) (clusters Demo.loaded)
    = Some Demo.cfgA
  ∧ showWarningChoice E (clock Demo.loaded) (collisionWarning e) = None
  ∧ secrets Demo.loaded !! secretKey "A" "password" = Some "changeme"
  ∧ secrets (importLoop E [Some e] 0 0 Demo.loaded).2
      !! secretKey "A" "password"
    = None.
Proof.
  cbn zeta. split; [by_computation|]. split; [by_computation|].
  split; [by_computation|]. split; [by_computation|].
  refine (proj1 (import_overwrite_drops_credentials Demo.envSecured _ [] 0 0
                   Demo.loaded Demo.cfgA _ _ _ _) "password" _).
  - by_computation.
  - by_computation.
  - by vm_compute.
  - by vm_compute.
  - unfold credentialFields. set_solver.
Defined.

(** ** Export and import *)

Lemma JsMap_set_fresh {V : Type} (k : string) (v : V) (m : list (string * V)) :
  k ∉ JsMap.keys m → JsMap.set k v m = (m ++ [(k, v)])%list.
Proof.
  induction m as [|[k' v'] m IH]; cbn; [done|].
  intros Hk. apply not_elem_of_cons in Hk as [Hne Hk].
  apply String.eqb_neq in Hne. rewrite Hne. by rewrite IH.
Qed.

Lemma findByName_None (n : option string) (cs : list (string * ClusterConfig.t)) :
  (∀ c, c ∈ JsMap.values cs → Some (ClusterConfig.name c) ≠ n) →
  findByName n cs = None.
Proof.
  unfold findByName. induction (JsMap.values cs) as [|c l IH]; [done|].
  intros Hall. cbn. rewrite bool_decide_eq_false_2 by (apply Hall; by left).
  apply IH. intros c' Hc'. apply Hall. by right.
Qed.

Lemma newClusterConfig_exported (newId : string) (c : ClusterConfig.t) :
  newClusterConfig newId (exportedCluster c) = withId newId c.
Proof. reflexivity. Qed.

Lemma missingRequired_exported (c : ClusterConfig.t) :
  importable c → missingRequired (exportedCluster c) = false.
Proof.
  intros (Hn & Hd & Ha). unfold missingRequired. cbn [exportedCluster
    ClusterExportData.name ClusterExportData.deploymentType
    ClusterExportData.authMethod].
  by rewrite !truthy_nonempty.
Qed.

(** Importing exported profiles whose names and new ids collide with
    nothing: every entry is appended to the table under its new id. *)
Lemma importLoop_exported E cs : ∀ importedCount skippedCount w,
  Forall importable cs →
  NoDup (ClusterConfig.name <$> cs) →
  (∀ c c', c ∈ cs → c' ∈ JsMap.values (clusters w) →
           ClusterConfig.name c' ≠ ClusterConfig.name c) →
  NoDup (generatedId E <$> seq (clock w) (length cs)) →
  (∀ t, t ∈ seq (clock w) (length cs) →
        generatedId E t ∉ JsMap.keys (clusters w)) →
  let r := importLoop E (Some <$> (exportedCluster <$> cs))
             importedCount skippedCount w in
  r.1 = Completed (importedCount + length cs) skippedCount
  ∧ clusters r.2 =
      (clusters w ++
       imap (λ k c, (generatedId E (clock w + k),
                     withId (generatedId E (clock w + k)) c)) cs)%list
  ∧ events r.2 = (events w ++ replicate (length cs) Fire)%list
  ∧ (∀ i f, f ∈ credentialFields →
            secrets r.2 !! secretKey i f = secrets w !! secretKey i f).
Proof.
  induction cs as [|c cs IH]; intros ic sc w Himp Hnames Hold Hids Hfresh;
    cbn zeta.
  - cbn. rewrite Nat.add_0_r, !app_nil_r. by repeat split.
  - apply Forall_cons in Himp as [Hc Himp].
    rewrite fmap_cons in Hnames. apply NoDup_cons in Hnames as [Hname Hnames].
    cbn [length seq] in Hids, Hfresh. rewrite fmap_cons in Hids.
    apply NoDup_cons in Hids as [Hid Hids].
    rewrite !fmap_cons. cbn [importLoop].
    rewrite (missingRequired_exported c Hc).
    unfold mbind, M_bind, gets. cbn [fst snd].
    rewrite findByName_None.
    2: { intros c' Hc' [= Heq]. by apply (Hold c c'); [left| |]. }
    cbn [fst snd].
    set (w1 := (importEntry E (exportedCluster c) w).2).
    assert (Hw1 : clusters w1 =
                    (clusters w ++ [(generatedId E (clock w),
                                     withId (generatedId E (clock w)) c)])%list
                  ∧ clock w1 = S (clock w)
                  ∧ events w1 = (events w ++ [Fire])%list).
    { subst w1. rewrite importEntry_world, addCluster_world. cbn zeta.
      rewrite newClusterConfig_exported.
      cbn [ClusterConfig.id withId].
      destruct (includes _ _); destruct (truthy _); cbn;
        (rewrite JsMap_set_fresh by (apply Hfresh; by left)); done. }
    destruct Hw1 as (Hcl1 & Hck1 & Hev1).
    assert (Hsec1 : ∀ i f, f ∈ credentialFields →
              secrets w1 !! secretKey i f = secrets w !! secretKey i f).
    { intros i f Hf. subst w1. by apply importEntry_credentials. }
    clearbody w1.
    destruct (IH (S ic) sc w1) as (Hr & Hcl & Hev & Hsec); try done.
    + intros c2 c' Hc2 Hc'. rewrite Hcl1 in Hc'. unfold JsMap.values in Hc'.
      rewrite fmap_app in Hc'. apply elem_of_app in Hc' as [Hc'|Hc'].
      * apply (Hold c2 c'); [by right|done].
      * cbn in Hc'. apply list_elem_of_singleton in Hc' as ->. cbn.
        intros Heq. apply Hname. rewrite Heq.
        by apply list_elem_of_fmap_2.
    + by rewrite Hck1.
    + intros t Ht. rewrite Hck1 in Ht. rewrite Hcl1. unfold JsMap.keys.
      rewrite fmap_app. intros [Hin|Hin]%elem_of_app.
      * by apply (Hfresh t); [right|].
      * cbn in Hin. apply list_elem_of_singleton in Hin.
        apply Hid. rewrite <- Hin. by apply list_elem_of_fmap_2.
    + split; [|split; [|split]].
      * rewrite Hr. cbn. f_equal. lia.
      * rewrite Hcl, Hcl1, Hck1, <- app_assoc. cbn. f_equal.
        rewrite Nat.add_0_r. f_equal. apply imap_ext. intros k x _. cbn.
        by rewrite Nat.add_succ_r.
      * rewrite Hev, Hev1, <- app_assoc. done.
      * intros i f Hf. rewrite Hsec by done. by apply Hsec1.
Qed.

(** X14.  Export and import are a round trip on profiles.  The file that
    [exportClusters] writes lists the profiles of the table in its order.
    Importing that list into a session with an empty table, when the names
    are distinct and pass the validation of the import and the ids
    generated are distinct, imports every entry and skips none, asks
    nothing, and rebuilds the table value for value and in order, each
    profile under its new id; no credential field is written. *)
Theorem export_then_import_restores_profiles (E : Env) (X : Platform)
    (w w0 : World) :
  let profiles := JsMap.values (clusters w) in
  clusters w0 = [] →
  Forall importable profiles →
  NoDup (ClusterConfig.name <$> profiles) →
  NoDup (generatedId E <$> seq (clock w0) (length profiles)) →
  let r := importLoop E (Some <$> (exportedCluster <$> profiles)) 0 0 w0 in
  (∀ file, (exportClusters E X w).1 = Some file →
           export_clusters (written file) = exportedCluster <$> profiles)
  ∧ r.1 = Completed (length profiles) 0
  ∧ JsMap.values (clusters r.2) =
      imap (λ k c, withId (generatedId E (clock w0 + k)) c) profiles
  ∧ events r.2 = (events w0 ++ replicate (length profiles) Fire)%list
  ∧ (∀ i f, f ∈ credentialFields →
            secrets r.2 !! secretKey i f = secrets w0 !! secretKey i f).
Proof.
  cbn zeta. intros Hempty Himp Hnames Hids. split.
  - intros file. unfold exportClusters, showInformationMessage,
      showErrorMessage. run.
    destruct (length (clusters w) =? 0)%nat; cbn; [done|].
    destruct (showSaveDialog X _ _); cbn; [|done].
    destruct (writeFile X _ _); cbn; [|done].
    by intros [= <-].
  - destruct (importLoop_exported E (JsMap.values (clusters w)) 0 0 w0)
      as (Hr & Hcl & Hev & Hsec); try done.
    + intros c c' _. rewrite Hempty. by intros ?%elem_of_nil.
    + intros t _. rewrite Hempty. by intros ?%elem_of_nil.
    + split; [exact Hr|]. split; [|by split].
      rewrite Hcl, Hempty. cbn. unfold JsMap.values.
      rewrite fmap_imap. apply imap_ext. by intros k x _.
Qed.

Lemma export_then_import_restores_profiles_witness :
  let E := Demo.envOpen "Yes" in
  clusters emptyWorld = []
  ∧ Forall importable (JsMap.values (clusters Demo.loaded))
  ∧ NoDup (ClusterConfig.name <$> JsMap.values (clusters Demo.loaded))
  ∧ NoDup (generatedId E <$>
             seq (clock emptyWorld)
                 (length (JsMap.values (clusters Demo.loaded))))
  ∧ JsMap.values
      (clusters
         (importLoop E
            (Some <$> (exportedCluster <$> JsMap.values (clusters Demo.loaded)))
            0 0 emptyWorld).2) =
    [withId "cluster_1000_k3x9q2m7w" Demo.cfgA;
     withId "cluster_1001_k3x9q2m7w" Demo.cfgB].
Proof.
  cbn zeta.
  assert (H1 : Forall importable (JsMap.values (clusters Demo.loaded))).
  { repeat apply Forall_cons_2; [..|apply Forall_nil_2];
      by repeat split. }
  assert (H2 : NoDup (ClusterConfig.name <$>
                        JsMap.values (clusters Demo.loaded)))
    by decide_closed.
  assert (H3 : NoDup (generatedId (Demo.envOpen "Yes") <$>
                        seq (clock emptyWorld)
                          (length (JsMap.values (clusters Demo.loaded)))))
    by decide_closed.
  split; [reflexivity|]. split; [exact H1|]. split; [exact H2|].
  split; [exact H3|].
  refine (eq_trans
            (proj1 (proj2 (proj2
               (export_then_import_restores_profiles (Demo.envOpen "Yes")
                  Workbench.platform Demo.loaded emptyWorld
                  eq_refl H1 H2 H3)))) _).
  by_computation.
Defined.

(** ** Context values *)

Lemma segments_app (s t : string) :
  includesChar colon s = false →
  segments colon (s +:+ String colon t) = (s, split colon t).
Proof.
  induction s as [|a s IH]; intros Hs.
  - rewrite append_nil_l. cbn [segments]. by rewrite Ascii.eqb_refl.
  - rewrite append_cons. cbn [segments]. cbn [includesChar] in Hs.
    apply orb_false_iff in Hs as [Ha Hs]. rewrite Ha, (IH Hs). done.
Qed.

Lemma segments_plain (s : string) :
  includesChar colon s = false → segments colon s = (s, []).
Proof.
  induction s as [|a s IH]; intros Hs; [done|].
  cbn [segments]. cbn [includesChar] in Hs.
  apply orb_false_iff in Hs as [Ha Hs]. by rewrite Ha, (IH Hs).
Qed.

Lemma segments_head (s : string) :
  (segments colon s).1 = s ↔ includesChar colon s = false.
Proof.
  split; [|intros Hs; by rewrite segments_plain].
  induction s as [|a s IH]; [done|].
  cbn [segments includesChar]. destruct (Ascii.eqb a colon); [done|].
  cbn. intros [= Heq]. by apply IH.
Qed.

Lemma split_app (s t : string) :
  split colon (s +:+ String colon t) = (split colon s ++ split colon t)%list.
Proof.
  unfold split. induction s as [|a s IH].
  - rewrite append_nil_l. cbn [segments]. by rewrite Ascii.eqb_refl.
  - rewrite append_cons. cbn [segments]. cbn [app] in IH.
    injection IH as IH1 IH2.
    destruct (Ascii.eqb a colon); cbn [fst snd app]; by rewrite IH1, IH2.
Qed.

Lemma join_cons (sep x y : string) (l : list string) :
  join sep (x :: y :: l) = x +:+ sep +:+ join sep (y :: l).
Proof. reflexivity. Qed.

Lemma join_split (s : string) : join ":" (split colon s) = s.
Proof.
  unfold split. induction s as [|a s IH]; [done|].
  cbn [segments]. destruct (Ascii.eqb a colon) eqn:Ha; cbn [fst snd].
  - apply Ascii.eqb_eq in Ha as ->. by rewrite join_cons, IH.
  - destruct (segments colon s) as [h tl]. cbn [fst snd] in *.
    destruct tl as [|x tl].
    + cbn [join] in *. by rewrite IH.
    + rewrite join_cons in *. by rewrite append_cons, IH.
Qed.

Lemma includesChar_app (s t : string) :
  includesChar colon (s +:+ t) = includesChar colon s || includesChar colon t.
Proof.
  induction s as [|a s IH]; [done|].
  rewrite append_cons. cbn [includesChar]. rewrite IH. by rewrite orb_assoc.
Qed.

Lemma prefix_app (p s t : string) :
  String.prefix (p +:+ s) (p +:+ t) = String.prefix s t.
Proof.
  induction p as [|a p IH]; [done|].
  rewrite !append_cons. cbn [String.prefix].
  destruct (Ascii.ascii_dec a a); [done|congruence].
Qed.

(** A colon-free category other than [cluster] never passes for a
    profile. *)
Lemma prefix_cluster (category rest : string) :
  includesChar colon category = false → category ≠ "cluster" →
  String.prefix "cluster:" (category +:+ String colon rest) = false.
Proof.
  intros Hc Hne.
  destruct (String.prefix "cluster:" (category +:+ String colon rest)) eqn:Hp;
    [|done].
  exfalso. apply Hne. clear Hne.
  repeat (destruct category as [|? category];
          [ cbn in Hp; try discriminate Hp;
            repeat (match type of Hp with
                    | (if ?d then _ else _) = true => destruct d; subst;
                        try discriminate Hp
                    end); try done
          | rewrite append_cons in Hp; cbn [String.prefix] in Hp;
            match type of Hp with
            | (if ?d then _ else _) = true => destruct d as [<-|];
                [|discriminate Hp]
            end ]).
  all: cbn in Hc; try discriminate Hc.
Qed.

(** ** The tree *)

Lemma split_cluster (id : string) :
  split colon ("cluster:" +:+ id) !! 1%nat = Some (segments colon id).1.
Proof.
  change ("cluster:" +:+ id) with ("cluster" +:+ String colon id).
  unfold split at 1. by rewrite segments_app.
Qed.

Lemma split_category (category rest : string) :
  includesChar colon category = false →
  split colon (category +:+ String colon rest) = category :: split colon rest.
Proof. intros Hc. unfold split at 1. by rewrite segments_app. Qed.

Lemma split_plain (s : string) :
  includesChar colon s = false → split colon s = [s].
Proof. intros Hs. unfold split. by rewrite segments_plain. Qed.

Lemma prefix_cluster_literal (id : string) :
  String.prefix "cluster:" ("cluster:" +:+ id) = true.
Proof. rewrite !append_cons, append_nil_l. cbn. by destruct id. Qed.

(** X15.  Expanding the top-level item of a profile shows the children
    of the profile whose id is the text of the item's id up to its first
    colon: the profile itself exactly when its id holds no colon. *)
Theorem profile_item_expands_to_its_profile (X : Platform) (F : Fetchers)
    (w w' : World) (id : string) (config : ClusterConfig.t) :
  getChildren X F (Some (clusterItem X w id config)) w' =
    (clusterChildren X w' (segments colon id).1, w')
  ∧ ((segments colon id).1 = id ↔ includesChar colon id = false).
Proof.
  split; [|apply segments_head].
  unfold getChildren.
  change (ExplorerItem.contextValue (clusterItem X w id config))
    with (Some ("cluster:" +:+ id)).
  cbn iota beta. by rewrite prefix_cluster_literal, split_cluster.
Qed.

(** X16.  The context value of a category item leads back to the handle
    of its profile.  For an id and a category without colon, the category
    not being [cluster]: an item whose context value is
    [category:id] expands to the [Not connected] item when the registry has
    no handle for the id, and otherwise to what the category shows for that
    handle and that id.  A data stream item [dataStream:name:id] expands to
    the indices of the stream [name], also when the name holds colons. *)
Theorem category_item_reaches_its_profile (X : Platform) (F : Fetchers)
    (w : World) (id category : string) (item : ExplorerItem.t) :
  includesChar colon id = false →
  includesChar colon category = false →
  category ≠ "cluster" →
  (ExplorerItem.contextValue item = Some (category +:+ ":" +:+ id) →
   getChildren X F (Some item) w =
     match JsMap.get id (clients w) with
     | Some client => categoryChildren X F category [id] (Some id) client w
     | None => ([errorItem "Not connected"], w)
     end)
  ∧ (∀ name client,
       ExplorerItem.contextValue item =
         Some ("dataStream:" +:+ name +:+ ":" +:+ id) →
       JsMap.get id (clients w) = Some client →
       getChildren X F (Some item) w =
         fetchDataStreamIndices F client name (Some id) w).
Proof.
  intros Hid Hcat Hne. split.
  - intros Hcv. unfold getChildren. rewrite Hcv. cbn iota beta.
    change (category +:+ ":" +:+ id) with (category +:+ String colon id).
    rewrite (prefix_cluster category id Hcat Hne).
    rewrite includesChar_app. cbn [includesChar].
    rewrite Ascii.eqb_refl, orb_true_r.
    rewrite !(split_category category id Hcat), (split_plain id Hid).
    cbn [tail head last default].
    unfold mbind, M_bind, gets. cbn [fst snd mbind option_bind].
    by destruct (JsMap.get id (clients w)).
  - intros name client Hcv Hclient. unfold getChildren. rewrite Hcv.
    cbn iota beta.
    change ("dataStream:" +:+ name +:+ ":" +:+ id)
      with ("dataStream" +:+ String colon (name +:+ String colon id)).
    rewrite (prefix_cluster "dataStream" _ eq_refl) by done.
    rewrite includesChar_app. cbn [includesChar].
    rewrite Ascii.eqb_refl, orb_true_r.
    rewrite !(split_category "dataStream" _ eq_refl), split_app,
      (split_plain id Hid).
    cbn [tail head default]. rewrite last_snoc.
    unfold mbind, M_bind, gets. cbn [fst snd mbind option_bind].
    rewrite Hclient. unfold categoryChildren.
    cbn [String.eqb Ascii.eqb Bool.eqb].
    rewrite removelast_last. by rewrite join_split.
Qed.

Lemma category_item_reaches_its_profile_witness :
  let w := Demo.loaded in
  let item := categoryItem "A" ("Roles", "roles", "person") in
  includesChar colon "A" = false
  ∧ includesChar colon "roles" = false
  ∧ "roles" ≠ "cluster"
  ∧ ExplorerItem.contextValue item = Some ("roles" +:+ ":" +:+ "A")
  ∧ ExplorerItem.label <$>
      (getChildren Workbench.platform Workbench.fetchers (Some item) w).1
    = ["admin"; "viewer"].
Proof.
  cbn zeta.
  assert (H1 : includesChar colon "A" = false) by reflexivity.
  assert (H2 : includesChar colon "roles" = false) by reflexivity.
  assert (H3 : "roles" ≠ "cluster") by done.
  assert (H4 : ExplorerItem.contextValue
                 (categoryItem "A" ("Roles", "roles", "person"))
               = Some ("roles" +:+ ":" +:+ "A")) by reflexivity.
  split; [exact H1|]. split; [exact H2|]. split; [exact H3|].
  split; [exact H4|].
  rewrite (proj1 (category_item_reaches_its_profile Workbench.platform
                    Workbench.fetchers Demo.loaded "A" "roles" _ H1 H2 H3) H4).
  by_computation.
Defined.

(** ** The context menu *)

Lemma prefix_nil (s : string) : String.prefix EmptyString s = true.
Proof. by destruct s. Qed.

Lemma esExt_clusterContextMenu_other E item w :
  (∀ cv, ExplorerItem.contextValue item = Some cv →
         String.prefix "clusterItem:" cv = false) →
  esExt_clusterContextMenu E item w = ((), w).
Proof.
  intros Hcv. unfold esExt_clusterContextMenu.
  destruct (ExplorerItem.contextValue item) as [cv|]; [|done].
  by rewrite (Hcv cv eq_refl).
Qed.

(** X17.  The context-menu handler acts on no item of the tree.  For
    every item of the root level, of an expanded profile and of its links
    section the handler returns at once: it asks nothing and changes
    nothing, because it looks for context values starting with
    [clusterItem:] and the tree makes none. *)
Theorem context_menu_ignores_tree_items (E : Env) (X : Platform)
    (w : World) (id : string) (item : ExplorerItem.t) :
  item ∈ rootItems X w ∨ item ∈ clusterChildren X w id
  ∨ item ∈ fetchImportantLinks w (Some id) →
  ∀ w', esExt_clusterContextMenu E item w' = ((), w').
Proof.
  intros Hitem w'. apply esExt_clusterContextMenu_other. intros cv Hcv.
  destruct Hitem as [Hitem|[Hitem|Hitem]].
  - unfold rootItems in Hitem.
    destruct (length (clusters w) =? 0)%nat.
    + apply list_elem_of_singleton in Hitem as ->. by injection Hcv as <-.
    + apply elem_of_app in Hitem as [Hitem|Hitem].
      * apply list_elem_of_fmap in Hitem as ([i c] & -> & _).
        injection Hcv as <-. by rewrite !append_cons.
      * apply list_elem_of_singleton in Hitem as ->. by injection Hcv as <-.
  - unfold clusterChildren in Hitem.
    destruct (negb (JsMap.has id (clients w))).
    + apply elem_of_cons in Hitem as [->|Hitem]; [by injection Hcv as <-|].
      apply list_elem_of_singleton in Hitem as ->. by injection Hcv as <-.
    + repeat (apply elem_of_app in Hitem as [Hitem|Hitem]).
      * destruct (clusterHealth w !! id) as [h|];
          [|by apply elem_of_nil in Hitem].
        unfold healthItems in Hitem.
        apply elem_of_cons in Hitem as [->|Hitem];
          [injection Hcv as <-; by rewrite !append_cons|].
        apply list_elem_of_singleton in Hitem as ->.
        injection Hcv as <-. by rewrite !append_cons.
      * apply list_elem_of_fmap in Hitem as (c & -> & Hc).
        unfold categories in Hc.
        repeat (apply elem_of_cons in Hc as [->|Hc]);
          [..|by apply elem_of_nil in Hc];
          injection Hcv as <-; by rewrite !append_cons.
      * apply list_elem_of_singleton in Hitem as ->. by injection Hcv as <-.
      * destruct (bool_decide _); [|by apply elem_of_nil in Hitem].
        apply list_elem_of_singleton in Hitem as ->. by injection Hcv as <-.
      * apply elem_of_cons in Hitem as [->|Hitem]; [by injection Hcv as <-|].
        apply list_elem_of_singleton in Hitem as ->. by injection Hcv as <-.
  - unfold fetchImportantLinks in Hitem.
    destruct (Some id ≫= _).
    + repeat (apply elem_of_cons in Hitem as [->|Hitem]);
        [..|by apply elem_of_nil in Hitem];
        injection Hcv as <-; by rewrite !append_cons.
    + apply list_elem_of_singleton in Hitem as ->. discriminate Hcv.
Qed.

Lemma context_menu_ignores_tree_items_witness :
  let item := clusterItem Workbench.platform Demo.loaded "A" Demo.cfgA in
  item ∈ rootItems Workbench.platform Demo.loaded
  ∧ esExt_clusterContextMenu (Demo.envOpen "Connect") item Demo.loaded
    = ((), Demo.loaded).
Proof.
  cbn zeta.
  assert (H : clusterItem Workbench.platform Demo.loaded "A" Demo.cfgA
              ∈ rootItems Workbench.platform Demo.loaded) by decide_closed.
  split; [exact H|].
  exact (context_menu_ignores_tree_items (Demo.envOpen "Connect")
           Workbench.platform Demo.loaded "A" _ (or_introl H) Demo.loaded).
Defined.

(** ** The ids of the add flow *)

Lemma pretty_N_go_no_colon (x : N) : ∀ s,
  includesChar colon s = false →
  includesChar colon (pretty_N_go x s) = false.
Proof.
  induction (N.lt_wf_0 x) as [x _ IH]; intros s Hs.
  assert (x = 0 ∨ 0 < x)%N as [->|Hx] by lia; [by rewrite pretty_N_go_0|].
  rewrite pretty_N_go_step by done. apply IH; [by apply N.div_lt|].
  cbn [includesChar]. rewrite Hs, orb_false_r.
  unfold pretty_N_char. by repeat case_match.
Qed.

Lemma pretty_N_no_colon (x : N) : includesChar colon (pretty x) = false.
Proof.
  unfold pretty, pretty_N. destruct (decide _); [done|].
  by apply pretty_N_go_no_colon.
Qed.

Lemma pretty_Z_no_colon (z : Z) : includesChar colon (pretty z) = false.
Proof.
  destruct z as [|p|p]; [done|apply (pretty_N_no_colon (N.pos p))|].
  change (pretty (Z.neg p)) with ("-" +:+ pretty (N.pos p)).
  by rewrite includesChar_app, (pretty_N_no_colon (N.pos p)).
Qed.

Lemma testConnectionAndSave_clusters E clusterId name deploymentType target
    authMethod credentials insecure w :
  let w' := (testConnectionAndSave E clusterId name deploymentType target
               authMethod credentials insecure w).2 in
  clusters w' = clusters w
  ∨ clusters w' =
      JsMap.set clusterId
        (addedConfig clusterId name deploymentType target authMethod insecure)
        (clusters w).
Proof.
  cbn zeta.
  pattern (testConnectionAndSave E clusterId name deploymentType target
             authMethod credentials insecure w).2.
  match goal with |- ?P _ => set (Q := P) end.
  unfold testConnectionAndSave.
  unfold mbind at 1, M_bind at 1. rewrite probe_eq. cbn [fst snd].
  destruct (ping E (clock w) _) as [|message].
  - unfold mbind at 1, M_bind at 1. cbn [fst snd].
    rewrite addCluster_world. cbn zeta.
    unfold mbind at 1, M_bind at 1. cbn [fst snd].
    match goal with |- context [storeClusterCredentials _ _ _ ?x] =>
      set (w2 := x) end.
    assert (Hc2 : clusters w2 =
              JsMap.set clusterId
                (addedConfig clusterId name deploymentType target authMethod
                   insecure) (clusters w)).
    { subst w2. cbn. by destruct (includes _ _); destruct (truthy _). }
    destruct (storeClusterCredentials_untouched clusterId authMethod
                credentials w2) as ((Hc3 & _) & _ & _).
    destruct (storeClusterCredentials clusterId authMethod credentials w2)
      as [stored w3]. cbn [fst snd] in *.
    destruct stored.
    + unfold mbind, M_bind, showInformationMessage, refresh. run.
      destruct (connectToCluster_kept E clusterId w3) as ((Hc4 & _) & _).
      subst Q. right. cbn. by rewrite Hc4, Hc3.
    + unfold showErrorMessage. run. subst Q. right. cbn. by rewrite Hc3.
  - unfold showErrorMessage. run. subst Q. by left.
Qed.

(** X18.  Every profile that the add flow puts into the profile table
    can be expanded in the tree.  An entry of the table after the flow was
    there before, or it is the new profile: its key is [cluster-] followed
    by the decimal time at which the flow started, the profile carries that
    id, the id holds no colon, and expanding its top-level item shows the
    children of that very profile. *)
Theorem add_flow_profile_is_expandable (E : Env) (X : Platform)
    (F : Fetchers) (w : World) (i : string) (config : ClusterConfig.t) :
  JsMap.get i (clusters (esExt_addCluster E w).2) = Some config →
  JsMap.get i (clusters w) = Some config
  ∨ (i = "cluster-" +:+ pretty (now E (clock w))
     ∧ ClusterConfig.id config = i
     ∧ includesChar colon i = false
     ∧ ∀ w1 w2, getChildren X F (Some (clusterItem X w1 i config)) w2 =
                  (clusterChildren X w2 i, w2)).
Proof.
  apply (esExt_addCluster_cases E w
           (λ r, JsMap.get i (clusters r.2) = Some config → _ ∨ _));
    cbn [snd].
  - intros w' ((Hc & _) & _) Hget. left. by rewrite <- Hc.
  - intros w5 name deploymentType target authMethod credentials insecure
      ((Hc & _) & _) Hget.
    set (clusterId := "cluster-" +:+ pretty (now E (clock w))) in *.
    assert (Hc5 : clusters (if insecure
                            then set_NODE_TLS_REJECT_UNAUTHORIZED (Some "0") w5
                            else w5) = clusters w)
      by (by destruct insecure).
    destruct (testConnectionAndSave_clusters E clusterId name deploymentType
                target authMethod credentials insecure
                (if insecure
                 then set_NODE_TLS_REJECT_UNAUTHORIZED (Some "0") w5
                 else w5)) as [Hsame|Hset];
      cbn zeta in *.
    { left. by rewrite <- Hc5, <- Hsame. }
    rewrite Hset, Hc5 in Hget.
    destruct (decide (i = clusterId)) as [->|Hne].
    + right. rewrite JsMap_get_set_eq in Hget. injection Hget as <-.
      assert (Hcolon : includesChar colon clusterId = false).
      { subst clusterId. by rewrite includesChar_app, pretty_Z_no_colon. }
      repeat split; [done|].
      intros w1 w2. unfold getChildren.
      change (ExplorerItem.contextValue (clusterItem X w1 clusterId _))
        with (Some ("cluster:" +:+ clusterId)).
      cbn iota beta.
      by rewrite prefix_cluster_literal, split_cluster,
           (segments_plain clusterId Hcolon).
    + left. by rewrite JsMap_get_set_ne in Hget.
Qed.

Lemma add_flow_profile_is_expandable_witness :
  let E := Demo.envOpen "Yes" in
  let config := addedConfig "cluster-1000" "Local" "Self-managed Cluster"
                  (Some "http://localhost:9200") "None" false in
  JsMap.get "cluster-1000" (clusters (esExt_addCluster E emptyWorld).2)
  = Some config
  ∧ (JsMap.get "cluster-1000" (clusters emptyWorld) = Some config
     ∨ ("cluster-1000" = "cluster-" +:+ pretty (now E (clock emptyWorld))
        ∧ ClusterConfig.id config = "cluster-1000"
        ∧ includesChar colon "cluster-1000" = false
        ∧ ∀ w1 w2,
            getChildren Workbench.platform Workbench.fetchers
              (Some (clusterItem Workbench.platform w1 "cluster-1000"
                       config)) w2
            = (clusterChildren Workbench.platform w2 "cluster-1000", w2))).
Proof.
  cbn zeta.
  assert (Hget :
    JsMap.get "cluster-1000"
      (clusters (esExt_addCluster (Demo.envOpen "Yes") emptyWorld).2)
    = Some (addedConfig "cluster-1000" "Local" "Self-managed Cluster"
              (Some "http://localhost:9200") "None" false))
    by (vm_compute; reflexivity).
  split; [exact Hget|].
  exact (add_flow_profile_is_expandable (Demo.envOpen "Yes")
           Workbench.platform Workbench.fetchers emptyWorld "cluster-1000"
           _ Hget).
Defined.

(** ** The custom CA certificate *)

Lemma buildClientOptions_ca clusterId config w :
  tls_ca (buildClientOptions clusterId config w).1 =
    if truthy (gs_caCertificate w) then gs_caCertificate w else None.
Proof.
  unfold buildClientOptions, loadAuth, secrets_get. run. by split_ifs.
Qed.

Lemma emitted_eq {A : Type} (m : M A) (w : World) (l : list Event) :
  events (m w).2 = (events w ++ l)%list → emitted m w = l.
Proof. intros He. unfold emitted. by rewrite He, drop_app_length. Qed.

(** The one probe of a silent connect carries the persisted CA
    certificate, when it is not empty. *)
Lemma connectToClusterSilently_ca E clusterId config w :
  JsMap.get clusterId (clusters w) = Some config →
  ∃ opts ok,
    pings (emitted (connectToClusterSilently E clusterId) w) = [(opts, ok)]
    ∧ tls_ca opts =
        if truthy (gs_caCertificate w) then gs_caCertificate w else None.
Proof.
  intros Hget.
  destruct (connectToClusterSilently_spec E clusterId config w Hget)
    as (_ & _ & _ & _ & _ & He).
  exists (buildClientOptions clusterId config w).1,
    (resolved (ping E (clock w) (buildClientOptions clusterId config w).1)).
  split; [|apply buildClientOptions_ca].
  rewrite (emitted_eq _ _ _ He).
  by destruct (resolved _).
Qed.

Lemma esExt_setCACertificate_eq X w fileUri rest content :
  showOpenDialog X (clock w) = Some (fileUri :: rest) →
  readFile X (S (clock w)) fileUri = inl content →
  (esExt_setCACertificate X w).2 =
    set_events
      (events w ++
         [InformationMessage
            "CA certificate set. All new cluster connections will use this certificate."])
      (set_gs_caCertificate (Some content)
         (set_clock (S (S (clock w))) w)).
Proof.
  intros Hopen Hread.
  unfold esExt_setCACertificate, showInformationMessage. run.
  rewrite Hopen. run. rewrite Hread. by run.
Qed.

(** X19.  The CA certificate commands decide what later connections
    send.  After the user picked a readable file, the probe of a silent
    connect to a known profile carries the file's text as its CA, unless the
    text is empty; profiles, registry and secrets are as before, so a handle
    made earlier keeps the options it was made with.  After the clear
    command the probe carries no CA. *)
Theorem ca_certificate_reaches_later_connections (E : Env) (X : Platform)
    (w : World) (clusterId : string) (config : ClusterConfig.t) :
  JsMap.get clusterId (clusters w) = Some config →
  (∀ fileUri rest content,
     showOpenDialog X (clock w) = Some (fileUri :: rest) →
     readFile X (S (clock w)) fileUri = inl content →
     let w1 := (esExt_setCACertificate X w).2 in
     clusters w1 = clusters w ∧ clients w1 = clients w
     ∧ secrets w1 = secrets w
     ∧ ∃ opts ok,
         pings (emitted (connectToClusterSilently E clusterId) w1)
         = [(opts, ok)]
         ∧ tls_ca opts =
             if String.eqb content EmptyString then None else Some content)
  ∧ (let w2 := (esExt_clearCACertificate w).2 in
     ∃ opts ok,
       pings (emitted (connectToClusterSilently E clusterId) w2)
       = [(opts, ok)]
       ∧ tls_ca opts = None).
Proof.
  intros Hget. split.
  - intros fileUri rest content Hopen Hread. cbn zeta.
    rewrite (esExt_setCACertificate_eq X w fileUri rest content Hopen Hread).
    do 3 (split; [done|]).
    match goal with |- context [emitted _ ?x] =>
      destruct (connectToClusterSilently_ca E clusterId config x Hget)
        as (opts & ok & Hp & Hca) end.
    exists opts, ok. split; [exact Hp|].
    rewrite Hca. cbn. by destruct (String.eqb content EmptyString).
  - cbn zeta.
    match goal with |- context [emitted _ ?x] =>
      destruct (connectToClusterSilently_ca E clusterId config x Hget)
        as (opts & ok & Hp & Hca) end.
    exists opts, ok. split; [exact Hp|]. by rewrite Hca.
Qed.

Lemma ca_certificate_reaches_later_connections_witness :
  let E := Demo.envOpen "Yes" in
  let X := Workbench.platform in
  let w1 := (esExt_setCACertificate X Demo.loaded).2 in
  JsMap.get "A" (clusters Demo.loaded) = Some Demo.cfgA
  ∧ showOpenDialog X (clock Demo.loaded) = Some ["/home/dev/ca.pem"]
  ∧ readFile X (S (clock Demo.loaded)) "/home/dev/ca.pem"
    = inl "-----BEGIN CERTIFICATE-----"
  ∧ clusters w1 = clusters Demo.loaded ∧ clients w1 = clients Demo.loaded
  ∧ secrets w1 = secrets Demo.loaded
  ∧ ∃ opts ok,
      pings (emitted (connectToClusterSilently E "A") w1) = [(opts, ok)]
      ∧ tls_ca opts = Some "-----BEGIN CERTIFICATE-----".
Proof.
  cbn zeta.
  assert (H1 : JsMap.get "A" (clusters Demo.loaded) = Some Demo.cfgA)
    by (vm_compute; reflexivity).
  assert (H2 : showOpenDialog Workbench.platform (clock Demo.loaded)
               = Some ["/home/dev/ca.pem"]) by reflexivity.
  assert (H3 : readFile Workbench.platform (S (clock Demo.loaded))
                 "/home/dev/ca.pem" = inl "-----BEGIN CERTIFICATE-----")
    by reflexivity.
  split; [exact H1|]. split; [exact H2|]. split; [exact H3|].
  exact (proj1 (ca_certificate_reaches_later_connections (Demo.envOpen "Yes")
                  Workbench.platform Demo.loaded "A" Demo.cfgA H1)
           "/home/dev/ca.pem" [] "-----BEGIN CERTIFICATE-----" H2 H3).
Defined.

(** X20.  The test probe of the add flow never carries the custom CA
    certificate: whatever the persisted certificate is, the first probe in
    the log of the flow has no CA among its options. *)
Theorem add_flow_probe_ignores_custom_ca (E : Env) (w : World)
    (opts : ClientOptions) (ok : bool) :
  head (pings (emitted (esExt_addCluster E) w)) = Some (opts, ok) →
  tls_ca opts = None.
Proof.
  apply (esExt_addCluster_cases E w
           (λ r, head (pings (drop (length (events w)) (events r.2)))
                 = Some (opts, ok) → _)); cbn [snd].
  - intros w' (_ & _ & l & He & Hp & _). rewrite He, drop_app_length, Hp.
    discriminate.
  - intros w5 name deploymentType target authMethod credentials insecure
      (_ & _ & l0 & He & Hp & _).
    destruct (testConnectionAndSave_log E
                ("cluster-" +:+ pretty (now E (clock w))) name deploymentType
                target authMethod credentials insecure
                (if insecure
                 then set_NODE_TLS_REJECT_UNAUTHORIZED (Some "0") w5
                 else w5)) as [l Hl].
    cbn zeta in Hl. rewrite Hl.
    assert (He5 : events (if insecure
                          then set_NODE_TLS_REJECT_UNAUTHORIZED (Some "0") w5
                          else w5) = (events w ++ l0)%list)
      by (by destruct insecure).
    rewrite He5, <- app_assoc, drop_app_length, pings_app, Hp.
    cbn. by intros [= <- _].
Qed.

Lemma add_flow_probe_ignores_custom_ca_witness :
  let E := Demo.envOpen "Yes" in
  let w := (esExt_setCACertificate Workbench.platform emptyWorld).2 in
  let opts := {| endpoint := Node (Some "http://localhost:9200");
                 auth := None; ssl_rejectUnauthorized := None;
                 tls_ca := None |} in
  gs_caCertificate w = Some "-----BEGIN CERTIFICATE-----"
  ∧ head (pings (emitted (esExt_addCluster E) w)) = Some (opts, true)
  ∧ tls_ca opts = None.
Proof.
  cbn zeta. split; [reflexivity|].
  assert (H : head (pings (emitted (esExt_addCluster (Demo.envOpen "Yes"))
                 (esExt_setCACertificate Workbench.platform emptyWorld).2))
              = Some ({| endpoint := Node (Some "http://localhost:9200");
                         auth := None; ssl_rejectUnauthorized := None;
                         tls_ca := None |}, true))
    by (vm_compute; reflexivity).
  split; [exact H|].
  exact (add_flow_probe_ignores_custom_ca (Demo.envOpen "Yes") _ _ _ H).
Defined.
